(** * optistock: paginated extraction, normalization and warehouse load

    A shallow embedding of the repository's Python code:
    - [scraping/download_query_inventory.py], [download_query_movements.py],
      [download_query_purchases.py], [download_query_sales.py]: the paginated
      fetch loop, the record normalizers and the incremental CSV sink;
    - [GCP_uploads/upload_csv_to_bigquery.py]: schema resolution and the load job;
    - [scraping/batch_upload.py] with [scraping/config.py]: the batch coordinator.

    Python values that come out of [response.json()] are modelled by [json];
    Python exceptions by [exn]; a statement sequence that mutates
    [processed_items] and may raise by the state-and-exception monad [M]. *)

From Stdlib Require Import String Ascii List ZArith Bool Lia Floats.
Import ListNotations.
Local Open Scope string_scope.
Local Open Scope list_scope.

(** ** Python values *)

(** What [json.loads] builds: [None], [bool], [int], [float], [str], [list]
    and [dict] (insertion-ordered, keys are strings and pairwise distinct). *)
#[warnings="-register-all"] Inductive json : Type :=
| JNull
| JBool (b : bool)
| JInt (z : Z)
| JFloat (f : float)
| JStr (s : string)
| JArr (l : list json)
| JObj (kvs : list (string * json)).

(** The exceptions the code meets: the four a normalizer can raise on a
    malformed record, and on the warehouse side [NotFound], [BadRequest] and
    any other [Exception] of the client library or of file access. *)
Inductive exn : Type :=
| KeyError | TypeError | IndexError | AttributeError
| NotFound | BadRequest | OtherException.

Definition exn_eqb (a b : exn) : bool :=
  match a, b with
  | KeyError, KeyError | TypeError, TypeError
  | IndexError, IndexError | AttributeError, AttributeError
  | NotFound, NotFound | BadRequest, BadRequest
  | OtherException, OtherException => true
  | _, _ => false
  end.

Inductive result (A : Type) : Type :=
| Ok (a : A)
| Raise (e : exn).
Arguments Ok {A} a.
Arguments Raise {A} e.

(** A Python dict under construction: insertion-ordered association list. *)
Definition row : Type := list (string * json).

Fixpoint lookup (k : string) (kvs : list (string * json)) : option json :=
  match kvs with
  | [] => None
  | (k', v) :: rest => if String.eqb k k' then Some v else lookup k rest
  end.

(** [d[k] = v]: overwrite in place when the key is there, else add at the end. *)
Fixpoint dict_set (d : row) (k : string) (v : json) : row :=
  match d with
  | [] => [(k, v)]
  | (k', v') :: rest =>
      if String.eqb k k' then (k', v) :: rest else (k', v') :: dict_set rest k v
  end.

Definition keys (d : row) : list string := map fst d.

(** [bool(x)] *)
Definition truthy (x : json) : bool :=
  match x with
  | JNull => false
  | JBool b => b
  | JInt z => negb (Z.eqb z 0)
  | JFloat f => negb (PrimFloat.eqb f PrimFloat.zero)
  | JStr s => negb (String.eqb s "")
  | JArr l => match l with [] => false | _ => true end
  | JObj kvs => match kvs with [] => false | _ => true end
  end.

(** [x[k]] with a string key. *)
Definition py_getitem (x : json) (k : string) : result json :=
  match x with
  | JObj kvs => match lookup k kvs with Some v => Ok v | None => Raise KeyError end
  | _ => Raise TypeError
  end.

(** A string is held as its UTF-8 bytes; a byte [10xxxxxx] continues the
    character of the byte before it. *)
Definition is_continuation (c : ascii) : bool :=
  let n := nat_of_ascii c in
  (Nat.leb 128 n && Nat.leb n 191)%bool.

(** The characters of a string, each as a string of length 1, as
    [for c in s] walks them. *)
Fixpoint chars (s : string) : list json :=
  match s with
  | EmptyString => []
  | String c s' =>
      let rest := chars s' in
      match s' with
      | String d _ =>
          if is_continuation d
          then match rest with
               | JStr h :: t => JStr (String c h) :: t
               | _ => JStr (String c EmptyString) :: rest
               end
          else JStr (String c EmptyString) :: rest
      | EmptyString => JStr (String c EmptyString) :: rest
      end
  end.

(** [x[i]] with a non-negative integer index. A dict parsed from JSON has
    only string keys, so an integer subscript is always a missing key. *)
Definition py_getitem_idx (x : json) (i : nat) : result json :=
  match x with
  | JArr l => match nth_error l i with Some v => Ok v | None => Raise IndexError end
  | JStr s => match nth_error (chars s) i with Some c => Ok c | None => Raise IndexError end
  | JObj _ => Raise KeyError
  | _ => Raise TypeError
  end.

(** [x.get(k, default)]: only a dict has the method. *)
Definition py_get (x : json) (k : string) (default : json) : result json :=
  match x with
  | JObj kvs => match lookup k kvs with Some v => Ok v | None => Ok default end
  | _ => Raise AttributeError
  end.

Fixpoint is_substring (k s : string) : bool :=
  String.prefix k s
  || match s with
     | EmptyString => false
     | String _ s' => is_substring k s'
     end.

(** [k in x] for a string [k]. *)
Definition py_contains (k : string) (x : json) : result bool :=
  match x with
  | JObj kvs => Ok (match lookup k kvs with Some _ => true | None => false end)
  | JArr l => Ok (existsb (fun e => match e with JStr s => String.eqb k s | _ => false end) l)
  | JStr s => Ok (is_substring k s)
  | _ => Raise TypeError
  end.

(** What [for item in x] walks over. *)
Definition py_iter (x : json) : result (list json) :=
  match x with
  | JArr l => Ok l
  | JObj kvs => Ok (map (fun kv => JStr (fst kv)) kvs)
  | JStr s => Ok (chars s)
  | _ => Raise TypeError
  end.

(** ** Statements: state and exceptions

    [S] is the mutable state a function body works on (here the list
    [processed_items]); a raised exception leaves the state as it was at the
    point of the raise, as in Python. *)
Definition M (S A : Type) : Type := S -> result A * S.

Definition ret {S A} (a : A) : M S A := fun s => (Ok a, s).
Definition raise {S A} (e : exn) : M S A := fun s => (Raise e, s).
Definition bind {S A B} (m : M S A) (f : A -> M S B) : M S B :=
  fun s => match m s with
           | (Ok a, s') => f a s'
           | (Raise e, s') => (Raise e, s')
           end.
Definition lift {S A} (r : result A) : M S A := fun s => (r, s).
Definition modify {S} (f : S -> S) : M S unit := fun s => (Ok tt, f s).

Declare Scope py_scope.
Delimit Scope py_scope with py.
Notation "x <- m ;; k" := (bind m (fun x => k))
  (at level 61, m at next level, right associativity) : py_scope.
Notation "m ;;; k" := (bind m (fun _ => k))
  (at level 61, right associativity) : py_scope.
Local Open Scope py_scope.

(** [try: body except (caught...): handler] *)
Definition try_except {S A} (body : M S A) (caught : list exn) (handler : M S A) : M S A :=
  fun s => match body s with
           | (Ok a, s') => (Ok a, s')
           | (Raise e, s') =>
               if existsb (exn_eqb e) caught then handler s' else (Raise e, s')
           end.

(** [try: body except (caught...) as e: handler e] *)
Definition try_except_as {S A} (body : M S A) (caught : exn -> bool)
           (handler : exn -> M S A) : M S A :=
  fun s => match body s with
           | (Ok a, s') => (Ok a, s')
           | (Raise e, s') => if caught e then handler e s' else (Raise e, s')
           end.

(** [except Exception]: every exception of [exn] is an [Exception]. *)
Definition any_exception (e : exn) : bool := true.

(** [for x in l: body] over an already materialised sequence. *)
Fixpoint for_each {S A} (l : list A) (body : A -> M S unit) : M S unit :=
  match l with
  | [] => ret tt
  | x :: rest => body x ;;; for_each rest body
  end.

(** [a[k1][k2]...]: evaluation stops at the first subscript that raises. *)
Definition and_then {A B} (r : result A) (f : A -> result B) : result B :=
  match r with
  | Ok a => f a
  | Raise e => Raise e
  end.

(** ** The normalizers' state

    Each [process_*_data] function owns the list [processed_items]; the
    [logging.warning] calls are kept as well, each with the record id the
    message shows and the exception it reports. *)
Record nstate : Type := mk_nstate {
  processed_items : list row;
  warnings : list (json * exn)
}.

Definition nstate0 : nstate := mk_nstate [] [].

(** [processed_items.append(r)] *)
Definition append_row (r : row) : M nstate unit :=
  modify (fun s => mk_nstate (processed_items s ++ [r]) (warnings s)).

(** [logging.warning(f"Error processing ... {shown}: {e}")] *)
Definition log_warning (shown : json) (e : exn) : M nstate unit :=
  modify (fun s => mk_nstate (processed_items s) (warnings s ++ [(shown, e)])).

(** What the caller of a normalizer gets: the returned list, or the
    exception that left the function. *)
Definition returned (r : result unit * nstate) : result (list row) :=
  match r with
  | (Ok _, s) => Ok (processed_items s)
  | (Raise e, _) => Raise e
  end.

(** [try: d[col] = <expr> except (caught): d[col] = None], the block the
    inventory and movements normalizers repeat for each field. *)
Definition set_or_none (d : row) (col : string) (expr : result json)
           (caught : list exn) : M nstate row :=
  try_except (v <- lift expr ;; ret (dict_set d col v))
             caught
             (ret (dict_set d col JNull)).

(** ** Inventory: [download_query_inventory.py] *)
Module Inventory.

Definition process_item (item : json) : M nstate unit :=
  let item_data : row := [] in
  item_data <- set_or_none item_data "id" (py_getitem item "id")
                 [KeyError; TypeError] ;;
  item_data <- set_or_none item_data "name" (py_getitem item "name")
                 [KeyError; TypeError] ;;
  item_data <- set_or_none item_data "initial_quantity"
                 (and_then (py_getitem item "inventory")
                           (fun inv => py_getitem inv "initialQuantity"))
                 [KeyError; TypeError] ;;
  item_data <- set_or_none item_data "initial_quantity_date"
                 (and_then (py_getitem item "inventory")
                           (fun inv => py_getitem inv "initialQuantityDate"))
                 [KeyError; TypeError] ;;
  item_data <- set_or_none item_data "final_available_quantity"
                 (and_then (py_getitem item "inventory")
                           (fun inv => py_getitem inv "availableQuantity"))
                 [KeyError; TypeError] ;;
  item_data <- set_or_none item_data "photo_url"
                 (and_then (py_getitem item "images") (fun imgs =>
                  and_then (py_getitem_idx imgs 0) (fun img =>
                  py_getitem img "url")))
                 [KeyError; TypeError; IndexError] ;;
  append_row item_data.

Definition exec_items (items : list json) : result unit * nstate :=
  for_each items process_item nstate0.

Definition process_items_data (items : list json) : result (list row) :=
  returned (exec_items items).

(** The keys of [item_data], in the order the function sets them. *)
Definition columns : list string :=
  ["id"; "name"; "initial_quantity"; "initial_quantity_date";
   "final_available_quantity"; "photo_url"].

End Inventory.

(** ** Warehouse transfers: [download_query_movements.py] *)
Module Movements.

Definition process_transfer_item (transfer_info : row) (item : json) : M nstate unit :=
  let item_data : row := transfer_info (* transfer_info.copy() *) in
  item_data <- set_or_none item_data "item_id" (py_getitem item "id")
                 [KeyError; TypeError] ;;
  item_data <- set_or_none item_data "item_name" (py_getitem item "name")
                 [KeyError; TypeError] ;;
  item_data <- set_or_none item_data "quantity" (py_getitem item "quantity")
                 [KeyError; TypeError] ;;
  append_row item_data.

Definition process_transfer (transfer : json) : M nstate unit :=
  let transfer_info : row := [] in
  transfer_info <- set_or_none transfer_info "movement_date"
                     (py_getitem transfer "date")
                     [KeyError; TypeError] ;;
  transfer_info <- set_or_none transfer_info "warehouse_origin"
                     (and_then (py_getitem transfer "origin")
                               (fun o => py_getitem o "name"))
                     [KeyError; TypeError] ;;
  transfer_info <- set_or_none transfer_info "warehouse_destination"
                     (and_then (py_getitem transfer "destination")
                               (fun d => py_getitem d "name"))
                     [KeyError; TypeError] ;;
  try_except
    (items <- lift (py_getitem transfer "items") ;;
     elems <- lift (py_iter items) ;;
     for_each elems (process_transfer_item transfer_info))
    [KeyError; TypeError]
    (append_row transfer_info).

Definition exec_transfers (transfers : list json) : result unit * nstate :=
  for_each transfers process_transfer nstate0.

Definition process_warehouse_transfers_data (transfers : list json) : result (list row) :=
  returned (exec_transfers transfers).

Definition parent_columns : list string :=
  ["movement_date"; "warehouse_origin"; "warehouse_destination"].

Definition item_columns : list string := ["item_id"; "item_name"; "quantity"].

Definition columns : list string := parent_columns ++ item_columns.

End Movements.

(** ** Purchase orders: [download_query_purchases.py] *)
Module Purchases.

(** [try: item_data[col] = v except (KeyError, TypeError): item_data[col] = None]
    where [v] is a local that is already bound. *)
Definition set_local (item_data : row) (col : string) (v : json) : M nstate row :=
  try_except (ret (dict_set item_data col v))
             [KeyError; TypeError]
             (ret (dict_set item_data col JNull)).

Definition process_order_item (order_id delivery_date warehouse_name item : json)
  : M nstate unit :=
  let item_data : row := [] in
  item_data <- set_local item_data "invoice_id" order_id ;;
  item_data <- set_local item_data "added_inventory_date" delivery_date ;;
  item_data <- set_local item_data "provider_id" order_id ;;
  item_data <- set_local item_data "warehouse_name" warehouse_name ;;
  item_data <- set_or_none item_data "price_provider" (py_get item "price" JNull)
                 [KeyError; TypeError] ;;
  item_data <- set_or_none item_data "quantity" (py_get item "quantity" JNull)
                 [KeyError; TypeError] ;;
  item_data <- set_or_none item_data "item_id" (py_get item "id" JNull)
                 [KeyError; TypeError] ;;
  item_data <- set_or_none item_data "item_name" (py_get item "name" JNull)
                 [KeyError; TypeError] ;;
  append_row item_data.

(** [order.get("warehouse", {}).get("name") if order.get("warehouse") else None] *)
Definition warehouse_name_of (order : json) : result json :=
  and_then (py_get order "warehouse" JNull) (fun cond =>
  if truthy cond
  then and_then (py_get order "warehouse" (JObj [])) (fun w => py_get w "name" JNull)
  else Ok JNull).

(** The two statements that settle [purchases_items]. *)
Definition purchases_items_of (order : json) : result json :=
  and_then (py_get order "purchases" (JObj [])) (fun p =>
  and_then (py_get p "items" (JArr [])) (fun purchases_items =>
  if negb (truthy purchases_items)
  then and_then (py_contains "items" order) (fun has_items =>
       if has_items then py_getitem order "items" else Ok purchases_items)
  else Ok purchases_items)).

Definition process_order (order : json) : M nstate unit :=
  try_except_as
    (order_id <- lift (py_getitem order "id") ;;
     delivery_date <- lift (py_get order "deliveryDate" JNull) ;;
     warehouse_name <- lift (warehouse_name_of order) ;;
     purchases_items <- lift (purchases_items_of order) ;;
     elems <- lift (py_iter purchases_items) ;;
     for_each elems (process_order_item order_id delivery_date warehouse_name))
    any_exception
    (fun e =>
       shown <- lift (py_get order "id" (JStr "unknown")) ;;
       log_warning shown e).

Definition exec_orders (orders : list json) : result unit * nstate :=
  for_each orders process_order nstate0.

Definition process_purchase_orders_data (orders : list json) : result (list row) :=
  returned (exec_orders orders).

Definition columns : list string :=
  ["invoice_id"; "added_inventory_date"; "provider_id"; "warehouse_name";
   "price_provider"; "quantity"; "item_id"; "item_name"].

End Purchases.

(** ** Invoices: [download_query_sales.py] *)
Module Sales.

(** The dict display: the values are evaluated left to right. *)
Definition process_invoice_item (invoice_id sale_date warehouse_name item : json)
  : M nstate unit :=
  item_id <- lift (py_get item "id" JNull) ;;
  item_name <- lift (py_get item "name" JNull) ;;
  item_quantity <- lift (py_get item "quantity" JNull) ;;
  let item_data : row :=
    [("factura_id", invoice_id); ("fecha_venta", sale_date);
     ("item_id", item_id); ("item_name", item_name);
     ("item_quantity", item_quantity); ("warehouse_name", warehouse_name)] in
  append_row item_data.

Definition process_invoice (invoice : json) : M nstate unit :=
  try_except_as
    (invoice_id <- lift (py_get invoice "id" JNull) ;;
     sale_date <- lift (py_get invoice "date" JNull) ;;
     items <- lift (py_get invoice "items" (JArr [])) ;;
     warehouse_name <- lift (and_then (py_get invoice "warehouse" (JObj []))
                                      (fun w => py_get w "name" (JStr "Unknown"))) ;;
     elems <- lift (py_iter items) ;;
     for_each elems (process_invoice_item invoice_id sale_date warehouse_name))
    (fun e => existsb (exn_eqb e) [KeyError; TypeError])
    (fun e =>
       shown <- lift (py_get invoice "id" (JStr "Unknown")) ;;
       log_warning shown e).

Definition exec_invoices (invoices : list json) : result unit * nstate :=
  for_each invoices process_invoice nstate0.

Definition process_invoice_data (invoices : list json) : result (list row) :=
  returned (exec_invoices invoices).

Definition columns : list string :=
  ["factura_id"; "fecha_venta"; "item_id"; "item_name"; "item_quantity";
   "warehouse_name"].

End Sales.

(** ** The incremental sink and the paginated fetch loop

    The four extraction scripts share [save_batch_to_csv] and the loop of
    [fetch_*_data] word for word; they differ in the endpoint, the output
    file and the normalizer, which is the section's variable. *)

(** [BATCH_SIZE = 30] *)
Definition BATCH_SIZE : Z := 30.

(** A line of the CSV artifact, as [DataFrame.to_csv] writes it. *)
Inductive csv_line : Type :=
| Header (cols : list string)
| Data (cells : list json).

Definition is_header (l : csv_line) : bool :=
  match l with Header _ => true | Data _ => false end.

(** The artifact on disk: [None] while the file does not exist. *)
Definition artifact : Type := option (list csv_line).

Definition add_new_keys (cols : list string) (r : row) : list string :=
  fold_left (fun acc k => if existsb (String.eqb k) acc then acc else acc ++ [k])
            (keys r) cols.

(** [pd.DataFrame(data).columns] for a list of dicts: the union of the keys,
    in order of first appearance. *)
Definition df_columns (data : list row) : list string :=
  fold_left add_new_keys data [].

(** A cell of the frame when pandas keeps the value as it is; a key a dict
    lacks is NaN, written like [None].  The value pandas holds after it has
    chosen the dtype of the column is [Io.frame_value], below. *)
Definition df_cell (r : row) (c : string) : json :=
  match lookup c r with Some v => v | None => JNull end.

(** [df.to_csv(filename, mode=mode, header=header, index=False)] with
    [mode = 'w'] when [mode_w], else ['a'], for a write that goes through;
    [Io.to_csv], below, is the call with its failures. *)
Definition to_csv (data : list row) (file : artifact) (mode_w header : bool) : artifact :=
  let cols := df_columns data in
  let lines := (if header then [Header cols] else [])
               ++ map (fun r => Data (map (df_cell r) cols)) data in
  if mode_w then Some lines
  else match file with
       | Some old => Some (old ++ lines)
       | None => Some lines
       end.

(** [save_batch_to_csv] for a write that goes through; its handler, which
    logs and re-raises, is in [Io.save_batch_to_csv]. *)
Definition save_batch_to_csv (data : list row) (file : artifact) (is_first_batch : bool)
  : artifact :=
  let mode_w := is_first_batch in
  let header := is_first_batch in
  to_csv data file mode_w header.

(** What one GET of a page gives when the API answers with a JSON array,
    or one of the two failures the loop re-raises; [Io.response], below,
    takes any JSON value. *)
Inductive response : Type :=
| Body (batch_data : list json)
| RequestFailed
| DecodeFailed.

(** The remote API: the page served for a [start] offset. *)
Definition source : Type := Z -> response.

Inductive failure : Type :=
| RequestException
| ValueError
| Uncaught (e : exn).

Inductive outcome : Type :=
| Returned (all_records : list json)
| Failed (f : failure)
| OutOfFuel.

Record run_state : Type := mk_run {
  start : Z;
  all_records : list json;
  file : artifact;
  requests : list Z  (* the [start] of every GET issued, oldest first *)
}.

Section Pipeline.

Variable process : list json -> result (list row).
Variable api : source.

(** [while True:] of [fetch_*_data] for an API that answers with arrays
    and writes that go through; [fuel] bounds the number of iterations.
    [Io.fetch_loop], below, is the loop for any answer and any end of a
    write, and [plain_run_is_io_run] relates the two. *)
Fixpoint fetch_loop (fuel : nat) (st : run_state) : outcome * run_state :=
  match fuel with
  | O => (OutOfFuel, st)
  | S fuel' =>
      let st := mk_run (start st) (all_records st) (file st)
                       (requests st ++ [start st]) in
      match api (start st) with
      | RequestFailed => (Failed RequestException, st)
      | DecodeFailed => (Failed ValueError, st)
      | Body batch_data =>
          match batch_data with
          | [] => (Returned (all_records st), st)
          | _ :: _ =>
              let st := mk_run (start st) (all_records st ++ batch_data) (file st)
                               (requests st) in
              match process batch_data with
              | Raise e => (Failed (Uncaught e), st)
              | Ok processed_batch =>
                  let st :=
                    match processed_batch with
                    | [] => st
                    | _ :: _ =>
                        mk_run (start st) (all_records st)
                               (save_batch_to_csv processed_batch (file st)
                                                  (Z.eqb (start st) 0))
                               (requests st)
                    end in
                  if Z.ltb (Z.of_nat (length batch_data)) BATCH_SIZE
                  then (Returned (all_records st), st)
                  else fetch_loop fuel'
                         (mk_run (start st + BATCH_SIZE) (all_records st) (file st)
                                 (requests st))
              end
          end
      end
  end.

(** The whole function: [all_* = []], [start = 0], then the loop; [disk] is
    the output file as the run finds it. *)
Definition fetch_data (fuel : nat) (disk : artifact) : outcome * run_state :=
  fetch_loop fuel (mk_run 0 [] disk []).

End Pipeline.

Definition fetch_items_data := fetch_data Inventory.process_items_data.
Definition fetch_warehouse_transfers_data :=
  fetch_data Movements.process_warehouse_transfers_data.
Definition fetch_purchase_orders_data :=
  fetch_data Purchases.process_purchase_orders_data.
Definition fetch_invoice_data := fetch_data Sales.process_invoice_data.


(** ** The warehouse loader: [upload_csv_to_bigquery.py] *)
Module Uploader.

(** [bigquery.SchemaField(name, field_type)] *)
Record SchemaField : Type := mk_field {
  field_name : string;
  field_type : string
}.

(** [bigquery.LoadJobConfig(...)]; [source_format] is always CSV. *)
Record LoadJobConfig : Type := mk_config {
  cfg_skip_leading_rows : Z;
  cfg_field_delimiter : string;
  cfg_encoding : string;
  cfg_write_disposition : string;
  cfg_autodetect : bool;
  cfg_schema : option (list SchemaField)
}.

(** The requests the client sends to the warehouse.  A table reference
    is written [project.dataset.table]. *)
Inductive call : Type :=
| GetDataset (dataset_ref : string)
| CreateDataset (dataset_ref location : string)
| LoadTableFromFile (csv_file table_ref : string) (job_config : LoadJobConfig)
| JobResult (table_ref : string)
| GetTable (table_ref : string)
| ListTables (dataset_ref : string).

(** What the warehouse answers: success, or the exception the client raises. *)
Inductive reply : Type :=
| Done
| Refused (e : exn).

(** The kinds of column pandas reports in [df.dtypes]. *)
Inductive dtype : Type := Dint | Dfloat | Dbool | Ddatetime | Dobject.

Definition is_integer_dtype (d : dtype) : bool :=
  match d with Dint => true | _ => false end.
Definition is_float_dtype (d : dtype) : bool :=
  match d with Dfloat => true | _ => false end.
Definition is_bool_dtype (d : dtype) : bool :=
  match d with Dbool => true | _ => false end.
Definition is_datetime64_any_dtype (d : dtype) : bool :=
  match d with Ddatetime => true | _ => false end.

(** Everything outside the process: the local files and the warehouse.
    The warehouse's answer may depend on every call made before. *)
Record world : Type := mk_world {
  path_exists : string -> bool;
  (* [pd.read_csv(csv_file, nrows=...)]: the frame's dtypes, [None] when it raises *)
  read_csv : string -> option (list (string * dtype));
  (* [open(csv_file, "rb")] succeeds *)
  can_open : string -> bool;
  (* [bigquery.Client(project=...)] succeeds *)
  client_connects : bool;
  warehouse : list call -> call -> reply;
  (* the tables [list_tables] returns *)
  listing : list call -> string -> list string
}.

Inductive message : Type :=
| MsgFileMissing (csv_file : string)
| MsgBadTableId (table_id : string)
| MsgDatasetExists (dataset_ref : string)
| MsgDatasetCreated (dataset_ref : string)
| MsgInferError
| MsgNoSchema
| MsgUploading (csv_file table_id write_disposition : string)
| MsgUploaded (table_id : string)
| MsgBadRequest
| MsgUploadError (e : exn)
| MsgListError
| MsgTableNotFound (table_id : string)
| MsgTableInfoError
| MsgSkipping (csv_file : string)
| MsgProcessing (csv_file table_id : string)
| MsgUploadSuccessful
| MsgTableInfo (table_id : string)
| MsgUploadFailed
| MsgUploadFailedWithError
| MsgSummary (total_files success_count failed : Z)
| MsgBatchCompleted (success_count : Z)
| MsgNothingUploaded.

(** The calls sent and the lines printed so far. *)
Record ustate : Type := mk_ustate {
  calls : list call;
  printed : list message
}.

Definition print (m : message) : M ustate unit :=
  modify (fun s => mk_ustate (calls s) (printed s ++ [m])).

Section Client.

Variable w : world.
(** [self.project_id] *)
Variable self_project_id : string.

(** Send [c]; a refusal is raised as the client library does. *)
Definition send (c : call) : M ustate unit :=
  fun s => match warehouse w (calls s) c with
           | Done => (Ok tt, mk_ustate (calls s ++ [c]) (printed s))
           | Refused e => (Raise e, mk_ustate (calls s ++ [c]) (printed s))
           end.

Definition create_dataset_if_not_exists (dataset_id : string) (location : string)
  : M ustate unit :=
  let dataset_ref := (self_project_id ++ "." ++ dataset_id)%string in
  try_except
    (send (GetDataset dataset_ref) ;;;
     print (MsgDatasetExists dataset_ref))
    [NotFound]
    (send (CreateDataset dataset_ref location) ;;;
     print (MsgDatasetCreated dataset_ref)).

Definition infer_field_type (d : dtype) : string :=
  if is_integer_dtype d then "INTEGER"
  else if is_float_dtype d then "FLOAT"
  else if is_bool_dtype d then "BOOLEAN"
  else if is_datetime64_any_dtype d then "TIMESTAMP"
  else "STRING".

Definition infer_schema_from_csv (csv_file : string) : M ustate (list SchemaField) :=
  match read_csv w csv_file with
  | Some dtypes =>
      ret (map (fun cd => mk_field (fst cd) (infer_field_type (snd cd))) dtypes)
  | None => print MsgInferError ;;; ret []
  end.

Definition lower_char (c : ascii) : ascii :=
  let n := nat_of_ascii c in
  if (Nat.leb 65 n && Nat.leb n 90)%bool then ascii_of_nat (n + 32) else c.

(** [str.lower()] on the characters of [ascii]. *)
Fixpoint lower (s : string) : string :=
  match s with
  | EmptyString => EmptyString
  | String c s' => String (lower_char c) (lower s')
  end.

(** The dict [schemas] of [get_predefined_schema]. *)
Definition schemas : list (string * list SchemaField) :=
  [("warehouse_movements",
    [mk_field "movement_date" "DATE"; mk_field "warehouse_origin" "STRING";
     mk_field "warehouse_destination" "STRING"; mk_field "item_id" "INTEGER";
     mk_field "item_name" "STRING"; mk_field "quantity" "INTEGER"]);
   ("inventory",
    [mk_field "item_id" "INTEGER"; mk_field "item_name" "STRING";
     mk_field "warehouse" "STRING"; mk_field "quantity" "INTEGER";
     mk_field "last_updated" "TIMESTAMP"]);
   ("sales",
    [mk_field "sale_date" "DATE"; mk_field "item_id" "INTEGER";
     mk_field "item_name" "STRING"; mk_field "quantity" "INTEGER";
     mk_field "unit_price" "FLOAT"; mk_field "total_amount" "FLOAT"]);
   ("purchases",
    [mk_field "purchase_date" "DATE"; mk_field "item_id" "INTEGER";
     mk_field "item_name" "STRING"; mk_field "quantity" "INTEGER";
     mk_field "unit_cost" "FLOAT"; mk_field "total_cost" "FLOAT";
     mk_field "supplier" "STRING"])].

Fixpoint assoc {V : Type} (k : string) (d : list (string * V)) : option V :=
  match d with
  | [] => None
  | (k', v) :: rest => if String.eqb k k' then Some v else assoc k rest
  end.

Definition get_predefined_schema (table_name : string) : option (list SchemaField) :=
  assoc (lower table_name) schemas.

(** [s.split('.')] *)
Fixpoint split_dot (s : string) : list string :=
  match s with
  | EmptyString => [EmptyString]
  | String c s' =>
      match split_dot s' with
      | p :: rest => if Ascii.eqb c "." then EmptyString :: p :: rest
                     else String c p :: rest
      | [] => [String c EmptyString]
      end
  end.

(** [x if x else None] for a schema. *)
Definition schema_or_none (schema : option (list SchemaField)) : option (list SchemaField) :=
  match schema with
  | Some (f :: fs) => Some (f :: fs)
  | _ => None
  end.

Definition is_none {A} (o : option A) : bool :=
  match o with None => true | Some _ => false end.

(** The block under [# Determine schema]; [inl false] is its [return False]. *)
Definition determine_schema (csv_file table_name : string)
           (schema : option (list SchemaField)) (auto_detect_schema : bool)
  : M ustate (bool + option (list SchemaField)) :=
  if is_none schema then
    let schema := get_predefined_schema table_name in
    if (is_none schema && negb auto_detect_schema)%bool then
      inferred <- infer_schema_from_csv csv_file ;;
      match inferred with
      | [] => print MsgNoSchema ;;; ret (inl false)
      | _ :: _ => ret (inr (Some inferred))
      end
    else ret (inr schema)
  else ret (inr schema).

(** The arguments of [upload_csv_to_table], in its order. *)
Record upload_args : Type := mk_args {
  csv_file : string;
  table_id : string;
  write_disposition : string;
  schema : option (list SchemaField);
  auto_detect_schema : bool;
  skip_leading_rows : Z;
  field_delimiter : string;
  encoding : string
}.

(** The three names unpacked from [parts]. *)
Definition unpack3 (parts : list string) : string * string * string :=
  match parts with
  | [a; b; c] => (a, b, c)
  | _ => (EmptyString, EmptyString, EmptyString)
  end.

Definition upload_body (a : upload_args) : M ustate bool :=
  if negb (path_exists w (csv_file a)) then
    print (MsgFileMissing (csv_file a)) ;;; ret false
  else
    let parts := split_dot (table_id a) in
    if negb (Nat.eqb (length parts) 3) then
      print (MsgBadTableId (table_id a)) ;;; ret false
    else
      let '(project_id, dataset_id, table_name) := unpack3 parts in
      create_dataset_if_not_exists dataset_id "US" ;;;
      let table_ref := (project_id ++ "." ++ dataset_id ++ "." ++ table_name)%string in
      determined <- determine_schema (csv_file a) table_name (schema a)
                                     (auto_detect_schema a) ;;
      match determined with
      | inl b => ret b
      | inr schema =>
          let job_config :=
            mk_config (skip_leading_rows a) (field_delimiter a) (encoding a)
                      (write_disposition a)
                      (auto_detect_schema a && is_none schema)%bool
                      (schema_or_none schema) in
          print (MsgUploading (csv_file a) (table_id a) (write_disposition a)) ;;;
          (if can_open w (csv_file a)
           then send (LoadTableFromFile (csv_file a) table_ref job_config)
           else raise OtherException) ;;;
          send (JobResult table_ref) ;;;
          send (GetTable table_ref) ;;;
          print (MsgUploaded (table_id a)) ;;;
          ret true
      end.

(** The body under its two handlers: both print and return [False]. *)
Definition upload_csv_to_table (a : upload_args) : M ustate bool :=
  try_except_as (upload_body a) any_exception
    (fun e => match e with
              | BadRequest => print MsgBadRequest ;;; ret false
              | _ => print (MsgUploadError e) ;;; ret false
              end).

Definition list_tables_in_dataset (dataset_id : string) : M ustate (list string) :=
  let dataset_ref := (self_project_id ++ "." ++ dataset_id)%string in
  try_except_as
    (fun s => let names := listing w (calls s) dataset_ref in
              (send (ListTables dataset_ref) ;;; ret names) s)
    any_exception
    (fun _ => print MsgListError ;;; ret []).

(** [get_table_info]: [true] stands for the info dict, [false] for [None]. *)
Definition get_table_info (table_id : string) : M ustate bool :=
  try_except_as
    (send (GetTable table_id) ;;; ret true)
    any_exception
    (fun e => match e with
              | NotFound => print (MsgTableNotFound table_id) ;;; ret false
              | _ => print MsgTableInfoError ;;; ret false
              end).

End Client.

End Uploader.

(** ** The batch coordinator: [batch_upload.py] over [config.py] *)
Module Batch.

Import Uploader.

Definition PROJECT_ID : string := "your-project-id".
Definition DATASET_ID : string := "optistock".
Definition DEFAULT_WRITE_DISPOSITION : string := "WRITE_APPEND".

(** [TABLE_MAPPING], in the order of the dict display. *)
Definition TABLE_MAPPING : list (string * string) :=
  [("warehouse_movements.csv", "warehouse_movements");
   ("items_inventory.csv", "inventory");
   ("purchase_orders.csv", "purchases");
   ("factura_items.csv", "sales")].

(** What the coordinator itself prints about the entities. *)
Inductive report_line : Type :=
| Skipping (csv_file : string)
| Processing (csv_file table_id : string)
| UploadSuccessful
| TableInfo (table_id : string)
| UploadFailed
| UploadFailedWithError (e : exn)
| Summary (total_files success_count failed : Z)
| BatchCompleted (success_count : Z)
| NothingUploaded.

(** The coordinator's locals, the uploader's calls and prints, and the
    coordinator's own prints. *)
Record bstate : Type := mk_bstate {
  ust : ustate;
  report : list report_line;
  success_count : Z;
  total_files : Z
}.

(** Run a method of the uploader object. *)
Definition call_uploader {A} (m : M ustate A) : M bstate A :=
  fun s => let '(r, u) := m (ust s) in
           (r, mk_bstate u (report s) (success_count s) (total_files s)).

Definition say (l : report_line) : M bstate unit :=
  modify (fun s => mk_bstate (ust s) (report s ++ [l]) (success_count s) (total_files s)).

Definition incr_success : M bstate unit :=
  modify (fun s => mk_bstate (ust s) (report s) (success_count s + 1) (total_files s)).

Definition incr_total : M bstate unit :=
  modify (fun s => mk_bstate (ust s) (report s) (success_count s) (total_files s + 1)).

Definition get_state : M bstate bstate := fun s => (Ok s, s).

Section Run.

Variable w : world.

(** The arguments the coordinator passes; the rest are the defaults of the
    signature of [upload_csv_to_table]. *)
Definition batch_args (csv_file table_id : string) : upload_args :=
  mk_args csv_file table_id DEFAULT_WRITE_DISPOSITION None true 1 "," "UTF-8".

(** The body of [for csv_file, table_name in TABLE_MAPPING.items()]. *)
Definition process_entry (entry : string * string) : M bstate unit :=
  let '(csv_file, table_name) := entry in
  incr_total ;;;
  if negb (path_exists w csv_file) then
    say (Skipping csv_file)   (* continue *)
  else
    let table_id := (PROJECT_ID ++ "." ++ DATASET_ID ++ "." ++ table_name)%string in
    say (Processing csv_file table_id) ;;;
    try_except_as
      (success <- call_uploader
                    (upload_csv_to_table w PROJECT_ID (batch_args csv_file table_id)) ;;
       if success : bool then
         incr_success ;;;
         say UploadSuccessful ;;;
         info <- call_uploader (get_table_info w table_id) ;;
         if info : bool then say (TableInfo table_id) else ret tt
       else say UploadFailed)
      any_exception
      (fun e => say (UploadFailedWithError e)).

Definition list_final_tables : M bstate unit :=
  tables <- call_uploader (list_tables_in_dataset w PROJECT_ID DATASET_ID) ;;
  for_each tables (fun table =>
    let table_id := (PROJECT_ID ++ "." ++ DATASET_ID ++ "." ++ table)%string in
    info <- call_uploader (get_table_info w table_id) ;;
    if info : bool then say (TableInfo table_id) else ret tt).

(** After the uploader object exists. *)
Definition batch_loop : M bstate bool :=
  for_each TABLE_MAPPING process_entry ;;;
  s <- get_state ;;
  say (Summary (total_files s) (success_count s) (total_files s - success_count s)) ;;;
  if Z.ltb 0 (success_count s) then
    say (BatchCompleted (success_count s)) ;;;
    list_final_tables ;;;
    ret true
  else
    say NothingUploaded ;;;
    ret false.

Inductive batch_outcome : Type :=
| BatchReturned (b : bool)
| BatchRaised (e : exn)
| SystemExit (code : Z).

Definition bstate0 : bstate := mk_bstate (mk_ustate [] []) [] 0 0.

(** [BigQueryCSVUploader.__init__] leaves through [sys.exit(1)] when the
    client cannot be built; [SystemExit] is no [Exception], so the
    coordinator's handler around the constructor does not see it. *)
Definition batch_upload_csvs : batch_outcome * bstate :=
  if client_connects w then
    match batch_loop bstate0 with
    | (Ok b, s) => (BatchReturned b, s)
    | (Raise e, s) => (BatchRaised e, s)
    end
  else (SystemExit 1, bstate0).

End Run.

End Batch.

(** ** Reference descriptions, for comparison with the code *)

(** A field whose extraction raised is null. *)
Definition or_null (r : result json) : json :=
  match r with
  | Ok v => v
  | Raise _ => JNull
  end.

(** [r] raises nothing outside [caught]. *)
Definition raises_only {A} (r : result A) (caught : list exn) : Prop :=
  forall e, r = Raise e -> existsb (exn_eqb e) caught = true.

Definition is_obj (x : json) : bool :=
  match x with JObj _ => true | _ => false end.

(** The inventory row with every unextractable field null. *)
Definition inventory_row (item : json) : row :=
  [("id", or_null (py_getitem item "id"));
   ("name", or_null (py_getitem item "name"));
   ("initial_quantity",
    or_null (and_then (py_getitem item "inventory")
                      (fun inv => py_getitem inv "initialQuantity")));
   ("initial_quantity_date",
    or_null (and_then (py_getitem item "inventory")
                      (fun inv => py_getitem inv "initialQuantityDate")));
   ("final_available_quantity",
    or_null (and_then (py_getitem item "inventory")
                      (fun inv => py_getitem inv "availableQuantity")));
   ("photo_url",
    or_null (and_then (py_getitem item "images") (fun imgs =>
             and_then (py_getitem_idx imgs 0) (fun img => py_getitem img "url"))))].

(** The parent-level fields of a transfer, unextractable ones null. *)
Definition transfer_info (t : json) : row :=
  [("movement_date", or_null (py_getitem t "date"));
   ("warehouse_origin",
    or_null (and_then (py_getitem t "origin") (fun o => py_getitem o "name")));
   ("warehouse_destination",
    or_null (and_then (py_getitem t "destination") (fun d => py_getitem d "name")))].

(** The row of one nested item of a transfer. *)
Definition transfer_item_row (t item : json) : row :=
  transfer_info t
  ++ [("item_id", or_null (py_getitem item "id"));
      ("item_name", or_null (py_getitem item "name"));
      ("quantity", or_null (py_getitem item "quantity"))].

(** The rows one transfer contributes: one per element its ["items"] walks
    over, or the parent-level fields alone when ["items"] cannot be read. *)
Definition transfer_rows (t : json) : list row :=
  match and_then (py_getitem t "items") py_iter with
  | Ok elems => map (transfer_item_row t) elems
  | Raise _ => [transfer_info t]
  end.

(** The row of one item object of a purchase order, missing keys null. *)
Definition purchase_item_row (order_id delivery_date warehouse_name item : json) : row :=
  [("invoice_id", order_id);
   ("added_inventory_date", delivery_date);
   ("provider_id", order_id);
   ("warehouse_name", warehouse_name);
   ("price_provider", or_null (py_get item "price" JNull));
   ("quantity", or_null (py_get item "quantity" JNull));
   ("item_id", or_null (py_get item "id" JNull));
   ("item_name", or_null (py_get item "name" JNull))].

(** The row of one item object of an invoice, missing keys null. *)
Definition invoice_item_row (invoice_id sale_date warehouse_name item : json) : row :=
  [("factura_id", invoice_id);
   ("fecha_venta", sale_date);
   ("item_id", or_null (py_get item "id" JNull));
   ("item_name", or_null (py_get item "name" JNull));
   ("item_quantity", or_null (py_get item "quantity" JNull));
   ("warehouse_name", warehouse_name)].

(** Two effects on the normalizer state, one after the other. *)
Definition nappend (s t : nstate) : nstate :=
  mk_nstate (processed_items s ++ processed_items t) (warnings s ++ warnings t).

(** What a statement does when started from the empty state. *)
Definition effect {A} (m : M nstate A) : nstate := snd (m nstate0).
Definition value {A} (m : M nstate A) : result A := fst (m nstate0).

(** A statement that only appends to the state and never reads it. *)
Definition framed {A} (m : M nstate A) : Prop :=
  forall s, m s = (value m, nappend s (effect m)).

(** The rows and warnings one record contributes to a batch. *)
Definition order_effect (order : json) : nstate := effect (Purchases.process_order order).
Definition invoice_effect (invoice : json) : nstate := effect (Sales.process_invoice invoice).

Definition concat_effects (l : list nstate) : nstate := fold_right nappend nstate0 l.

(** A purchase order whose parent-level fields and nested items can all be
    read: it has an id, its warehouse is absent, falsy or an object, its
    ["purchases"] is absent or an object, and the nested items are a list
    of objects. *)
Definition order_wf (order : json) : bool :=
  match py_getitem order "id", Purchases.warehouse_name_of order,
        Purchases.purchases_items_of order with
  | Ok _, Ok _, Ok (JArr l) => forallb is_obj l
  | _, _, _ => false
  end.

(** The rows of such an order: one per nested item. *)
Definition order_rows (order : json) : list row :=
  match py_getitem order "id", Purchases.warehouse_name_of order,
        Purchases.purchases_items_of order with
  | Ok order_id, Ok warehouse_name, Ok (JArr l) =>
      map (purchase_item_row order_id (or_null (py_get order "deliveryDate" JNull))
                             warehouse_name) l
  | _, _, _ => []
  end.

(** The invoice's warehouse name as the code reads it. *)
Definition invoice_warehouse_name (invoice : json) : result json :=
  and_then (py_get invoice "warehouse" (JObj []))
           (fun w => py_get w "name" (JStr "Unknown")).

(** An invoice that is an object, whose warehouse is absent or an object
    and whose items are absent or a list of objects. *)
Definition invoice_wf (invoice : json) : bool :=
  match invoice_warehouse_name invoice, py_get invoice "items" (JArr []) with
  | Ok _, Ok (JArr l) => forallb is_obj l
  | _, _ => false
  end.

(** The rows of such an invoice: one per nested item. *)
Definition invoice_rows (invoice : json) : list row :=
  match invoice_warehouse_name invoice, py_get invoice "items" (JArr []) with
  | Ok warehouse_name, Ok (JArr l) =>
      map (invoice_item_row (or_null (py_get invoice "id" JNull))
                            (or_null (py_get invoice "date" JNull))
                            warehouse_name) l
  | _, _ => []
  end.

(** The offset of the page of index [i]. *)
Definition offset (i : nat) : Z := (BATCH_SIZE * Z.of_nat i)%Z.

(** The calls a method added to the history it started from. *)
Definition new_calls (before after : Uploader.ustate) : list Uploader.call :=
  skipn (length (Uploader.calls before)) (Uploader.calls after).

Definition is_load (c : Uploader.call) : bool :=
  match c with Uploader.LoadTableFromFile _ _ _ => true | _ => false end.

(** The table name of a three-part identifier. *)
Definition table_name_of (table_id : string) : string :=
  snd (Uploader.unpack3 (Uploader.split_dot table_id)).

(** The schema [infer_schema_from_csv] returns for the file. *)
Definition inferred_schema (w : Uploader.world) (csv_file : string)
  : list Uploader.SchemaField :=
  match Uploader.read_csv w csv_file with
  | Some dtypes =>
      map (fun cd => Uploader.mk_field (fst cd) (Uploader.infer_field_type (snd cd)))
          dtypes
  | None => []
  end.

(** The three sources of a job's schema. *)
Inductive schema_source : Type := Registered | Inferred | AutoDetect.

(** Which source governs a job, read off its configuration against the
    table's registered schema and the schema inferred from the file. *)
Definition governs (w : Uploader.world) (a : Uploader.upload_args)
           (cfg : Uploader.LoadJobConfig) (k : schema_source) : Prop :=
  match k with
  | Registered =>
      exists reg,
        Uploader.get_predefined_schema (table_name_of (Uploader.table_id a)) = Some reg
        /\ Uploader.cfg_schema cfg = Some reg
        /\ Uploader.cfg_autodetect cfg = false
  | Inferred =>
      Uploader.get_predefined_schema (table_name_of (Uploader.table_id a)) = None
      /\ inferred_schema w (Uploader.csv_file a) <> []
      /\ Uploader.cfg_schema cfg = Some (inferred_schema w (Uploader.csv_file a))
      /\ Uploader.cfg_autodetect cfg = false
  | AutoDetect =>
      Uploader.cfg_schema cfg = None /\ Uploader.cfg_autodetect cfg = true
  end.

(** A method whose requests all satisfy [P]. *)
Definition emits {A} (P : Uploader.call -> Prop) (m : M Uploader.ustate A) : Prop :=
  forall s, exists cs,
    Uploader.calls (snd (m s)) = (Uploader.calls s ++ cs)%list /\ Forall P cs.

(** The outcome of the block under [# Determine schema], as the code
    computes it: the caller's schema when one is passed; else the
    registered one; else, without auto-detect, the inferred one, which must
    not be empty; else none. [None] is the block's [return False]. *)
Definition schema_choice (w : Uploader.world) (a : Uploader.upload_args)
  : option (option (list Uploader.SchemaField)) :=
  match Uploader.schema a with
  | Some given => Some (Some given)
  | None =>
      match Uploader.get_predefined_schema (table_name_of (Uploader.table_id a)) with
      | Some reg => Some (Some reg)
      | None =>
          if Uploader.auto_detect_schema a then Some None
          else match inferred_schema w (Uploader.csv_file a) with
               | [] => None
               | f :: fs => Some (Some (f :: fs))
               end
      end
  end.

(** The job configuration built from the arguments and the chosen schema. *)
Definition config_for (a : Uploader.upload_args)
           (chosen : option (list Uploader.SchemaField)) : Uploader.LoadJobConfig :=
  Uploader.mk_config (Uploader.skip_leading_rows a) (Uploader.field_delimiter a)
                     (Uploader.encoding a) (Uploader.write_disposition a)
                     (Uploader.auto_detect_schema a && Uploader.is_none chosen)%bool
                     (Uploader.schema_or_none chosen).

(** A request that, when it is a load, carries the configuration the
    arguments call for. *)
Definition load_as_configured (w : Uploader.world) (a : Uploader.upload_args)
           (c : Uploader.call) : Prop :=
  forall csv_file table_ref cfg,
    c = Uploader.LoadTableFromFile csv_file table_ref cfg ->
    csv_file = Uploader.csv_file a
    /\ length (Uploader.split_dot (Uploader.table_id a)) = 3%nat
    /\ exists chosen, schema_choice w a = Some chosen /\ cfg = config_for a chosen.

(** What the coordinator did for one entity: the lines it printed for it,
    whether it called [upload_csv_to_table] and what the call returned
    ([None] when it did not call it), and the uploader as it left it. *)
Record entity_result : Type := mk_entity_result {
  block : list Batch.report_line;
  uploaded : option bool;
  after : Uploader.ustate
}.

(** One entity, told from the uploader's methods, for the uploader in the
    state [u]: a missing file is skipped without a call; otherwise
    [upload_csv_to_table] is called on [u] with the coordinator's
    arguments, and the lines say what that call returned, the table being
    read once more after a success. *)
Definition entity_run (w : Uploader.world) (entry : string * string)
           (u : Uploader.ustate) (r : entity_result) : Prop :=
  let csv_file := fst entry in
  let table_id := (Batch.PROJECT_ID ++ "." ++ Batch.DATASET_ID ++ "." ++ snd entry)%string in
  if Uploader.path_exists w csv_file then
    exists ok u1,
      Uploader.upload_csv_to_table w Batch.PROJECT_ID
        (Batch.batch_args csv_file table_id) u = (Ok ok, u1)
      /\ uploaded r = Some ok
      /\ if ok : bool then
           exists info,
             Uploader.get_table_info w table_id u1 = (Ok info, after r)
             /\ block r = Batch.Processing csv_file table_id :: Batch.UploadSuccessful
                          :: (if info : bool then [Batch.TableInfo table_id] else [])
         else
           after r = u1
           /\ block r = [Batch.Processing csv_file table_id; Batch.UploadFailed]
  else
    uploaded r = None /\ after r = u /\ block r = [Batch.Skipping csv_file].

(** The entities one after the other, each starting from the uploader as
    the one before it left it. *)
Fixpoint entities_run (w : Uploader.world) (entries : list (string * string))
         (u : Uploader.ustate) (results : list entity_result) : Prop :=
  match entries, results with
  | [], [] => True
  | entry :: entries', r :: results' =>
      entity_run w entry u r /\ entities_run w entries' (after r) results'
  | _, _ => False
  end.

(** The uploader after the last entity. *)
Definition after_all (u : Uploader.ustate) (results : list entity_result)
  : Uploader.ustate :=
  last (map after results) u.

(** The entity's call of [upload_csv_to_table] returned True. *)
Definition upload_succeeded (r : entity_result) : bool :=
  match uploaded r with
  | Some true => true
  | _ => false
  end.

Definition count_succeeded (results : list entity_result) : Z :=
  Z.of_nat (length (filter upload_succeeded results)).

(** A row with exactly the purchase-order columns, in order. *)
Definition purchase_keys_ok (r : row) : Prop := keys r = Purchases.columns.

(** ** Sample records *)

Definition sample_item (id : Z) (name : string) : json :=
  JObj [("id", JInt id); ("name", JStr name); ("quantity", JInt 2); ("price", JInt 5)].

(** A transfer with two nested items. *)
Definition transfer_two_items : json :=
  JObj [("date", JStr "2025-08-01");
        ("origin", JObj [("name", JStr "Central")]);
        ("destination", JObj [("name", JStr "North")]);
        ("items", JArr [sample_item 1 "bolt"; sample_item 2 "nut"])].

(** A transfer that has no ["items"] key. *)
Definition transfer_no_items_key : json :=
  JObj [("date", JStr "2025-08-02");
        ("origin", JObj [("name", JStr "Central")]);
        ("destination", JObj [("name", JStr "South")])].

(** A purchase order with two nested items. *)
Definition order_two_items : json :=
  JObj [("id", JInt 10); ("deliveryDate", JStr "2025-08-01");
        ("warehouse", JObj [("name", JStr "Central")]);
        ("purchases", JObj [("items", JArr [sample_item 1 "bolt"; sample_item 2 "nut"])])].

(** A purchase order whose list of nested items is empty. *)
Definition order_zero_items : json :=
  JObj [("id", JInt 11); ("deliveryDate", JStr "2025-08-02");
        ("warehouse", JObj [("name", JStr "Central")]);
        ("purchases", JObj [("items", JArr [])])].

(** A purchase order with one nested item and no ["id"] key. *)
Definition order_without_id : json :=
  JObj [("deliveryDate", JStr "2025-08-03");
        ("purchases", JObj [("items", JArr [sample_item 3 "washer"])])].

(** An invoice with one nested item and no ["warehouse"] key. *)
Definition invoice_without_warehouse : json :=
  JObj [("id", JInt 20); ("date", JStr "2025-08-01");
        ("items", JArr [sample_item 1 "bolt"])].

(** An invoice whose items are an empty list. *)
Definition invoice_zero_items : json :=
  JObj [("id", JInt 21); ("date", JStr "2025-08-02");
        ("warehouse", JObj [("name", JStr "Central")]);
        ("items", JArr [])].

(** An invoice whose ["warehouse"] is null. *)
Definition invoice_null_warehouse : json :=
  JObj [("id", JInt 22); ("date", JStr "2025-08-03");
        ("warehouse", JNull);
        ("items", JArr [sample_item 1 "bolt"])].

(** An inventory item with no inventory block and no images. *)
Definition item_bare : json := JObj [("id", JInt 1); ("name", JStr "bolt")].


(** A source whose first page holds 30 orders without items and whose
    second page holds one order with two items. *)
Definition first_page_without_rows : source :=
  fun start =>
    if Z.eqb start 0 then Body (repeat order_zero_items 30)
    else if Z.eqb start 30 then Body [order_two_items]
    else Body [].


(** A world in which every file is there and every request succeeds. *)
Definition friendly_world : Uploader.world :=
  Uploader.mk_world (fun _ => true)
                    (fun _ => Some [("sale_date", Uploader.Dobject)])
                    (fun _ => true) true
                    (fun _ _ => Uploader.Done)
                    (fun _ _ => []).

Definition fresh : Uploader.ustate := Uploader.mk_ustate [] [].

(** Default arguments of [upload_csv_to_table] for a file and a table. *)
Definition default_args (csv_file table_id : string) : Uploader.upload_args :=
  Uploader.mk_args csv_file table_id "WRITE_APPEND" None true 1 "," "UTF-8".

(** The same call with a schema passed by the caller. *)
Definition args_with_schema (csv_file table_id : string)
           (schema : list Uploader.SchemaField) : Uploader.upload_args :=
  Uploader.mk_args csv_file table_id "WRITE_APPEND" (Some schema) true 1 "," "UTF-8".

(** A world in which the inventory file is missing and the load job of the
    purchases table is refused; everything else succeeds. *)
Definition mixed_world : Uploader.world :=
  Uploader.mk_world
    (fun f => negb (String.eqb f "items_inventory.csv"))
    (fun _ => None)
    (fun _ => true) true
    (fun _ c => match c with
                | Uploader.JobResult t =>
                    if String.eqb t "your-project-id.optistock.purchases"
                    then Uploader.Refused BadRequest else Uploader.Done
                | _ => Uploader.Done
                end)
    (fun _ _ => []).


(** ** Further reference descriptions *)

(** The rows of two batches normalized one after the other: the first
    exception wins. *)
Definition rows_then (r1 r2 : result (list row)) : result (list row) :=
  match r1, r2 with
  | Ok x, Ok y => Ok (x ++ y)
  | Ok _, Raise e => Raise e
  | Raise e, _ => Raise e
  end.

(** A purchase order whose third item is a bare number. *)
Definition order_with_bad_item : json :=
  JObj [("id", JInt 12); ("deliveryDate", JStr "2025-08-04");
        ("purchases",
         JObj [("items", JArr [sample_item 1 "bolt"; sample_item 2 "nut"; JInt 7;
                               sample_item 3 "washer"])])].

(** A statement that returns or raises [AttributeError]. *)
Definition ok_or_attribute_error (r : result unit) : Prop :=
  r = Ok tt \/ r = Raise AttributeError.

(** ** Identifiers and requests of the loader *)

(** ['.'.join(parts)] *)
Fixpoint join_dot (parts : list string) : string :=
  match parts with
  | [] => EmptyString
  | [p] => p
  | p :: rest => (p ++ "." ++ join_dot rest)%string
  end.

(** The number of dots of a string. *)
Fixpoint count_dots (s : string) : nat :=
  match s with
  | EmptyString => 0
  | String c s' => (if Ascii.eqb c "." then 1 else 0) + count_dots s'
  end.

(** The dataset part of a three-part identifier. *)
Definition dataset_of (table_id : string) : string :=
  snd (fst (Uploader.unpack3 (Uploader.split_dot table_id))).

(** The two ways the dataset is ensured: found, or created after NotFound. *)
Definition dataset_ensured (self_project_id table_id : string)
           (pre : list Uploader.call) : Prop :=
  let dataset_ref := (self_project_id ++ "." ++ dataset_of table_id)%string in
  pre = [Uploader.GetDataset dataset_ref]
  \/ pre = [Uploader.GetDataset dataset_ref; Uploader.CreateDataset dataset_ref "US"].

(** A world whose warehouse accepts every request. *)
Definition accepts_all (w : Uploader.world) : Prop :=
  forall history c, Uploader.warehouse w history c = Uploader.Done.

(** A world in which the dataset is missing and cannot be created. *)
Definition creation_refused_world : Uploader.world :=
  Uploader.mk_world
    (fun _ => true) (fun _ => None) (fun _ => true) true
    (fun _ c => match c with
                | Uploader.GetDataset _ => Uploader.Refused NotFound
                | Uploader.CreateDataset _ _ => Uploader.Refused OtherException
                | _ => Uploader.Done
                end)
    (fun _ _ => []).

(** The statements of [upload_csv_to_table] from [# Configure job] on,
    for the schema the block above chose. *)
Definition load_and_wait (w : Uploader.world) (a : Uploader.upload_args)
           (table_ref : string) (chosen : option (list Uploader.SchemaField))
  : M Uploader.ustate bool :=
  (Uploader.print (Uploader.MsgUploading (Uploader.csv_file a) (Uploader.table_id a)
                                         (Uploader.write_disposition a)) ;;;
   (if Uploader.can_open w (Uploader.csv_file a)
    then Uploader.send w (Uploader.LoadTableFromFile (Uploader.csv_file a) table_ref
                                                     (config_for a chosen))
    else raise OtherException) ;;;
   Uploader.send w (Uploader.JobResult table_ref) ;;;
   Uploader.send w (Uploader.GetTable table_ref) ;;;
   Uploader.print (Uploader.MsgUploaded (Uploader.table_id a)) ;;;
   ret true)%py.

(** The three requests of a load that went through. *)
Definition load_sequence (a : Uploader.upload_args)
           (chosen : option (list Uploader.SchemaField)) : list Uploader.call :=
  [Uploader.LoadTableFromFile (Uploader.csv_file a) (Uploader.table_id a)
                              (config_for a chosen);
   Uploader.JobResult (Uploader.table_id a);
   Uploader.GetTable (Uploader.table_id a)].

(** A request of [upload_csv_to_table] for the arguments [a]: when it is a
    load, it is for the file and the identifier as given and carries the
    configuration of the arguments for the schema the call chose. *)
Definition load_of_call (w : Uploader.world) (a : Uploader.upload_args)
           (c : Uploader.call) : Prop :=
  forall csv_file table_ref cfg,
    c = Uploader.LoadTableFromFile csv_file table_ref cfg ->
    Uploader.path_exists w (Uploader.csv_file a) = true
    /\ csv_file = Uploader.csv_file a
    /\ table_ref = Uploader.table_id a
    /\ exists chosen, schema_choice w a = Some chosen /\ cfg = config_for a chosen.

(** A request of the batch coordinator: when it is a load, it is for an
    entry of [TABLE_MAPPING] whose file exists, and carries the registered
    schema of the entry's table with the settings of [config.py]. *)
Definition batch_job (w : Uploader.world) (c : Uploader.call) : Prop :=
  forall csv_file table_ref cfg,
    c = Uploader.LoadTableFromFile csv_file table_ref cfg ->
    exists table_name reg,
      In (csv_file, table_name) Batch.TABLE_MAPPING
      /\ Uploader.path_exists w csv_file = true
      /\ table_ref = (Batch.PROJECT_ID ++ "." ++ Batch.DATASET_ID ++ "." ++ table_name)%string
      /\ Uploader.get_predefined_schema table_name = Some reg
      /\ cfg = Uploader.mk_config 1 "," "UTF-8" Batch.DEFAULT_WRITE_DISPOSITION
                                  false (Some reg).

(** [emits], for a computation of the coordinator. *)
Definition batch_emits {A} (P : Uploader.call -> Prop) (m : M Batch.bstate A) : Prop :=
  forall s, exists cs,
    Uploader.calls (Batch.ust (snd (m s)))
    = (Uploader.calls (Batch.ust s) ++ cs)%list /\ Forall P cs.

(** The load jobs among requests. *)
Definition loads (cs : list Uploader.call) : list Uploader.call := filter is_load cs.

(** [OUTPUT_FILE] of each extraction script with the columns of the rows
    its normalizer builds. *)
Definition producer_columns : list (string * list string) :=
  [("items_inventory.csv", Inventory.columns);
   ("warehouse_movements.csv", Movements.columns);
   ("purchase_orders.csv", Purchases.columns);
   ("factura_items.csv", Sales.columns)].

(** A world in which the dataset is missing and is created, and the file
    cannot be parsed for a schema. *)
Definition unparsable_world : Uploader.world :=
  Uploader.mk_world
    (fun _ => true) (fun _ => None) (fun _ => true) true
    (fun _ c => match c with
                | Uploader.GetDataset _ => Uploader.Refused NotFound
                | _ => Uploader.Done
                end)
    (fun _ _ => []).

(** A call that asks for an inferred schema. *)
Definition args_inferring (csv_file table_id : string) : Uploader.upload_args :=
  Uploader.mk_args csv_file table_id "WRITE_APPEND" None false 1 "," "UTF-8".

(** The requests of the dataset step: the lookup, and the creation after
    it when the lookup answered NotFound. *)
Definition dataset_requested (self_project_id table_id : string)
           (pre : list Uploader.call) : Prop :=
  let dataset_ref := (self_project_id ++ "." ++ dataset_of table_id)%string in
  pre = [Uploader.GetDataset dataset_ref]
  \/ pre = [Uploader.GetDataset dataset_ref; Uploader.CreateDataset dataset_ref "US"].

(** The requests of a load that was attempted: the load job, then the wait
    when the job was accepted, then the read of the table when the wait
    went through. *)
Definition load_attempted (a : Uploader.upload_args)
           (chosen : option (list Uploader.SchemaField))
           (rest : list Uploader.call) : Prop :=
  exists n, rest = firstn (S n) (load_sequence a chosen).


(** ** The command line: [main] of [upload_csv_to_bigquery.py] *)
Module Cli.

Import Uploader.

(** The three [choices] of [--write_disposition]. *)
Inductive disposition : Type :=
| WriteAppend
| WriteTruncate
| WriteEmpty.

Definition disposition_name (d : disposition) : string :=
  match d with
  | WriteAppend => "WRITE_APPEND"
  | WriteTruncate => "WRITE_TRUNCATE"
  | WriteEmpty => "WRITE_EMPTY"
  end.

(** A command line that [parser.parse_args()] accepts (it leaves with
    status 2 on any other, before the client is built): [--csv_file] and
    [--table_id] are required, [--write_disposition] is one of its three
    choices when given, and [flag_auto_detect_schema] tells whether the
    flag [--auto_detect_schema] was given. *)
Record command_line : Type := mk_command_line {
  opt_csv_file : string;
  opt_table_id : string;
  opt_project_id : option string;
  opt_write_disposition : option disposition;
  flag_auto_detect_schema : bool;
  opt_skip_leading_rows : option Z;
  opt_field_delimiter : option string;
  opt_encoding : option string;
  opt_list_tables : option string;
  opt_table_info : option string
}.

(** An option with a default. *)
Definition with_default {A} (o : option A) (d : A) : A :=
  match o with Some v => v | None => d end.

(** [args.auto_detect_schema]: [action="store_true", default=True] stores
    [True] when the flag is given and leaves the default otherwise. *)
Definition args_auto_detect_schema (c : command_line) : bool :=
  if flag_auto_detect_schema c then true else true.

(** [if args.list_tables:] and [if args.table_info:] on an optional string. *)
Definition given (o : option string) : option string :=
  match o with
  | Some EmptyString => None
  | Some v => Some v
  | None => None
  end.

(** The lines [main] itself prints. *)
Inductive line : Type :=
| TablesInDataset (dataset_id : string)
| TableLine (table : string)
| TableInformation (table_id : string)
| UploadCompleted
| TableNowContains
| UploadFailed.

Record cstate : Type := mk_cstate {
  cust : ustate;
  out : list line
}.

Definition call_uploader {A} (m : M ustate A) : M cstate A :=
  fun s => let '(r, u) := m (cust s) in (r, mk_cstate u (out s)).

Definition say (l : line) : M cstate unit :=
  modify (fun s => mk_cstate (cust s) (out s ++ [l])).

(** How [main] ends: it returns, or leaves through [sys.exit(code)]. *)
Inductive ending : Type :=
| Returns
| SysExit (code : Z).

Definition cstate0 : cstate := mk_cstate (mk_ustate [] []) [].

Section Run.

Variable w : world.
(** The project of the environment, which the client takes when
    [--project_id] is not given. *)
Variable default_project : string.

(** [self.project_id = self.client.project] *)
Definition client_project (c : command_line) : string :=
  with_default (opt_project_id c) default_project.

(** The arguments of the call of [upload_csv_to_table] in [main]; no
    [schema] is passed. *)
Definition cli_upload_args (c : command_line) : upload_args :=
  mk_args (opt_csv_file c) (opt_table_id c)
          (disposition_name (with_default (opt_write_disposition c) WriteAppend))
          None
          (args_auto_detect_schema c)
          (with_default (opt_skip_leading_rows c) 1%Z)
          (with_default (opt_field_delimiter c) ",")
          (with_default (opt_encoding c) "UTF-8").

(** After the uploader object exists. *)
Definition operations (c : command_line) : M cstate ending :=
  match given (opt_list_tables c) with
  | Some dataset_id =>
      tables <- call_uploader (list_tables_in_dataset w (client_project c) dataset_id) ;;
      say (TablesInDataset dataset_id) ;;;
      for_each tables (fun table => say (TableLine table)) ;;;
      ret Returns
  | None =>
      match given (opt_table_info c) with
      | Some table_id =>
          info <- call_uploader (get_table_info w table_id) ;;
          (if info : bool then say (TableInformation table_id) else ret tt) ;;;
          ret Returns
      | None =>
          success <- call_uploader
                       (upload_csv_to_table w (client_project c) (cli_upload_args c)) ;;
          if success : bool then
            say UploadCompleted ;;;
            info <- call_uploader (get_table_info w (opt_table_id c)) ;;
            (if info : bool then say TableNowContains else ret tt) ;;;
            ret Returns
          else
            say UploadFailed ;;;
            ret (SysExit 1%Z)
      end
  end.

(** [main()]; the constructor leaves through [sys.exit(1)] when the client
    cannot be built. *)
Definition main (c : command_line) : result ending * cstate :=
  if client_connects w then operations c cstate0
  else (Ok (SysExit 1%Z), cstate0).

End Run.

End Cli.

(** [emits], for a computation over a state that holds the uploader's. *)
Definition emits_in {S A} (get : S -> Uploader.ustate) (P : Uploader.call -> Prop)
           (m : M S A) : Prop :=
  forall s, exists cs,
    Uploader.calls (get (snd (m s))) = (Uploader.calls (get s) ++ cs)%list
    /\ Forall P cs.

(** A load job whose schema is the registered one of the table, or that
    leaves the schema to the warehouse. *)
Definition registered_or_autodetect (table_id : string)
           (cfg : Uploader.LoadJobConfig) : Prop :=
  match Uploader.get_predefined_schema (table_name_of table_id) with
  | Some reg => Uploader.cfg_schema cfg = Some reg /\ Uploader.cfg_autodetect cfg = false
  | None => Uploader.cfg_schema cfg = None /\ Uploader.cfg_autodetect cfg = true
  end.

(** A request of the command line for [c]. *)
Definition cli_job (c : Cli.command_line) (r : Uploader.call) : Prop :=
  forall csv_file table_ref cfg,
    r = Uploader.LoadTableFromFile csv_file table_ref cfg ->
    Cli.given (Cli.opt_list_tables c) = None
    /\ Cli.given (Cli.opt_table_info c) = None
    /\ csv_file = Cli.opt_csv_file c
    /\ table_ref = Cli.opt_table_id c
    /\ registered_or_autodetect (Cli.opt_table_id c) cfg.

(** A command line that uploads a file to a table, with the flag or not. *)
Definition upload_command (csv_file table_id : string) (flag : bool) : Cli.command_line :=
  Cli.mk_command_line csv_file table_id None None flag None None None None None.

(** ** The sink and the fetch loop, with the failures of the write

    [to_csv], [save_batch_to_csv] and [fetch_loop] above describe a run in
    which every write goes through, pandas keeps every value as it is, and
    the API answers with a JSON array.  The module [Io] gives the same three
    functions without these assumptions: [df.to_csv] can fail before or
    while it writes, the value a cell holds is the one pandas gives it in
    the frame of its batch (one dtype per column and frame), and
    [response.json()] can be any JSON value. *)
Module Io.

(** The exceptions of a write: [UnicodeEncodeError] is a [ValueError], so
    the loop's [except ValueError] logs it and re-raises it; [OSError] and
    any other exception are caught by neither handler of the loop.
    [save_batch_to_csv] logs and re-raises all of them. *)
Inductive write_error : Type :=
| UnicodeEncodeError
| OSError
| OtherError.

(** How one call of [df.to_csv] ends: every line is written; or the file
    cannot be opened, and is left as it was; or the write raises [e] at the
    line of index [k], the [k] lines before it being in the file. *)
Inductive write_outcome : Type :=
| Written
| OpenFails
| FailsAt (k : nat) (e : write_error).

(** pandas and the file system, as far as the scripts depend on them:
    [frame_value data r c] is the value the frame built from [data] holds
    for the row [r] in the column [c], after pandas has chosen the dtype of
    the column; [write_at start] is how the write of the batch fetched at
    the offset [start] ends. *)
Record environment : Type := mk_environment {
  frame_value : list row -> row -> string -> json;
  write_at : Z -> write_outcome
}.

(** What one GET gives: [response.json()], any JSON value; or one of the
    two failures the loop re-raises. *)
Inductive response : Type :=
| Answer (batch_data : json)
| RequestFails
| JsonFails.

Definition source : Type := Z -> response.

(** How a run ends.  Every ending but the first and the last is an
    exception that leaves [fetch_*_data]: of the request, of
    [response.json()], of [len(batch_data)] (a [TypeError], for a body that
    is [true] or a number other than zero), of the normalizer, or of the
    write. *)
Inductive ending : Type :=
| Returns (all_records : list json)
| RequestRaised
| JsonRaised
| LenRaised
| NormalizerRaised (e : exn)
| WriteRaised (e : write_error)
| OutOfFuel.

Section Sink.

Variable env : environment.

(** The lines [df.to_csv] has to write for the frame of [data]. *)
Definition frame_lines (data : list row) (header : bool) : list csv_line :=
  let cols := df_columns data in
  (if header then [Header cols] else [])
  ++ map (fun r => Data (map (frame_value env data r) cols)) data.

(** [df.to_csv(filename, mode=mode, header=header, index=False)] for a
    write that ends as [o]: the exception raised, if any, and the file
    afterwards. *)
Definition to_csv (o : write_outcome) (data : list row) (file : artifact)
           (mode_w header : bool) : option write_error * artifact :=
  let lines := frame_lines data header in
  let kept := if mode_w then []
              else match file with Some old => old | None => [] end in
  match o with
  | Written => (None, Some (kept ++ lines))
  | OpenFails => (Some OSError, file)
  | FailsAt k e => (Some e, Some (kept ++ firstn k lines))
  end.

(** [save_batch_to_csv]: its handler logs and re-raises. *)
Definition save_batch_to_csv (o : write_outcome) (data : list row) (file : artifact)
           (is_first_batch : bool) : option write_error * artifact :=
  let mode_w := is_first_batch in
  let header := is_first_batch in
  to_csv o data file mode_w header.

Variable process : list json -> result (list row).
Variable api : source.

(** One turn of [while True:]: the run ends, or goes on. *)
Inductive turn : Type :=
| Ends (e : ending) (st : run_state)
| GoesOn (st : run_state).

(** The body of [while True:].  [len(batch_data)] and the two [for] loops
    over [batch_data] (of [extend] and in the normalizer) walk what
    [py_iter] walks. *)
Definition loop_body (st : run_state) : turn :=
  let st := mk_run (start st) (all_records st) (file st)
                   (requests st ++ [start st]) in
  match api (start st) with
  | RequestFails => Ends RequestRaised st
  | JsonFails => Ends JsonRaised st
  | Answer batch_data =>
      if negb (truthy batch_data) then Ends (Returns (all_records st)) st
      else
        match py_iter batch_data with
        | Raise _ => Ends LenRaised st
        | Ok elems =>
            let st := mk_run (start st) (all_records st ++ elems) (file st)
                             (requests st) in
            match process elems with
            | Raise e => Ends (NormalizerRaised e) st
            | Ok processed_batch =>
                let saved :=
                  match processed_batch with
                  | [] => (None, file st)
                  | _ :: _ =>
                      save_batch_to_csv (write_at env (start st)) processed_batch
                                        (file st) (Z.eqb (start st) 0)
                  end in
                let st := mk_run (start st) (all_records st) (snd saved)
                                 (requests st) in
                match fst saved with
                | Some e => Ends (WriteRaised e) st
                | None =>
                    if Z.ltb (Z.of_nat (length elems)) BATCH_SIZE
                    then Ends (Returns (all_records st)) st
                    else GoesOn (mk_run (start st + BATCH_SIZE)%Z (all_records st)
                                        (file st) (requests st))
                end
            end
        end
  end.

(** [while True:] of [fetch_*_data]; [fuel] bounds the number of turns. *)
Fixpoint fetch_loop (fuel : nat) (st : run_state) : ending * run_state :=
  match fuel with
  | O => (OutOfFuel, st)
  | S fuel' =>
      match loop_body st with
      | Ends e st' => (e, st')
      | GoesOn st' => fetch_loop fuel' st'
      end
  end.

(** The whole function; [disk] is the output file as the run finds it. *)
Definition fetch_data (fuel : nat) (disk : artifact) : ending * run_state :=
  fetch_loop fuel (mk_run 0%Z [] disk []).

End Sink.

Definition fetch_items_data (env : environment) :=
  fetch_data env Inventory.process_items_data.
Definition fetch_warehouse_transfers_data (env : environment) :=
  fetch_data env Movements.process_warehouse_transfers_data.
Definition fetch_purchase_orders_data (env : environment) :=
  fetch_data env Purchases.process_purchase_orders_data.
Definition fetch_invoice_data (env : environment) :=
  fetch_data env Sales.process_invoice_data.

End Io.





(** An environment in which every write goes through and every value is
    kept as it is. *)
Definition plain_environment : Io.environment :=
  Io.mk_environment (fun _ r c => df_cell r c) (fun _ => Io.Written).

(** A source of arrays, as a source of JSON values. *)
Definition as_answers (api : source) : Io.source :=
  fun start =>
    match api start with
    | Body batch_data => Io.Answer (JArr batch_data)
    | RequestFailed => Io.RequestFails
    | DecodeFailed => Io.JsonFails
    end.

Definition as_ending (o : outcome) : Io.ending :=
  match o with
  | Returned all => Io.Returns all
  | Failed RequestException => Io.RequestRaised
  | Failed ValueError => Io.JsonRaised
  | Failed (Uncaught e) => Io.NormalizerRaised e
  | OutOfFuel => Io.OutOfFuel
  end.

(** The records the request at [start] brings in. *)
Definition records_of (api : Io.source) (start : Z) : list json :=
  match api start with
  | Io.Answer batch_data =>
      if truthy batch_data
      then match py_iter batch_data with Ok elems => elems | Raise _ => [] end
      else []
  | _ => []
  end.

(** The write of the batch fetched at [start] raises [e]. *)
Definition write_raises (env : Io.environment) (start : Z) (e : Io.write_error) : Prop :=
  (Io.write_at env start = Io.OpenFails /\ e = Io.OSError)
  \/ exists k, Io.write_at env start = Io.FailsAt k e.

(** The page of index [i] is fetched, normalized and saved: [rows] are
    what the normalizer returns on its records [elems], and the write of
    [rows], when there are any, goes through. *)
Definition page_saved (env : Io.environment) (process : list json -> result (list row))
           (api : Io.source) (i : nat) (elems : list json) (rows : list row) : Prop :=
  exists batch_data,
    api (offset i) = Io.Answer batch_data
    /\ truthy batch_data = true
    /\ py_iter batch_data = Ok elems
    /\ process elems = Ok rows
    /\ (rows <> [] -> Io.write_at env (offset i) = Io.Written).

(** The page of index [i] keeps the loop going. *)
Definition page_goes_on (env : Io.environment) (process : list json -> result (list row))
           (api : Io.source) (i : nat) : Prop :=
  exists elems rows,
    page_saved env process api i elems rows
    /\ (BATCH_SIZE <= Z.of_nat (length elems))%Z.

(** How the page of index [i] ends the run with [e]. *)
Definition page_stops (env : Io.environment) (process : list json -> result (list row))
           (api : Io.source) (i : nat) (e : Io.ending) : Prop :=
  match e with
  | Io.Returns _ =>
      (exists batch_data, api (offset i) = Io.Answer batch_data
                          /\ truthy batch_data = false)
      \/ (exists elems rows,
            page_saved env process api i elems rows
            /\ (Z.of_nat (length elems) < BATCH_SIZE)%Z)
  | Io.RequestRaised => api (offset i) = Io.RequestFails
  | Io.JsonRaised => api (offset i) = Io.JsonFails
  | Io.LenRaised =>
      exists batch_data err,
        api (offset i) = Io.Answer batch_data
        /\ truthy batch_data = true
        /\ py_iter batch_data = Raise err
  | Io.NormalizerRaised err =>
      exists batch_data elems,
        api (offset i) = Io.Answer batch_data
        /\ truthy batch_data = true
        /\ py_iter batch_data = Ok elems
        /\ process elems = Raise err
  | Io.WriteRaised we =>
      exists batch_data elems r rows,
        api (offset i) = Io.Answer batch_data
        /\ truthy batch_data = true
        /\ py_iter batch_data = Ok elems
        /\ process elems = Ok (r :: rows)
        /\ write_raises env (offset i) we
  | Io.OutOfFuel => page_goes_on env process api i
  end.

(** The lines of the inventory file for the records of one page: one line
    per record, holding the six values of the frame of the page. *)
Definition inventory_frame_lines (env : Io.environment) (elems : list json)
  : list csv_line :=
  let data := map inventory_row elems in
  map (fun r => Data (map (Io.frame_value env data r) Inventory.columns)) data.


(** * Properties *)

(** ** The Python layer *)

Lemma py_getitem_raises x k : raises_only (py_getitem x k) [KeyError; TypeError].
Proof.
  intros e H. destruct x; simpl in H; try (inversion H; subst; reflexivity).
  destruct (lookup k kvs); inversion H; subst; reflexivity.
Qed.

Lemma py_getitem_idx_raises x i :
  raises_only (py_getitem_idx x i) [KeyError; TypeError; IndexError].
Proof.
  intros e H. destruct x; cbn [py_getitem_idx] in H;
    try (inversion H; subst; reflexivity).
  - destruct (nth_error (chars s) i); inversion H; subst; reflexivity.
  - destruct (nth_error l i); inversion H; subst; reflexivity.
Qed.

Lemma raises_only_weaken {A} (r : result A) c1 c2 :
  raises_only r c1 -> (forall e, In e c1 -> In e c2) -> raises_only r c2.
Proof.
  intros H Hin e He. specialize (H e He).
  apply existsb_exists in H. destruct H as [e' [H1 H2]].
  apply existsb_exists. exists e'. split; auto.
Qed.

Lemma and_then_raises {A B} (r : result A) (f : A -> result B) c :
  raises_only r c -> (forall a, raises_only (f a) c) -> raises_only (and_then r f) c.
Proof.
  intros Hr Hf e He. destruct r as [a|e']; simpl in He.
  - apply (Hf a e He).
  - inversion He; subst. apply Hr. reflexivity.
Qed.

Lemma raises_only_ok {A} (a : A) c : raises_only (Ok a) c.
Proof. intros e H. discriminate H. Qed.

Lemma py_get_obj kvs k d : exists v, py_get (JObj kvs) k d = Ok v.
Proof. simpl. destruct (lookup k kvs); eauto. Qed.

(** A guarded field assignment never raises when the handler lists every
    exception the expression can raise: the field is the value or null. *)
Lemma set_or_none_ok d col expr caught s :
  raises_only expr caught ->
  set_or_none d col expr caught s = (Ok (dict_set d col (or_null expr)), s).
Proof.
  intros H. unfold set_or_none, try_except, bind, lift, ret.
  destruct expr as [v|e]; simpl; [reflexivity|].
  rewrite (H e eq_refl). reflexivity.
Qed.

Lemma bind_ok {S A B} (m : M S A) (f : A -> M S B) s a s' :
  m s = (Ok a, s') -> bind m f s = f a s'.
Proof. intros H. unfold bind. rewrite H. reflexivity. Qed.

Lemma bind_raise {S A B} (m : M S A) (f : A -> M S B) s e s' :
  m s = (Raise e, s') -> bind m f s = (Raise e, s').
Proof. intros H. unfold bind. rewrite H. reflexivity. Qed.

(** A loop whose body only appends rows appends them record by record. *)
Lemma for_each_appends {A} (body : A -> M nstate unit) (f : A -> list row) l :
  (forall x s, In x l ->
     body x s = (Ok tt, mk_nstate (processed_items s ++ f x) (warnings s))) ->
  forall s,
    for_each l body s
    = (Ok tt, mk_nstate (processed_items s ++ flat_map f l) (warnings s)).
Proof.
  induction l as [|x l IH]; intros Hbody s; simpl.
  - unfold ret. rewrite app_nil_r. destruct s; reflexivity.
  - unfold bind. rewrite Hbody by (left; reflexivity).
    rewrite IH by (intros; apply Hbody; right; assumption).
    simpl. rewrite <- app_assoc. reflexivity.
Qed.

Lemma flat_map_singleton {A B} (f : A -> B) l :
  flat_map (fun x => [f x]) l = map f l.
Proof. induction l; simpl; congruence. Qed.

Ltac solve_raises :=
  repeat first
    [ apply py_getitem_raises
    | apply raises_only_ok
    | apply and_then_raises; intros
    | eapply raises_only_weaken;
      [ first [apply py_getitem_raises | apply py_getitem_idx_raises]
      | simpl; tauto ] ].

Ltac step_fields :=
  repeat (erewrite bind_ok; [| apply set_or_none_ok; solve_raises ]).

(** ** Statements that only append *)

Lemma nappend_assoc s t u : nappend (nappend s t) u = nappend s (nappend t u).
Proof. unfold nappend; simpl. rewrite !app_assoc. reflexivity. Qed.

Lemma nappend_nil_l s : nappend nstate0 s = s.
Proof. destruct s; reflexivity. Qed.

Lemma nappend_nil_r s : nappend s nstate0 = s.
Proof. destruct s; unfold nappend; simpl. rewrite !app_nil_r. reflexivity. Qed.

Lemma framed_ret {A} (a : A) : framed (ret a).
Proof. intros s. unfold ret, value, effect; simpl. rewrite nappend_nil_r. reflexivity. Qed.

Lemma framed_lift {A} (r : result A) : framed (lift r).
Proof. intros s. unfold lift, value, effect; simpl. rewrite nappend_nil_r. reflexivity. Qed.

Lemma framed_append_row r : framed (append_row r).
Proof.
  intros s. unfold append_row, modify, value, effect, nappend; simpl.
  rewrite app_nil_r. reflexivity.
Qed.

Lemma framed_log_warning x e : framed (log_warning x e).
Proof.
  intros s. unfold log_warning, modify, value, effect, nappend; simpl.
  rewrite app_nil_r. reflexivity.
Qed.

Lemma framed_bind {A B} (m : M nstate A) (f : A -> M nstate B) :
  framed m -> (forall a, framed (f a)) -> framed (bind m f).
Proof.
  intros Hm Hf s. unfold value, effect, bind.
  rewrite (Hm s). rewrite (Hm nstate0). rewrite nappend_nil_l.
  destruct (value m) as [a|e]; simpl.
  - rewrite (Hf a (nappend s (effect m))). rewrite (Hf a (effect m)).
    simpl. rewrite nappend_assoc. reflexivity.
  - reflexivity.
Qed.

Lemma framed_try_except {A} (body : M nstate A) caught handler :
  framed body -> framed handler -> framed (try_except body caught handler).
Proof.
  intros Hb Hh s. unfold value, effect, try_except.
  rewrite (Hb s). rewrite (Hb nstate0). rewrite nappend_nil_l.
  destruct (value body) as [a|e]; simpl; [reflexivity|].
  destruct (existsb (exn_eqb e) caught); [|reflexivity].
  rewrite (Hh (nappend s (effect body))). rewrite (Hh (effect body)).
  simpl. rewrite nappend_assoc. reflexivity.
Qed.

Lemma framed_try_except_as {A} (body : M nstate A) caught handler :
  framed body -> (forall e, framed (handler e)) ->
  framed (try_except_as body caught handler).
Proof.
  intros Hb Hh s. unfold value, effect, try_except_as.
  rewrite (Hb s). rewrite (Hb nstate0). rewrite nappend_nil_l.
  destruct (value body) as [a|e]; simpl; [reflexivity|].
  destruct (caught e); [|reflexivity].
  rewrite (Hh e (nappend s (effect body))). rewrite (Hh e (effect body)).
  simpl. rewrite nappend_assoc. reflexivity.
Qed.

Lemma framed_for_each {A} (l : list A) (body : A -> M nstate unit) :
  (forall x, framed (body x)) -> framed (for_each l body).
Proof.
  intros Hb. induction l as [|x l IH]; simpl.
  - apply framed_ret.
  - apply framed_bind; [apply Hb | intros _; apply IH].
Qed.

Lemma framed_set_or_none d col expr caught : framed (set_or_none d col expr caught).
Proof.
  unfold set_or_none. apply framed_try_except.
  - apply framed_bind; [apply framed_lift | intros; apply framed_ret].
  - apply framed_ret.
Qed.

(** A loop of framed bodies that all return: the effects, one after the other. *)
Lemma for_each_framed_ok {A} (l : list A) (body : A -> M nstate unit) :
  (forall x, In x l -> framed (body x) /\ value (body x) = Ok tt) ->
  forall s,
    for_each l body s
    = (Ok tt, nappend s (concat_effects (map (fun x => effect (body x)) l))).
Proof.
  induction l as [|x l IH]; intros H s; simpl.
  - unfold ret. rewrite nappend_nil_r. reflexivity.
  - destruct (H x (or_introl eq_refl)) as [Hf Hv].
    unfold bind. rewrite (Hf s), Hv.
    rewrite IH by (intros; apply H; right; assumption).
    rewrite nappend_assoc. reflexivity.
Qed.

Lemma processed_concat_effects l :
  processed_items (concat_effects l) = flat_map processed_items l.
Proof. induction l; simpl; [reflexivity|]. rewrite IHl. reflexivity. Qed.

Lemma warnings_concat_effects l :
  warnings (concat_effects l) = flat_map warnings l.
Proof. induction l; simpl; [reflexivity|]. rewrite IHl. reflexivity. Qed.

(** ** Inventory *)

Lemma inventory_process_item item s :
  Inventory.process_item item s
  = (Ok tt, mk_nstate (processed_items s ++ [inventory_row item]) (warnings s)).
Proof. unfold Inventory.process_item. step_fields. reflexivity. Qed.

Lemma inventory_exec items :
  Inventory.exec_items items = (Ok tt, mk_nstate (map inventory_row items) []).
Proof.
  unfold Inventory.exec_items.
  rewrite (for_each_appends _ (fun x => [inventory_row x]))
    by (intros; apply inventory_process_item).
  simpl. rewrite flat_map_singleton. reflexivity.
Qed.

(** C10. The inventory normalizer returns, for every input batch, exactly
    one row per record, in order; every row has exactly the six columns id,
    name, initial_quantity, initial_quantity_date, final_available_quantity,
    photo_url in that order, and a field whose extraction raises is null. *)
Theorem inventory_one_row_per_record (items : list json) :
  exists rows,
    Inventory.process_items_data items = Ok rows
    /\ length rows = length items
    /\ Forall2 (fun item r => r = inventory_row item /\ keys r = Inventory.columns)
               items rows.
Proof.
  exists (map inventory_row items).
  unfold Inventory.process_items_data. rewrite inventory_exec. simpl.
  split; [reflexivity|]. split; [apply length_map|].
  induction items; simpl; constructor; auto.
Qed.

(** ** Warehouse transfers *)

Lemma py_iter_raises x : raises_only (py_iter x) [KeyError; TypeError].
Proof. intros e H. destruct x; simpl in H; inversion H; subst; reflexivity. Qed.

Lemma movements_process_item t item s :
  Movements.process_transfer_item (transfer_info t) item s
  = (Ok tt, mk_nstate (processed_items s ++ [transfer_item_row t item]) (warnings s)).
Proof. unfold Movements.process_transfer_item. step_fields. reflexivity. Qed.

Lemma movements_process_transfer t s :
  Movements.process_transfer t s
  = (Ok tt, mk_nstate (processed_items s ++ transfer_rows t) (warnings s)).
Proof.
  unfold Movements.process_transfer. step_fields.
  change (dict_set _ "warehouse_destination" _) with (transfer_info t).
  unfold try_except, transfer_rows, bind, lift.
  pose proof (py_getitem_raises t "items") as Hg.
  destruct (py_getitem t "items") as [items|e]; simpl.
  - pose proof (py_iter_raises items) as Hi.
    destruct (py_iter items) as [elems|e]; simpl.
    + rewrite (for_each_appends _ (fun item => [transfer_item_row t item]))
        by (intros; apply movements_process_item).
      rewrite flat_map_singleton. reflexivity.
    + specialize (Hi e eq_refl). simpl in Hi. rewrite Hi. reflexivity.
  - specialize (Hg e eq_refl). simpl in Hg. rewrite Hg. reflexivity.
Qed.

Lemma movements_exec transfers :
  Movements.exec_transfers transfers
  = (Ok tt, mk_nstate (flat_map transfer_rows transfers) []).
Proof.
  unfold Movements.exec_transfers.
  rewrite (for_each_appends _ transfer_rows)
    by (intros; apply movements_process_transfer).
  reflexivity.
Qed.

Lemma movements_process transfers :
  Movements.process_warehouse_transfers_data transfers
  = Ok (flat_map transfer_rows transfers).
Proof.
  unfold Movements.process_warehouse_transfers_data.
  rewrite movements_exec. reflexivity.
Qed.

(** ** Purchase orders *)

Lemma set_local_ok d col v s :
  Purchases.set_local d col v s = (Ok (dict_set d col v), s).
Proof. reflexivity. Qed.

Lemma framed_set_local d col v : framed (Purchases.set_local d col v).
Proof. intros s. rewrite !set_local_ok. unfold value, effect. rewrite set_local_ok.
  simpl. rewrite nappend_nil_r. reflexivity. Qed.

Lemma py_get_obj_raises kvs k d c : raises_only (py_get (JObj kvs) k d) c.
Proof. intros e H. simpl in H. destruct (lookup k kvs); discriminate H. Qed.

Lemma purchases_process_item oid dd wn ikv s :
  Purchases.process_order_item oid dd wn (JObj ikv) s
  = (Ok tt, mk_nstate (processed_items s ++ [purchase_item_row oid dd wn (JObj ikv)])
                      (warnings s)).
Proof.
  unfold Purchases.process_order_item.
  repeat (erewrite bind_ok; [| apply set_local_ok ]).
  repeat (erewrite bind_ok; [| apply set_or_none_ok; apply py_get_obj_raises ]).
  reflexivity.
Qed.

Lemma framed_purchases_item oid dd wn item :
  framed (Purchases.process_order_item oid dd wn item).
Proof.
  unfold Purchases.process_order_item.
  repeat (apply framed_bind;
          [ first [apply framed_set_local | apply framed_set_or_none] | intros ]).
  apply framed_append_row.
Qed.

Lemma framed_process_order order : framed (Purchases.process_order order).
Proof.
  unfold Purchases.process_order. apply framed_try_except_as.
  - repeat (apply framed_bind; [apply framed_lift | intros]).
    apply framed_for_each. intros; apply framed_purchases_item.
  - intros e. apply framed_bind; [apply framed_lift | intros; apply framed_log_warning].
Qed.

(** Whatever an order object holds, its processing returns. *)
Lemma process_order_obj_returns kvs :
  value (Purchases.process_order (JObj kvs)) = Ok tt.
Proof.
  unfold value, Purchases.process_order, try_except_as.
  match goal with |- fst (match ?b with _ => _ end) = _ => destruct b as [[[]|e] s'] end;
    [reflexivity|].
  simpl. unfold bind, lift. simpl.
  destruct (lookup "id" kvs); reflexivity.
Qed.

(** A record that is no object leaves the normalizer through the handler's
    own [order.get]. *)
Lemma process_order_nonobj order s :
  is_obj order = false ->
  Purchases.process_order order s = (Raise AttributeError, s).
Proof.
  intros H. destruct order; try discriminate H; reflexivity.
Qed.

Lemma forallb_is_obj_in l x : forallb is_obj l = true -> In x l -> exists kvs, x = JObj kvs.
Proof.
  intros H Hin. rewrite forallb_forall in H. specialize (H x Hin).
  destruct x; try discriminate H. eauto.
Qed.

Lemma order_wf_effect order :
  order_wf order = true ->
  order_effect order = mk_nstate (order_rows order) []
  /\ value (Purchases.process_order order) = Ok tt.
Proof.
  unfold order_wf, order_rows, order_effect, effect, value.
  unfold Purchases.process_order, try_except_as, bind, lift.
  destruct (py_getitem order "id") as [oid|]; [|discriminate].
  destruct order; try discriminate. simpl py_get.
  destruct (Purchases.warehouse_name_of (JObj kvs)) as [wn|]; [|discriminate].
  destruct (Purchases.purchases_items_of (JObj kvs)) as [items|]; [|discriminate].
  destruct items; try discriminate. intros Hall.
  assert (Hdd : exists dd, (match lookup "deliveryDate" kvs with
                            | Some v => Ok v | None => Ok JNull end) = Ok dd
                           /\ or_null (match lookup "deliveryDate" kvs with
                            | Some v => Ok v | None => Ok JNull end) = dd).
  { destruct (lookup "deliveryDate" kvs); eauto. }
  destruct Hdd as [dd [Hdd1 Hdd2]]. rewrite Hdd2. rewrite Hdd1. simpl.
  rewrite (for_each_appends _ (fun item => [purchase_item_row oid dd wn item])).
  - simpl. rewrite flat_map_singleton. split; reflexivity.
  - intros x s Hin. destruct (forallb_is_obj_in _ _ Hall Hin) as [ikv ->].
    apply purchases_process_item.
Qed.

(** A batch of order objects is processed to the end, each order
    contributing its own rows and warnings whatever the others hold. *)
Lemma purchases_exec orders :
  forallb is_obj orders = true ->
  Purchases.exec_orders orders
  = (Ok tt, concat_effects (map order_effect orders)).
Proof.
  intros H. unfold Purchases.exec_orders.
  rewrite for_each_framed_ok.
  - rewrite nappend_nil_l. reflexivity.
  - intros x Hin. split; [apply framed_process_order|].
    destruct (forallb_is_obj_in _ _ H Hin) as [kvs ->].
    apply process_order_obj_returns.
Qed.

Lemma order_wf_is_obj order : order_wf order = true -> is_obj order = true.
Proof.
  unfold order_wf. destruct order; try reflexivity; simpl; discriminate.
Qed.

Lemma purchases_process_wf orders :
  forallb order_wf orders = true ->
  Purchases.process_purchase_orders_data orders = Ok (flat_map order_rows orders).
Proof.
  intros H. unfold Purchases.process_purchase_orders_data.
  rewrite purchases_exec.
  - simpl. rewrite processed_concat_effects. f_equal.
    induction orders as [|o l IH]; simpl; [reflexivity|].
    simpl in H. apply andb_true_iff in H. destruct H as [Ho Hl].
    destruct (order_wf_effect o Ho) as [-> _]. simpl. rewrite IH by assumption.
    reflexivity.
  - rewrite forallb_forall in *. intros x Hx. apply order_wf_is_obj. auto.
Qed.

Lemma purchases_item_nonobj oid dd wn x s :
  is_obj x = false ->
  Purchases.process_order_item oid dd wn x s = (Raise AttributeError, s).
Proof. intros H. destruct x; try discriminate H; reflexivity. Qed.

(** The loop over the nested items appends the rows of the items it
    reaches, and nothing else. *)
Lemma purchases_items_loop oid dd wn elems :
  forall s, exists r reached,
    for_each elems (Purchases.process_order_item oid dd wn) s
    = (r, mk_nstate (processed_items s ++ map (purchase_item_row oid dd wn) reached)
                    (warnings s)).
Proof.
  induction elems as [|x elems IH]; intros s.
  - exists (Ok tt), []. simpl. unfold ret. rewrite app_nil_r. destruct s; reflexivity.
  - simpl. unfold bind. destruct (is_obj x) eqn:Hx.
    + destruct x; try discriminate Hx. rewrite purchases_process_item.
      match goal with
      | |- context [for_each elems _ ?s1] => destruct (IH s1) as [r [reached Hr]]
      end.
      exists r, (JObj kvs :: reached). rewrite Hr. simpl.
      rewrite <- app_assoc. reflexivity.
    + rewrite purchases_item_nonobj by assumption.
      exists (Raise AttributeError), []. simpl. rewrite app_nil_r.
      destruct s; reflexivity.
Qed.

(** The rows an order adds all have the eight columns, and it logs at most
    one warning. *)
Lemma order_effect_shape order :
  Forall purchase_keys_ok (processed_items (order_effect order))
  /\ (length (warnings (order_effect order)) <= 1)%nat.
Proof.
  unfold order_effect, effect, Purchases.process_order, try_except_as, bind, lift.
  destruct (py_getitem order "id") as [oid|e1];
    [|simpl; destruct (py_get order "id" (JStr "unknown")); simpl; auto].
  destruct (py_get order "deliveryDate" JNull) as [dd|e2];
    [|simpl; destruct (py_get order "id" (JStr "unknown")); simpl; auto].
  destruct (Purchases.warehouse_name_of order) as [wn|e3];
    [|simpl; destruct (py_get order "id" (JStr "unknown")); simpl; auto].
  destruct (Purchases.purchases_items_of order) as [items|e4];
    [|simpl; destruct (py_get order "id" (JStr "unknown")); simpl; auto].
  destruct (py_iter items) as [elems|e5];
    [|simpl; destruct (py_get order "id" (JStr "unknown")); simpl; auto].
  destruct (purchases_items_loop oid dd wn elems nstate0) as [r [reached Hr]].
  rewrite Hr.
  assert (Hrows : Forall purchase_keys_ok (map (purchase_item_row oid dd wn) reached)).
  { apply Forall_forall. intros x Hin. apply in_map_iff in Hin.
    destruct Hin as [i [<- _]]. reflexivity. }
  destruct r as [[]|e]; simpl; [auto|].
  destruct (py_get order "id" (JStr "unknown")); simpl; auto.
Qed.


(** ** Invoices *)

Lemma sales_process_item iid sd wn ikv s :
  Sales.process_invoice_item iid sd wn (JObj ikv) s
  = (Ok tt, mk_nstate (processed_items s ++ [invoice_item_row iid sd wn (JObj ikv)])
                      (warnings s)).
Proof.
  unfold Sales.process_invoice_item, invoice_item_row, bind, lift. simpl.
  destruct (lookup "id" ikv), (lookup "name" ikv), (lookup "quantity" ikv);
    reflexivity.
Qed.

Lemma framed_sales_item iid sd wn item :
  framed (Sales.process_invoice_item iid sd wn item).
Proof.
  unfold Sales.process_invoice_item.
  repeat (apply framed_bind; [apply framed_lift | intros]).
  apply framed_append_row.
Qed.

Lemma framed_process_invoice invoice : framed (Sales.process_invoice invoice).
Proof.
  unfold Sales.process_invoice. apply framed_try_except_as.
  - repeat (apply framed_bind; [apply framed_lift | intros]).
    apply framed_for_each. intros; apply framed_sales_item.
  - intros e. apply framed_bind; [apply framed_lift | intros; apply framed_log_warning].
Qed.

Lemma invoice_wf_effect invoice :
  invoice_wf invoice = true ->
  invoice_effect invoice = mk_nstate (invoice_rows invoice) []
  /\ value (Sales.process_invoice invoice) = Ok tt.
Proof.
  unfold invoice_wf, invoice_rows, invoice_effect, effect, value.
  unfold Sales.process_invoice, try_except_as, bind, lift.
  fold (invoice_warehouse_name invoice).
  destruct (invoice_warehouse_name invoice) as [wn|] eqn:Hw; [|discriminate].
  destruct invoice; try discriminate Hw.
  destruct (py_get (JObj kvs) "items" (JArr [])) as [items|] eqn:Hi; [|discriminate].
  destruct items; try discriminate. intros Hall.
  destruct (py_get_obj kvs "id" JNull) as [iid Hid].
  destruct (py_get_obj kvs "date" JNull) as [sd Hsd].
  rewrite Hid, Hsd. simpl or_null. simpl py_iter. cbv iota beta.
  rewrite (for_each_appends _ (fun item => [invoice_item_row iid sd wn item])).
  - simpl. rewrite flat_map_singleton. split; reflexivity.
  - intros x s Hin. destruct (forallb_is_obj_in _ _ Hall Hin) as [ikv ->].
    apply sales_process_item.
Qed.

Lemma sales_exec_wf invoices :
  forallb invoice_wf invoices = true ->
  Sales.exec_invoices invoices
  = (Ok tt, mk_nstate (flat_map invoice_rows invoices) []).
Proof.
  intros H. unfold Sales.exec_invoices.
  rewrite (for_each_appends _ invoice_rows); [reflexivity|].
  intros x s Hin. rewrite forallb_forall in H. specialize (H x Hin).
  destruct (invoice_wf_effect x H) as [He Hv].
  rewrite (framed_process_invoice x s). rewrite Hv.
  unfold invoice_effect in He. rewrite He. unfold nappend; simpl.
  rewrite app_nil_r. reflexivity.
Qed.

Lemma sales_process_wf invoices :
  forallb invoice_wf invoices = true ->
  Sales.process_invoice_data invoices = Ok (flat_map invoice_rows invoices).
Proof.
  intros H. unfold Sales.process_invoice_data. rewrite sales_exec_wf by assumption.
  reflexivity.
Qed.

(** ** Row expansion, field isolation and column sets *)

(** C1, as stated, fails: a purchase order whose list of nested items is
    empty yields no row at all, not one row with null item-level fields. *)
Lemma order_zero_items_yields_no_row :
  Purchases.purchases_items_of order_zero_items = Ok (JArr [])
  /\ exists rows,
       Purchases.process_purchase_orders_data [order_zero_items] = Ok rows
       /\ length rows = 0%nat /\ length rows <> 1%nat.
Proof.
  split; [reflexivity|]. exists []. repeat split. discriminate.
Qed.

(** C1, amended. A record whose nested items are a list of k item objects
    yields exactly k rows (for a warehouse transfer, k at least 1); a
    warehouse transfer without an "items" key yields exactly one row, which
    carries the three parent-level columns only; a purchase order or an
    invoice with zero nested items yields no row. *)
Theorem row_expansion_by_design (transfers orders invoices : list json) :
  forallb order_wf orders = true ->
  forallb invoice_wf invoices = true ->
  Movements.process_warehouse_transfers_data transfers
    = Ok (flat_map transfer_rows transfers)
  /\ Purchases.process_purchase_orders_data orders = Ok (flat_map order_rows orders)
  /\ Sales.process_invoice_data invoices = Ok (flat_map invoice_rows invoices)
  /\ (forall t x l, py_getitem t "items" = Ok (JArr (x :: l)) ->
        length (transfer_rows t) = length (x :: l))
  /\ (forall t, py_getitem t "items" = Raise KeyError ->
        transfer_rows t = [transfer_info t]
        /\ keys (transfer_info t) = Movements.parent_columns)
  /\ (forall o l, order_wf o = true ->
        Purchases.purchases_items_of o = Ok (JArr l) ->
        length (order_rows o) = length l)
  /\ (forall i l, invoice_wf i = true ->
        py_get i "items" (JArr []) = Ok (JArr l) ->
        length (invoice_rows i) = length l).
Proof.
  intros Ho Hi.
  split; [apply movements_process|].
  split; [apply purchases_process_wf; assumption|].
  split; [apply sales_process_wf; assumption|].
  split; [|split; [|split]].
  - intros t x l H. unfold transfer_rows. rewrite H. simpl. rewrite length_map.
    reflexivity.
  - intros t H. unfold transfer_rows. rewrite H. split; reflexivity.
  - intros o l Hw H. unfold order_rows. unfold order_wf in Hw. rewrite H in *.
    destruct (py_getitem o "id"); [|discriminate].
    destruct (Purchases.warehouse_name_of o); [|discriminate].
    apply length_map.
  - intros i l Hw H. unfold invoice_rows. unfold invoice_wf in Hw. rewrite H in *.
    destruct (invoice_warehouse_name i); [|discriminate].
    apply length_map.
Qed.

Lemma row_expansion_witness :
  forallb order_wf [order_two_items; order_zero_items] = true
  /\ forallb invoice_wf [invoice_without_warehouse; invoice_zero_items] = true
  /\ Purchases.process_purchase_orders_data [order_two_items; order_zero_items]
     = Ok (flat_map order_rows [order_two_items; order_zero_items])
  /\ length (transfer_rows transfer_two_items) = 2%nat
  /\ transfer_rows transfer_no_items_key = [transfer_info transfer_no_items_key]
  /\ length (order_rows order_two_items) = 2%nat
  /\ length (order_rows order_zero_items) = 0%nat
  /\ length (invoice_rows invoice_without_warehouse) = 1%nat.
Proof.
  split; [reflexivity|]. split; [reflexivity|].
  destruct (row_expansion_by_design
              [transfer_two_items; transfer_no_items_key]
              [order_two_items; order_zero_items]
              [invoice_without_warehouse; invoice_zero_items]
              eq_refl eq_refl) as [_ [Hp [_ [Ht [Hk [Ho Hi]]]]]].
  split; [exact Hp|].
  split; [exact (Ht transfer_two_items _ _ eq_refl)|].
  split; [exact (proj1 (Hk transfer_no_items_key eq_refl))|].
  split; [exact (Ho order_two_items _ eq_refl eq_refl)|].
  split; [exact (Ho order_zero_items _ eq_refl eq_refl)|].
  exact (Hi invoice_without_warehouse _ eq_refl eq_refl).
Defined.

(** The slip next to C2: a null warehouse in an invoice raises
    [AttributeError], which the handler of [process_invoice_data] does not
    list, so the exception leaves the normalizer and the batch is lost. *)
Lemma invoice_null_warehouse_aborts :
  Sales.process_invoice_data [invoice_without_warehouse; invoice_null_warehouse]
  = Raise AttributeError.
Proof. reflexivity. Qed.

(** C2, as stated, fails: a missing invoice warehouse resolves the field
    to "Unknown", not to null; and a purchase order without an id is
    dropped whole with one warning instead of yielding its row with a
    null invoice_id. *)
Lemma missing_field_not_always_null :
  (exists r, Sales.process_invoice_data [invoice_without_warehouse] = Ok [r]
             /\ lookup "warehouse_name" r = Some (JStr "Unknown")
             /\ lookup "warehouse_name" r <> Some JNull)
  /\ Purchases.exec_orders [order_without_id]
     = (Ok tt, mk_nstate [] [(JStr "unknown", KeyError)]).
Proof.
  split; [|reflexivity].
  eexists. split; [reflexivity|]. split; [reflexivity|]. discriminate.
Qed.

(** C2, amended. In the inventory and warehouse-transfer normalizers a
    failure to extract any single field resolves that field to null and
    aborts nothing: every batch is processed to the end and no warning is
    logged. In the purchase-order normalizer every batch of JSON objects is
    processed to the end, each order adding its own rows and at most one
    warning whatever the other orders hold, and an order whose parent-level
    fields and item objects can be read adds one row per item, a key
    missing from an item being null, and no warning. In the invoice
    normalizer every batch of objects whose warehouse is absent or an object
    and whose items are absent or a list of objects is processed to the end
    without a warning, a missing key being null except the warehouse name,
    which is "Unknown". *)
Theorem field_isolation_by_design (items transfers orders invoices : list json) :
  forallb is_obj orders = true ->
  forallb invoice_wf invoices = true ->
  Inventory.exec_items items = (Ok tt, mk_nstate (map inventory_row items) [])
  /\ Movements.exec_transfers transfers
     = (Ok tt, mk_nstate (flat_map transfer_rows transfers) [])
  /\ Purchases.exec_orders orders
     = (Ok tt, concat_effects (map order_effect orders))
  /\ (forall o, (length (warnings (order_effect o)) <= 1)%nat)
  /\ (forall o, order_wf o = true -> order_effect o = mk_nstate (order_rows o) [])
  /\ Sales.exec_invoices invoices
     = (Ok tt, mk_nstate (flat_map invoice_rows invoices) []).
Proof.
  intros Ho Hi.
  split; [apply inventory_exec|].
  split; [apply movements_exec|].
  split; [apply purchases_exec; assumption|].
  split; [intros o; apply order_effect_shape|].
  split; [|apply sales_exec_wf; assumption].
  intros o Hw. apply order_wf_effect. assumption.
Qed.

Lemma field_isolation_witness :
  forallb is_obj [order_without_id; order_two_items] = true
  /\ forallb invoice_wf [invoice_without_warehouse] = true
  /\ Purchases.exec_orders [order_without_id; order_two_items]
     = (Ok tt, concat_effects (map order_effect [order_without_id; order_two_items]))
  /\ length (processed_items
        (concat_effects (map order_effect [order_without_id; order_two_items])))
     = 2%nat
  /\ order_effect order_two_items = mk_nstate (order_rows order_two_items) [].
Proof.
  split; [reflexivity|]. split; [reflexivity|].
  destruct (field_isolation_by_design
              [item_bare] [transfer_no_items_key]
              [order_without_id; order_two_items]
              [invoice_without_warehouse]
              eq_refl eq_refl) as [_ [_ [Hp [_ [Ho _]]]]].
  split; [exact Hp|]. split; [reflexivity|].
  exact (Ho order_two_items eq_refl).
Defined.



(** ** The normalizers on the sample records *)

Example inventory_bare_item :
  Inventory.process_items_data [item_bare]
  = Ok [[("id", JInt 1); ("name", JStr "bolt"); ("initial_quantity", JNull);
         ("initial_quantity_date", JNull); ("final_available_quantity", JNull);
         ("photo_url", JNull)]].
Proof. reflexivity. Qed.

Example transfer_without_items_key :
  Movements.process_warehouse_transfers_data [transfer_no_items_key]
  = Ok [[("movement_date", JStr "2025-08-02");
         ("warehouse_origin", JStr "Central");
         ("warehouse_destination", JStr "South")]].
Proof. reflexivity. Qed.

(** A transfer whose ["items"] is the empty list adds no row: the loop
    body never runs and nothing is raised, so the fallback is not taken. *)
Example transfer_with_empty_items :
  Movements.process_warehouse_transfers_data
    [JObj [("date", JStr "2025-08-02"); ("items", JArr [])]] = Ok [].
Proof. reflexivity. Qed.

Example invoice_without_warehouse_row :
  Sales.process_invoice_data [invoice_without_warehouse]
  = Ok [[("factura_id", JInt 20); ("fecha_venta", JStr "2025-08-01");
         ("item_id", JInt 1); ("item_name", JStr "bolt");
         ("item_quantity", JInt 2); ("warehouse_name", JStr "Unknown")]].
Proof. reflexivity. Qed.

(** A purchase order that is no JSON object leaves the normalizer with
    [AttributeError], raised by the handler's own [order.get]. *)
Example purchase_order_not_an_object :
  Purchases.process_purchase_orders_data [order_two_items; JNull]
  = Raise AttributeError.
Proof. reflexivity. Qed.

(** ** The fetch loop *)

Local Open Scope Z_scope.

Ltac pick_final_state :=
  match goal with
  | |- exists st', (_, ?s) = (_, st') /\ _ => exists s
  end.

Lemma offsets_unfold (k n : nat) :
  map (fun i => offset (k + i)) (seq 0 (S n))
  = offset k :: map (fun i => offset (S k + i)) (seq 0 n).
Proof.
  cbn [seq map]. rewrite Nat.add_0_r. f_equal.
  rewrite <- seq_shift, map_map. apply map_ext. intros i. f_equal. lia.
Qed.

Section PipelineFacts.

Variable process : list json -> result (list row).
Variable api : source.

(** [m] full pages that the normalizer accepts, then a short one: the loop
    returns after [m + 1] requests, having kept every record. *)
Lemma fetch_loop_paged (last : list json) (m : nat) :
  forall (k : nat) (st : run_state) (fuel : nat),
    start st = offset k ->
    (forall i, (i < m)%nat ->
       exists page rows, api (offset (k + i)) = Body page
                         /\ Z.of_nat (length page) = BATCH_SIZE
                         /\ process page = Ok rows) ->
    api (offset (k + m)) = Body last ->
    Z.of_nat (length last) < BATCH_SIZE ->
    (exists rows, process last = Ok rows) ->
    (m < fuel)%nat ->
    exists st',
      fetch_loop process api fuel st = (Returned (all_records st'), st')
      /\ requests st' = requests st ++ map (fun i => offset (k + i)) (seq 0 (S m))
      /\ Z.of_nat (length (all_records st'))
         = Z.of_nat (length (all_records st)) + BATCH_SIZE * Z.of_nat m
           + Z.of_nat (length last).
Proof.
  induction m as [|m IH]; intros k st fuel Hstart Hfull Hlast Hshort [lrows Hproc] Hfuel.
  - destruct fuel as [|fuel]; [lia|]. simpl.
    rewrite Hstart. rewrite Nat.add_0_r in Hlast. rewrite Hlast.
    destruct last as [|x last'].
    + pick_final_state. split; [reflexivity|]. simpl. rewrite Nat.add_0_r.
      split; [reflexivity|]. lia.
    + rewrite Hproc. apply Z.ltb_lt in Hshort. rewrite Hshort.
      destruct lrows; (pick_final_state; split; [reflexivity|]; simpl; rewrite Nat.add_0_r;
        split; [reflexivity|]; rewrite length_app; simpl length; lia).
  - destruct fuel as [|fuel]; [lia|].
    cbn [fetch_loop start all_records file requests].
    destruct (Hfull 0%nat ltac:(lia)) as [page [rows [Hpage [Hlen Hrows]]]].
    rewrite Nat.add_0_r in Hpage. rewrite Hstart, Hpage.
    destruct page as [|x page']; [simpl in Hlen; unfold BATCH_SIZE in Hlen; lia|].
    rewrite Hrows.
    assert (Hnlt : Z.ltb (Z.of_nat (length (x :: page'))) BATCH_SIZE = false)
      by (apply Z.ltb_ge; lia).
    rewrite Hnlt.
    match goal with
    | |- context [fetch_loop process api fuel ?s] =>
        destruct (IH (S k) s fuel) as [st' [Hrun [Hreq Hall]]]
    end.
    + destruct rows; simpl; unfold offset; lia.
    + intros i Hi. destruct (Hfull (S i) ltac:(lia)) as [p [r [H1 [H2 H3]]]].
      exists p, r. replace (S k + i)%nat with (k + S i)%nat by lia. auto.
    + replace (S k + m)%nat with (k + S m)%nat by lia. assumption.
    + assumption.
    + eauto.
    + lia.
    + exists st'. split; [exact Hrun|]. split.
      * rewrite Hreq, (offsets_unfold k (S m)).
        destruct rows; cbn [requests]; rewrite <- app_assoc; reflexivity.
      * rewrite Hall. destruct rows; simpl all_records; rewrite length_app; lia.
Qed.



End PipelineFacts.

(** ** The purchase-order pipeline *)










(** C4 fails on the code. The claim: whenever a run appends one or more
    batches, the artifact's first line is the column header and the header
    appears exactly once. Here the first page normalizes to no row, so
    nothing is written at offset 0; the first batch written is the one of
    the second page, which is appended without a header: the artifact
    starts with a data line and holds no header at all. *)
Lemma no_header_when_first_page_has_no_rows :
  exists st c1 c2,
    fetch_purchase_orders_data first_page_without_rows 5 None
    = (Returned (all_records st), st)
    /\ requests st = [0; 30]
    /\ file st = Some [Data c1; Data c2]
    /\ filter is_header [Data c1; Data c2] = [].
Proof.
  eexists (snd (fetch_purchase_orders_data first_page_without_rows 5 None)).
  vm_compute. do 2 eexists. repeat split.
Qed.



(** ** The fetch loop with the failures of the write *)



Section IoFacts.

Variable env : Io.environment.
Variable process : list json -> result (list row).
Variable api : Io.source.



(** One turn, told from the page it fetched. *)
Lemma loop_body_spec (st : run_state) (k : nat) :
  start st = offset k ->
  match Io.loop_body env process api st with
  | Io.Ends e st1 =>
      requests st1 = requests st ++ [offset k]
      /\ all_records st1 = all_records st ++ records_of api (offset k)
      /\ page_stops env process api k e
      /\ (forall all, e = Io.Returns all -> all = all_records st1)
      /\ e <> Io.OutOfFuel
  | Io.GoesOn st1 =>
      requests st1 = requests st ++ [offset k]
      /\ all_records st1 = all_records st ++ records_of api (offset k)
      /\ start st1 = offset (S k)
      /\ page_goes_on env process api k
  end.
Proof.
  intros Hstart. unfold Io.loop_body, records_of.
  cbn [start all_records file requests]. rewrite Hstart.
  destruct (api (offset k)) as [batch_data| |] eqn:Hapi.
  - destruct (truthy batch_data) eqn:Htruthy; cbn [negb].
    + destruct (py_iter batch_data) as [elems|err] eqn:Hiter.
      * destruct (process elems) as [rows|err] eqn:Hproc.
        -- cbv zeta. cbn [start all_records file requests].
           destruct rows as [|r rows].
           ++ cbn [fst snd].
              assert (Hsaved : page_saved env process api k elems []).
              { exists batch_data. repeat split; auto. congruence. }
              destruct (Z.ltb (Z.of_nat (length elems)) BATCH_SIZE) eqn:Hlt.
              ** cbn [requests all_records]. repeat split; try discriminate.
                 --- cbn [page_stops]. right. exists elems, [].
                     split; [exact Hsaved | apply Z.ltb_lt; exact Hlt].
                 --- intros all H. inversion H. reflexivity.
              ** cbn [requests all_records start]. repeat split.
                 --- unfold offset, BATCH_SIZE. lia.
                 --- exists elems, []. split; [exact Hsaved | apply Z.ltb_ge; exact Hlt].
           ++ unfold Io.save_batch_to_csv, Io.to_csv. cbv zeta.
              destruct (Io.write_at env (offset k)) as [| |n we] eqn:Hw;
                cbn [fst snd].
              ** assert (Hsaved : page_saved env process api k elems (r :: rows)).
                 { exists batch_data. repeat split; auto. }
                 destruct (Z.ltb (Z.of_nat (length elems)) BATCH_SIZE) eqn:Hlt.
                 --- cbn [requests all_records]. repeat split; try discriminate.
                     +++ cbn [page_stops]. right. exists elems, (r :: rows).
                         split; [exact Hsaved | apply Z.ltb_lt; exact Hlt].
                     +++ intros all H. inversion H. reflexivity.
                 --- cbn [requests all_records start]. repeat split.
                     +++ unfold offset, BATCH_SIZE. lia.
                     +++ exists elems, (r :: rows).
                         split; [exact Hsaved | apply Z.ltb_ge; exact Hlt].
              ** cbn [requests all_records]. repeat split; try discriminate.
                 cbn [page_stops]. exists batch_data, elems, r, rows.
                 repeat split; auto. left. auto.
              ** cbn [requests all_records]. repeat split; try discriminate.
                 cbn [page_stops]. exists batch_data, elems, r, rows.
                 repeat split; auto. right. exists n. exact Hw.
        -- cbn [requests all_records]. repeat split; try discriminate.
           cbn [page_stops]. exists batch_data, elems. auto.
      * cbn [requests all_records]. rewrite app_nil_r. repeat split; try discriminate.
        cbn [page_stops]. exists batch_data, err. auto.
    + cbn [requests all_records]. rewrite app_nil_r. repeat split; try discriminate.
      * cbn [page_stops]. left. exists batch_data. auto.
      * intros all H. inversion H. reflexivity.
  - cbn [requests all_records]. rewrite app_nil_r. repeat split; try discriminate.
    exact Hapi.
  - cbn [requests all_records]. rewrite app_nil_r. repeat split; try discriminate.
    exact Hapi.
Qed.

Lemma records_unfold (k n : nat) :
  flat_map (records_of api) (map (fun i => offset (k + i)) (seq 0 (S n)))
  = records_of api (offset k)
    ++ flat_map (records_of api) (map (fun i => offset (S k + i)) (seq 0 n)).
Proof. rewrite offsets_unfold. reflexivity. Qed.

(** The whole trace of a run from the page of index [k]. *)
Lemma io_loop_trace (fuel : nat) :
  forall (k : nat) (st : run_state),
    start st = offset k ->
    exists n,
      (n <= fuel)%nat
      /\ requests (snd (Io.fetch_loop env process api fuel st))
         = requests st ++ map (fun i => offset (k + i)) (seq 0 n)
      /\ all_records (snd (Io.fetch_loop env process api fuel st))
         = all_records st
           ++ flat_map (records_of api) (map (fun i => offset (k + i)) (seq 0 n))
      /\ (forall i, (S i < n)%nat -> page_goes_on env process api (k + i))
      /\ (forall all, fst (Io.fetch_loop env process api fuel st) = Io.Returns all ->
            all = all_records (snd (Io.fetch_loop env process api fuel st)))
      /\ ((n = 0%nat /\ fuel = 0%nat)
          \/ ((1 <= n)%nat
              /\ page_stops env process api (k + n - 1)
                            (fst (Io.fetch_loop env process api fuel st))
              /\ (fst (Io.fetch_loop env process api fuel st) = Io.OutOfFuel
                  -> n = fuel))).
Proof.
  induction fuel as [|fuel IH]; intros k st Hstart.
  - exists 0%nat. cbn [Io.fetch_loop fst snd seq map flat_map]. rewrite !app_nil_r.
    repeat split; try lia; try discriminate.
  - cbn [Io.fetch_loop]. pose proof (loop_body_spec st k Hstart) as Hbody.
    destruct (Io.loop_body env process api st) as [e st1|st1].
    + destruct Hbody as [Hreq [Hall [Hstop [Hret Hnot]]]].
      exists 1%nat. cbn [fst snd seq map flat_map]. rewrite Nat.add_0_r, app_nil_r.
      split; [lia|]. split; [exact Hreq|]. split; [exact Hall|].
      split; [intros i Hi; lia|]. split; [exact Hret|].
      right. split; [lia|]. replace (k + 1 - 1)%nat with k by lia.
      split; [exact Hstop|]. intros H. congruence.
    + destruct Hbody as [Hreq [Hall [Hnext Hon]]].
      destruct (IH (S k) st1 Hnext) as [n [Hn [Hreq' [Hall' [Hcont [Hret Hend]]]]]].
      exists (S n). split; [lia|].
      split; [rewrite Hreq', Hreq, offsets_unfold, <- app_assoc; reflexivity|].
      split; [rewrite Hall', Hall, records_unfold, <- app_assoc; reflexivity|].
      split.
      { intros i Hi. destruct i as [|i].
        - rewrite Nat.add_0_r. exact Hon.
        - replace (k + S i)%nat with (S k + i)%nat by lia. apply Hcont. lia. }
      split; [exact Hret|].
      right. split; [lia|].
      destruct Hend as [[Hn0 Hf0]|[Hn1 [Hpe Hout]]].
      * subst n fuel. cbn [Io.fetch_loop fst]. replace (k + 1 - 1)%nat with k by lia.
        split; [exact Hon|]. intros _. reflexivity.
      * replace (k + S n - 1)%nat with (S k + n - 1)%nat by lia.
        split; [exact Hpe|]. intros H. rewrite (Hout H). reflexivity.
Qed.

(** A normalizer that returns on every batch never ends a run. *)
Lemma total_never_raises :
  (forall b, exists rows, process b = Ok rows) ->
  forall fuel st e,
    fst (Io.fetch_loop env process api fuel st) <> Io.NormalizerRaised e.
Proof.
  intros Htotal. induction fuel as [|fuel IH]; intros st e; [discriminate|].
  cbn [Io.fetch_loop]. unfold Io.loop_body.
  cbn [start all_records file requests].
  destruct (api (start st)) as [batch_data| |]; try discriminate.
  destruct (truthy batch_data); cbn [negb]; [|discriminate].
  destruct (py_iter batch_data) as [elems|err]; [|discriminate].
  destruct (Htotal elems) as [rows Hrows]. rewrite Hrows. cbv zeta.
  match goal with
  | |- context [fst ?saved] => destruct (fst saved); [discriminate|]
  end.
  destruct (Z.ltb _ BATCH_SIZE); [discriminate|]. apply IH.
Qed.

End IoFacts.




(** ** The warehouse loader *)

Section UploaderFacts.

Import Uploader.

Variable w : world.
Variable self_project_id : string.

Local Abbreviation upload := (upload_csv_to_table w self_project_id).

(** Both handlers return [False]: the method never raises. *)
Lemma upload_returns a s : exists b s', upload a s = (Ok b, s').
Proof.
  unfold upload_csv_to_table, try_except_as.
  destruct (upload_body w self_project_id a s) as [[b|e] s']; simpl; [eauto|].
  destruct e; unfold bind, print, modify, ret; simpl; eauto.
Qed.

Lemma get_table_info_returns t s :
  exists b s', get_table_info w t s = (Ok b, s').
Proof.
  unfold get_table_info, try_except_as, bind, send.
  destruct (warehouse w (calls s) (GetTable t)) as [|e]; simpl; [eauto|].
  destruct e; unfold bind, print, modify, ret; simpl; eauto.
Qed.

Lemma new_calls_app s cs p : new_calls s (mk_ustate (calls s ++ cs) p) = cs.
Proof.
  unfold new_calls. simpl. rewrite skipn_app, skipn_all, Nat.sub_diag. reflexivity.
Qed.


Lemma emits_ret {A} P (a : A) : emits P (ret a : M ustate A).
Proof. intros s. exists []. simpl. rewrite app_nil_r. auto. Qed.

Lemma emits_raise {A} P e : emits P (raise e : M ustate A).
Proof. intros s. exists []. simpl. rewrite app_nil_r. auto. Qed.

Lemma emits_print P m : emits P (print m).
Proof. intros s. exists []. simpl. rewrite app_nil_r. auto. Qed.

Lemma emits_send (P : call -> Prop) c : P c -> emits P (send w c).
Proof.
  intros H s. exists [c]. unfold send.
  destruct (warehouse w (calls s) c); simpl; auto.
Qed.

Lemma emits_bind {A B} P (m : M ustate A) (f : A -> M ustate B) :
  emits P m ->
  (forall a, (exists s, fst (m s) = Ok a) -> emits P (f a)) ->
  emits P (bind m f).
Proof.
  intros Hm Hf s. unfold bind. destruct (Hm s) as [cs [Hcs Pcs]].
  destruct (m s) as [[a|e] s1] eqn:Hms; simpl in *.
  - destruct (Hf a (ex_intro _ s (f_equal fst Hms)) s1) as [cs' [Hcs' Pcs']].
    exists (cs ++ cs'). rewrite Hcs', Hcs, app_assoc. split; [reflexivity|].
    apply Forall_app; auto.
  - exists cs. auto.
Qed.

Lemma emits_try_except {A} P (body handler : M ustate A) caught :
  emits P body -> emits P handler -> emits P (try_except body caught handler).
Proof.
  intros Hb Hh s. unfold try_except. destruct (Hb s) as [cs [Hcs Pcs]].
  destruct (body s) as [[a|e] s1]; simpl in *; [eauto|].
  destruct (existsb (exn_eqb e) caught); simpl; [|eauto].
  destruct (Hh s1) as [cs' [Hcs' Pcs']].
  exists (cs ++ cs'). rewrite Hcs', Hcs, app_assoc. split; [reflexivity|].
  apply Forall_app; auto.
Qed.

Lemma emits_try_except_as {A} P (body : M ustate A) caught handler :
  emits P body -> (forall e, emits P (handler e)) ->
  emits P (try_except_as body caught handler).
Proof.
  intros Hb Hh s. unfold try_except_as. destruct (Hb s) as [cs [Hcs Pcs]].
  destruct (body s) as [[a|e] s1]; simpl in *; [eauto|].
  destruct (caught e); simpl; [|eauto].
  destruct (Hh e s1) as [cs' [Hcs' Pcs']].
  exists (cs ++ cs'). rewrite Hcs', Hcs, app_assoc. split; [reflexivity|].
  apply Forall_app; auto.
Qed.

Ltac not_a_load := intros ? ? ? Hc; discriminate Hc.

Lemma create_dataset_emits a d loc :
  emits (load_as_configured w a) (create_dataset_if_not_exists w self_project_id d loc).
Proof.
  unfold create_dataset_if_not_exists. apply emits_try_except;
    (apply emits_bind; [apply emits_send; not_a_load | intros; apply emits_print]).
Qed.

Lemma infer_schema_value csv s :
  fst (infer_schema_from_csv w csv s) = Ok (inferred_schema w csv).
Proof.
  unfold infer_schema_from_csv, inferred_schema.
  destruct (read_csv w csv); reflexivity.
Qed.

Lemma infer_schema_emits P csv : emits P (infer_schema_from_csv w csv).
Proof.
  unfold infer_schema_from_csv. destruct (read_csv w csv).
  - apply emits_ret.
  - apply emits_bind; [apply emits_print | intros; apply emits_ret].
Qed.

Lemma determine_schema_emits P csv t sch auto :
  emits P (determine_schema w csv t sch auto).
Proof.
  unfold determine_schema. destruct (is_none sch); [|apply emits_ret].
  destruct (is_none (get_predefined_schema t) && negb auto)%bool; [|apply emits_ret].
  apply emits_bind; [apply infer_schema_emits|].
  intros inferred _. destruct inferred.
  - apply emits_bind; [apply emits_print | intros; apply emits_ret].
  - apply emits_ret.
Qed.

(** The block returns what [schema_choice] says. *)
Lemma determine_schema_value a s chosen :
  fst (determine_schema w (csv_file a) (table_name_of (table_id a)) (schema a)
                        (auto_detect_schema a) s) = Ok (inr chosen) ->
  schema_choice w a = Some chosen.
Proof.
  unfold determine_schema, schema_choice.
  destruct (schema a) as [given|]; simpl.
  - intros H. inversion H. reflexivity.
  - destruct (get_predefined_schema (table_name_of (table_id a))) as [reg|]; simpl.
    + intros H. inversion H. reflexivity.
    + destruct (auto_detect_schema a); simpl.
      * intros H. inversion H. reflexivity.
      * unfold bind.
        pose proof (infer_schema_value (csv_file a) s) as Hv.
        destruct (infer_schema_from_csv w (csv_file a) s) as [[inferred|e] s1];
          simpl in Hv; inversion Hv; subst.
        destruct (inferred_schema w (csv_file a)); simpl.
        -- intros H. discriminate H.
        -- intros H. inversion H. reflexivity.
Qed.

Lemma upload_body_emits a :
  emits (load_as_configured w a) (upload_body w self_project_id a).
Proof.
  unfold upload_body.
  destruct (negb (path_exists w (csv_file a)));
    [apply emits_bind; [apply emits_print | intros; apply emits_ret]|].
  destruct (Nat.eqb (length (split_dot (table_id a))) 3) eqn:Hlen; simpl;
    [|apply emits_bind; [apply emits_print | intros; apply emits_ret]].
  apply Nat.eqb_eq in Hlen.
  assert (Ht : snd (unpack3 (split_dot (table_id a))) = table_name_of (table_id a))
    by reflexivity.
  destruct (unpack3 (split_dot (table_id a))) as [[project_id dataset_id] table_name].
  simpl in Ht. subst table_name.
  apply emits_bind; [apply create_dataset_emits|]. intros _ _.
  apply emits_bind; [apply determine_schema_emits|]. intros determined [s Hs].
  destruct determined as [b|chosen]; [apply emits_ret|].
  apply determine_schema_value in Hs.
  apply emits_bind; [apply emits_print|]. intros _ _.
  apply emits_bind.
  { destruct (can_open w (csv_file a)); [|apply emits_raise].
    apply emits_send. intros c t cfg Hc. inversion Hc; subst.
    split; [reflexivity|]. split; [assumption|]. exists chosen. auto. }
  intros _ _.
  apply emits_bind; [apply emits_send; not_a_load|]. intros _ _.
  apply emits_bind; [apply emits_send; not_a_load|]. intros _ _.
  apply emits_bind; [apply emits_print | intros; apply emits_ret].
Qed.

(** Every load job the method submits is configured from its arguments
    and the schema the resolution block chose. *)
Lemma upload_emits a :
  emits (load_as_configured w a) (upload_csv_to_table w self_project_id a).
Proof.
  unfold upload_csv_to_table. apply emits_try_except_as; [apply upload_body_emits|].
  intros e. destruct e;
    (apply emits_bind; [apply emits_print | intros; apply emits_ret]).
Qed.

Lemma upload_new_calls a s csv t cfg :
  In (LoadTableFromFile csv t cfg)
     (new_calls s (snd (upload_csv_to_table w self_project_id a s))) ->
  length (split_dot (table_id a)) = 3%nat
  /\ exists chosen, schema_choice w a = Some chosen /\ cfg = config_for a chosen.
Proof.
  intros Hin. destruct (upload_emits a s) as [cs [Hcs Pcs]].
  unfold new_calls in Hin. rewrite Hcs in Hin.
  rewrite skipn_app, skipn_all, Nat.sub_diag in Hin. simpl in Hin.
  rewrite Forall_forall in Pcs.
  destruct (Pcs _ Hin csv t cfg eq_refl) as [_ H]. exact H.
Qed.

End UploaderFacts.

(** Every registered schema has at least one column. *)
Lemma predefined_schema_nonempty t reg :
  Uploader.get_predefined_schema t = Some reg -> exists f fs, reg = f :: fs.
Proof.
  unfold Uploader.get_predefined_schema, Uploader.schemas. simpl.
  repeat (destruct (String.eqb (Uploader.lower t) _);
          [intros H; inversion H; eauto|]).
  discriminate.
Qed.

Example split_three : Uploader.split_dot "proj.ds.sales" = ["proj"; "ds"; "sales"].
Proof. reflexivity. Qed.

Example split_two : Uploader.split_dot "proj.ds" = ["proj"; "ds"].
Proof. reflexivity. Qed.

Example lower_mixed : Uploader.lower "Sales_2" = "sales_2".
Proof. reflexivity. Qed.

(** C6, as stated, fails: a schema passed by the caller governs the job
    of a registered table, so none of the three does; and an empty schema
    passed by the caller gives a job with neither schema nor auto-detect. *)
Lemma caller_schema_overrides_registry :
  Uploader.get_predefined_schema "sales" <> None
  /\ (exists cfg,
        In (Uploader.LoadTableFromFile "factura_items.csv" "proj.optistock.sales" cfg)
           (Uploader.calls (snd (Uploader.upload_csv_to_table friendly_world "proj"
              (args_with_schema "factura_items.csv" "proj.optistock.sales"
                                [Uploader.mk_field "x" "STRING"]) fresh)))
        /\ Uploader.cfg_schema cfg = Some [Uploader.mk_field "x" "STRING"]
        /\ forall k, ~ governs friendly_world
                       (args_with_schema "factura_items.csv" "proj.optistock.sales"
                                         [Uploader.mk_field "x" "STRING"]) cfg k)
  /\ (exists cfg,
        In (Uploader.LoadTableFromFile "factura_items.csv" "proj.optistock.sales" cfg)
           (Uploader.calls (snd (Uploader.upload_csv_to_table friendly_world "proj"
              (args_with_schema "factura_items.csv" "proj.optistock.sales" []) fresh)))
        /\ Uploader.cfg_schema cfg = None
        /\ Uploader.cfg_autodetect cfg = false
        /\ forall k, ~ governs friendly_world
                       (args_with_schema "factura_items.csv" "proj.optistock.sales" [])
                       cfg k).
Proof.
  split; [discriminate|]. split.
  - eexists. split; [vm_compute; right; left; reflexivity|].
    split; [reflexivity|].
    intros k H. destruct k; simpl in H.
    + destruct H as [reg [H1 [H2 _]]]. vm_compute in H1. inversion H1; subst.
      discriminate H2.
    + destruct H as [H1 _]. vm_compute in H1. discriminate H1.
    + destruct H as [H1 _]. discriminate H1.
  - eexists. split; [vm_compute; right; left; reflexivity|].
    split; [reflexivity|]. split; [reflexivity|].
    intros k H. destruct k; simpl in H.
    + destruct H as [reg [_ [H2 _]]]. discriminate H2.
    + destruct H as [H1 _]. vm_compute in H1. discriminate H1.
    + destruct H as [_ H2]. discriminate H2.
Qed.

(** C6, amended. When the caller passes no schema of its own, a table
    name that has a registered schema gets the registered schema even when
    auto_detect_schema is true, and exactly one of registered schema,
    inferred schema and warehouse auto-detect governs the submitted job; a
    schema passed by the caller takes precedence over all three: the job
    carries that schema with auto-detect off, whatever the registry holds
    for the table, and an empty one gives a job with neither schema nor
    auto-detect; whatever the caller passes, no submitted job has both an
    explicit schema and auto-detect enabled. *)
Theorem schema_precedence_by_design
        (w : Uploader.world) (self_project_id : string) (a : Uploader.upload_args)
        (s : Uploader.ustate) (csv table_ref : string) (cfg : Uploader.LoadJobConfig) :
  In (Uploader.LoadTableFromFile csv table_ref cfg)
     (new_calls s (snd (Uploader.upload_csv_to_table w self_project_id a s))) ->
  (Uploader.cfg_autodetect cfg = true -> Uploader.cfg_schema cfg = None)
  /\ (Uploader.schema a = None ->
      (forall reg,
         Uploader.get_predefined_schema (table_name_of (Uploader.table_id a)) = Some reg ->
         Uploader.cfg_schema cfg = Some reg /\ Uploader.cfg_autodetect cfg = false)
      /\ exists k, governs w a cfg k /\ forall k', governs w a cfg k' -> k' = k)
  /\ (forall f fs,
        Uploader.schema a = Some (f :: fs) ->
        Uploader.cfg_schema cfg = Some (f :: fs)
        /\ Uploader.cfg_autodetect cfg = false)
  /\ (Uploader.schema a = Some [] ->
      Uploader.cfg_schema cfg = None /\ Uploader.cfg_autodetect cfg = false).
Proof.
  intros Hin.
  destruct (upload_new_calls w self_project_id a s csv table_ref cfg Hin)
    as [_ [chosen [Hchoice ->]]].
  split; [|split; [|split]].
  - unfold config_for; simpl. destruct chosen as [[|f fs]|]; simpl;
      rewrite ?andb_false_r; try discriminate; reflexivity.
  - intros Hnone. unfold schema_choice in Hchoice. rewrite Hnone in Hchoice.
    destruct (Uploader.get_predefined_schema (table_name_of (Uploader.table_id a)))
      as [reg|] eqn:Hreg.
    + inversion Hchoice; subst chosen.
      destruct (predefined_schema_nonempty _ _ Hreg) as [f [fs ->]].
      assert (Hcfg : Uploader.cfg_schema (config_for a (Some (f :: fs))) = Some (f :: fs)
                     /\ Uploader.cfg_autodetect (config_for a (Some (f :: fs))) = false).
      { unfold config_for; simpl. rewrite andb_false_r. auto. }
      destruct Hcfg as [Hs Ha]. split.
      * intros reg' Hreg'. inversion Hreg'; subst. auto.
      * exists Registered. split.
        -- unfold governs. exists (f :: fs). auto.
        -- intros k' Hk'. destruct k'; unfold governs in Hk'; [reflexivity| |].
           ++ destruct Hk' as [H _]. congruence.
           ++ destruct Hk' as [_ H]. congruence.
    + split; [intros reg' Hreg'; discriminate Hreg'|].
      destruct (Uploader.auto_detect_schema a) eqn:Hauto.
      * inversion Hchoice; subst chosen. exists AutoDetect.
        assert (Hcfg : Uploader.cfg_schema (config_for a None) = None
                       /\ Uploader.cfg_autodetect (config_for a None) = true).
        { unfold config_for; simpl. rewrite Hauto. auto. }
        destruct Hcfg as [Hs Ha]. split; [unfold governs; auto|].
        intros k' Hk'. destruct k'; unfold governs in Hk'; [| |reflexivity].
        -- destruct Hk' as [reg [H _]]. congruence.
        -- destruct Hk' as [_ [_ [_ H]]]. congruence.
      * destruct (inferred_schema w (Uploader.csv_file a)) as [|f fs] eqn:Hinf;
          [discriminate Hchoice|].
        inversion Hchoice; subst chosen. exists Inferred.
        assert (Hcfg : Uploader.cfg_schema (config_for a (Some (f :: fs))) = Some (f :: fs)
                       /\ Uploader.cfg_autodetect (config_for a (Some (f :: fs))) = false).
        { unfold config_for; simpl. rewrite Hauto. auto. }
        destruct Hcfg as [Hs Ha]. split.
        -- unfold governs. rewrite Hinf. repeat split; auto. discriminate.
        -- intros k' Hk'. destruct k'; unfold governs in Hk'; [|reflexivity|].
           ++ destruct Hk' as [reg [H _]]. congruence.
           ++ destruct Hk' as [_ H]. congruence.
  - intros f fs Hgiven. unfold schema_choice in Hchoice. rewrite Hgiven in Hchoice.
    inversion Hchoice; subst chosen. unfold config_for.
    cbn [Uploader.cfg_schema Uploader.cfg_autodetect Uploader.schema_or_none
         Uploader.is_none].
    rewrite andb_false_r. split; reflexivity.
  - intros Hgiven. unfold schema_choice in Hchoice. rewrite Hgiven in Hchoice.
    inversion Hchoice; subst chosen. unfold config_for.
    cbn [Uploader.cfg_schema Uploader.cfg_autodetect Uploader.schema_or_none
         Uploader.is_none].
    rewrite andb_false_r. split; reflexivity.
Qed.

Lemma schema_precedence_witness :
  exists cfg,
    In (Uploader.LoadTableFromFile "factura_items.csv" "proj.optistock.SALES" cfg)
       (new_calls fresh
          (snd (Uploader.upload_csv_to_table friendly_world "proj"
                  (default_args "factura_items.csv" "proj.optistock.SALES") fresh)))
    /\ Uploader.cfg_schema cfg = Uploader.get_predefined_schema "sales"
    /\ Uploader.cfg_autodetect cfg = false.
Proof.
  exists (config_for (default_args "factura_items.csv" "proj.optistock.SALES")
                     (Uploader.get_predefined_schema "sales")).
  assert (Hin : In (Uploader.LoadTableFromFile "factura_items.csv" "proj.optistock.SALES"
                      (config_for (default_args "factura_items.csv" "proj.optistock.SALES")
                                  (Uploader.get_predefined_schema "sales")))
                   (new_calls fresh
                      (snd (Uploader.upload_csv_to_table friendly_world "proj"
                         (default_args "factura_items.csv" "proj.optistock.SALES") fresh)))).
  { vm_compute. right. left. reflexivity. }
  split; [exact Hin|].
  destruct (schema_precedence_by_design _ _ _ _ _ _ _ Hin) as [_ [H _]].
  destruct (H eq_refl) as [Hreg _].
  exact (Hreg _ eq_refl).
Defined.



(** Beside C9: the job carries the write disposition, the rows to skip,
    the delimiter and the encoding exactly as the caller gave them; what a
    disposition does to the table is decided by the warehouse. *)
Lemma write_disposition_forwarded
      (w : Uploader.world) (self_project_id : string) (a : Uploader.upload_args)
      (s : Uploader.ustate) (csv table_ref : string) (cfg : Uploader.LoadJobConfig) :
  In (Uploader.LoadTableFromFile csv table_ref cfg)
     (new_calls s (snd (Uploader.upload_csv_to_table w self_project_id a s))) ->
  Uploader.cfg_write_disposition cfg = Uploader.write_disposition a
  /\ Uploader.cfg_skip_leading_rows cfg = Uploader.skip_leading_rows a
  /\ Uploader.cfg_field_delimiter cfg = Uploader.field_delimiter a
  /\ Uploader.cfg_encoding cfg = Uploader.encoding a.
Proof.
  intros Hin.
  destruct (upload_new_calls w self_project_id a s csv table_ref cfg Hin)
    as [_ [chosen [_ ->]]].
  repeat split.
Qed.

(** ** The batch coordinator *)

Section BatchFacts.

Import Uploader Batch.

Variable w : world.

(** One entity: the upload is called on the uploader as it stands, the
    lines report what the call returned, and the loop goes on. *)
Lemma process_entry_result entry s :
  exists s' r,
    process_entry w entry s = (Ok tt, s')
    /\ entity_run w entry (ust s) r
    /\ ust s' = after r
    /\ report s' = report s ++ block r
    /\ success_count s' = success_count s + (if upload_succeeded r then 1 else 0)
    /\ total_files s' = total_files s + 1.
Proof.
  destruct entry as [csv table]. unfold process_entry, entity_run, upload_succeeded.
  unfold bind at 1. unfold incr_total, modify. cbn [fst snd].
  destruct (path_exists w csv) eqn:Hex; cbn [negb].
  - unfold bind at 1. unfold say at 1. unfold modify. cbn [ust report success_count total_files].
    unfold try_except_as, bind at 1, call_uploader at 1.
    cbn [ust report success_count total_files].
    match goal with
    | |- context [upload_csv_to_table w PROJECT_ID ?a ?u] =>
        destruct (upload_returns w PROJECT_ID a u) as [b [u1 Hu]]; rewrite Hu
    end.
    destruct b.
    + unfold bind at 1, incr_success, modify.
      unfold bind at 1, say at 1, modify.
      unfold bind at 1, call_uploader.
      cbn [ust report success_count total_files].
      match goal with
      | |- context [get_table_info w ?t ?u] =>
          destruct (get_table_info_returns w t u) as [i [u2 Hi]]; rewrite Hi
      end.
      destruct i.
      * eexists.
        exists (mk_entity_result
                  [Processing csv (PROJECT_ID ++ "." ++ DATASET_ID ++ "." ++ table)%string;
                   UploadSuccessful;
                   TableInfo (PROJECT_ID ++ "." ++ DATASET_ID ++ "." ++ table)%string]
                  (Some true) u2).
        split; [reflexivity|]. cbn [block uploaded after ust report success_count
                                    total_files].
        split; [exists true, u1; split; [reflexivity|]; split; [reflexivity|];
                exists true; split; [exact Hi | reflexivity]|].
        split; [reflexivity|]. split; [rewrite <- !app_assoc; reflexivity|].
        split; reflexivity.
      * eexists.
        exists (mk_entity_result
                  [Processing csv (PROJECT_ID ++ "." ++ DATASET_ID ++ "." ++ table)%string;
                   UploadSuccessful]
                  (Some true) u2).
        split; [reflexivity|]. cbn [block uploaded after ust report success_count
                                    total_files].
        split; [exists true, u1; split; [reflexivity|]; split; [reflexivity|];
                exists false; split; [exact Hi | reflexivity]|].
        split; [reflexivity|]. split; [rewrite <- !app_assoc; reflexivity|].
        split; reflexivity.
    + eexists.
      exists (mk_entity_result
                [Processing csv (PROJECT_ID ++ "." ++ DATASET_ID ++ "." ++ table)%string;
                 UploadFailed]
                (Some false) u1).
      split; [reflexivity|]. cbn [block uploaded after ust report success_count
                                  total_files].
      split; [exists false, u1; split; [reflexivity|]; split; [reflexivity|];
              split; reflexivity|].
      split; [reflexivity|]. split; [rewrite <- !app_assoc; reflexivity|].
      split; [lia|reflexivity].
  - eexists. exists (mk_entity_result [Skipping csv] None (ust s)).
    split; [reflexivity|]. cbn [block uploaded after ust report success_count
                                total_files].
    split; [auto|]. split; [reflexivity|]. split; [reflexivity|].
    split; [lia|reflexivity].
Qed.

(** The loop over the mapping: every entity in order, each from the
    uploader as the one before it left it. *)
Lemma process_entries_results entries :
  forall s, exists s' results,
    for_each entries (process_entry w) s = (Ok tt, s')
    /\ entities_run w entries (ust s) results
    /\ ust s' = after_all (ust s) results
    /\ report s' = report s ++ concat (map block results)
    /\ success_count s' = success_count s + count_succeeded results
    /\ total_files s' = total_files s + Z.of_nat (length entries).
Proof.
  induction entries as [|entry entries IH]; intros s.
  - exists s, []. simpl. unfold ret, count_succeeded, after_all. simpl.
    rewrite app_nil_r. repeat split; lia.
  - destruct (process_entry_result entry s) as [s1 [r [H1 [H2 [H3 [H4 [H5 H6]]]]]]].
    destruct (IH s1) as [s2 [results [G1 [G2 [G3 [G4 [G5 G6]]]]]]].
    exists s2, (r :: results). cbn [for_each]. unfold bind. rewrite H1.
    split; [exact G1|].
    split; [cbn [entities_run]; rewrite <- H3; auto|].
    split.
    { rewrite G3, H3. unfold after_all. cbn [map].
      destruct results as [|r' results]; [reflexivity|].
      cbn [map]. generalize (after r') (map after results). intros a l.
      revert a. induction l as [|x l IHl]; intros a; [reflexivity|].
      cbn [last] in *. destruct l; [reflexivity|]. apply (IHl x). }
    split; [rewrite G4, H4; cbn [map concat]; rewrite app_assoc; reflexivity|].
    split.
    + rewrite G5, H5. unfold count_succeeded. cbn [filter].
      destruct (upload_succeeded r); cbn [length]; lia.
    + rewrite G6, H6. cbn [length]. lia.
Qed.

Lemma table_infos_loop names :
  forall s1, exists s' infos,
    for_each names (fun table =>
      let table_id := (PROJECT_ID ++ "." ++ DATASET_ID ++ "." ++ table)%string in
      info <- call_uploader (get_table_info w table_id) ;;
      if info : bool then say (TableInfo table_id) else ret tt) s1 = (Ok tt, s')
    /\ report s' = report s1 ++ infos
    /\ success_count s' = success_count s1
    /\ total_files s' = total_files s1.
Proof.
  induction names as [|n names IH]; intros s1.
  - exists s1, []. split; [reflexivity|]. rewrite app_nil_r. auto.
  - cbn [for_each]. unfold bind at 1. unfold bind at 1, call_uploader.
    match goal with
    | |- context [get_table_info w ?t ?u] =>
        destruct (get_table_info_returns w t u) as [i [u2 Hi]]; rewrite Hi
    end.
    destruct i.
    + unfold say, modify.
      match goal with
      | |- context [for_each names _ ?s2] =>
          destruct (IH s2) as [s' [infos [Hr [Hi' [Hc Ht]]]]]
      end.
      exists s'. eexists. split; [exact Hr|]. rewrite Hi', Hc, Ht. cbn [report].
      rewrite <- app_assoc. auto.
    + unfold ret.
      match goal with
      | |- context [for_each names _ ?s2] =>
          destruct (IH s2) as [s' [infos [Hr [Hi' [Hc Ht]]]]]
      end.
      exists s', infos. split; [exact Hr|]. rewrite Hi', Hc, Ht. auto.
Qed.

Lemma list_final_tables_returns s :
  exists s' infos, list_final_tables w s = (Ok tt, s')
                   /\ report s' = report s ++ infos
                   /\ success_count s' = success_count s
                   /\ total_files s' = total_files s.
Proof.
  unfold list_final_tables, bind at 1, call_uploader at 1.
  assert (Hl : exists names u, list_tables_in_dataset w PROJECT_ID DATASET_ID (ust s)
                               = (Ok names, u)).
  { unfold list_tables_in_dataset, try_except_as, bind, send.
    destruct (warehouse w _ _) as [|e]; simpl; [eauto|].
    unfold print, modify, ret. eauto. }
  destruct Hl as [names [u Hl]]. rewrite Hl.
  destruct (table_infos_loop names
              (mk_bstate u (report s) (success_count s) (total_files s)))
    as [s' [infos [Hr Hi]]].
  exists s', infos. split; [exact Hr|]. exact Hi.
Qed.

End BatchFacts.


(** * Further properties *)

(** ** The sink *)

Lemma add_keys_known ks :
  forall acc, (forall k, In k ks -> In k acc) ->
    fold_left (fun acc k => if existsb (String.eqb k) acc then acc else acc ++ [k])
              ks acc = acc.
Proof.
  induction ks as [|k ks IH]; intros acc H; simpl; [reflexivity|].
  assert (Hk : existsb (String.eqb k) acc = true).
  { apply existsb_exists. exists k. split; [apply H; left; reflexivity|].
    apply String.eqb_refl. }
  rewrite Hk. apply IH. intros k' Hk'. apply H. right. assumption.
Qed.

Lemma add_keys_fresh ks :
  forall acc, NoDup (acc ++ ks) ->
    fold_left (fun acc k => if existsb (String.eqb k) acc then acc else acc ++ [k])
              ks acc = acc ++ ks.
Proof.
  induction ks as [|k ks IH]; intros acc H; simpl; [rewrite app_nil_r; reflexivity|].
  assert (Hk : existsb (String.eqb k) acc = false).
  { destruct (existsb (String.eqb k) acc) eqn:E; [|reflexivity].
    apply existsb_exists in E. destruct E as [x [Hx He]].
    apply String.eqb_eq in He. subst x.
    apply NoDup_remove_2 in H. exfalso. apply H. apply in_or_app. left. assumption. }
  rewrite Hk. rewrite IH.
  - rewrite <- app_assoc. reflexivity.
  - rewrite <- app_assoc. exact H.
Qed.

(** The frame of dicts that all have the keys [c], in that order, has the
    columns [c]. *)
Lemma df_columns_uniform (c : list string) (r : row) (rows : list row) :
  NoDup c ->
  Forall (fun r' => keys r' = c) (r :: rows) ->
  df_columns (r :: rows) = c.
Proof.
  intros Hc H. inversion H as [|? ? Hr Hrows]; subst.
  change (df_columns (r :: rows)) with (fold_left add_new_keys rows (add_new_keys [] r)).
  assert (H0 : add_new_keys [] r = keys r).
  { unfold add_new_keys. rewrite add_keys_fresh; [reflexivity|]. exact Hc. }
  rewrite H0. clear H H0. induction Hrows as [|x l Hx _ IH]; cbn [fold_left]; [reflexivity|].
  assert (H1 : add_new_keys (keys r) x = keys r).
  { unfold add_new_keys. apply add_keys_known. intros k Hk. rewrite Hx in Hk. exact Hk. }
  rewrite H1. exact IH.
Qed.

(** ** The fetch loop, request by request *)

Section LoopTrace.

Variable process : list json -> result (list row).
Variable api : source.

(** One turn of [while True:]. *)
Lemma fetch_loop_step (fuel : nat) (st : run_state) :
  fetch_loop process api (S fuel) st
  = match api (start st) with
    | RequestFailed =>
        (Failed RequestException,
         mk_run (start st) (all_records st) (file st) (requests st ++ [start st]))
    | DecodeFailed =>
        (Failed ValueError,
         mk_run (start st) (all_records st) (file st) (requests st ++ [start st]))
    | Body [] =>
        (Returned (all_records st),
         mk_run (start st) (all_records st) (file st) (requests st ++ [start st]))
    | Body (x :: b) =>
        match process (x :: b) with
        | Raise e =>
            (Failed (Uncaught e),
             mk_run (start st) (all_records st ++ x :: b) (file st)
                    (requests st ++ [start st]))
        | Ok rows =>
            let f := match rows with
                     | [] => file st
                     | _ :: _ => save_batch_to_csv rows (file st) (Z.eqb (start st) 0)
                     end in
            if Z.ltb (Z.of_nat (length (x :: b))) BATCH_SIZE
            then (Returned (all_records st ++ x :: b),
                  mk_run (start st) (all_records st ++ x :: b) f
                         (requests st ++ [start st]))
            else fetch_loop process api fuel
                   (mk_run (start st + BATCH_SIZE) (all_records st ++ x :: b) f
                           (requests st ++ [start st]))
        end
    end.
Proof.
  cbn [fetch_loop start all_records file requests].
  destruct (api (start st)) as [[|x b]| |]; try reflexivity.
  destruct (process (x :: b)) as [[|r rows]|e]; reflexivity.
Qed.

End LoopTrace.

(** A run in which every write goes through and every value is kept as
    it is, over an API that answers with arrays, is a run of [fetch_loop]. *)
Lemma plain_run_is_io_run (process : list json -> result (list row)) (api : source)
      (fuel : nat) :
  forall st,
    Io.fetch_loop plain_environment process (as_answers api) fuel st
    = (as_ending (fst (fetch_loop process api fuel st)),
       snd (fetch_loop process api fuel st)).
Proof.
  induction fuel as [|fuel IH]; intros st; [reflexivity|].
  rewrite fetch_loop_step. cbn [Io.fetch_loop]. unfold Io.loop_body, as_answers.
  cbn [start all_records file requests].
  destruct (api (start st)) as [[|x b]| |]; try reflexivity.
  cbn [truthy negb py_iter].
  destruct (process (x :: b)) as [rows|e]; [|reflexivity].
  cbv zeta.
  assert (Hsave : forall r rows' f first,
            Io.save_batch_to_csv plain_environment Io.Written (r :: rows') f first
            = (None, save_batch_to_csv (r :: rows') f first)).
  { intros r rows' f first.
    unfold Io.save_batch_to_csv, Io.to_csv, Io.frame_lines, save_batch_to_csv, to_csv.
    cbv zeta. cbn [Io.frame_value plain_environment].
    destruct first; [reflexivity|]. destruct f; reflexivity. }
  destruct rows as [|r rows].
  - cbn [fst snd start all_records file requests].
    destruct (Z.ltb _ BATCH_SIZE); [reflexivity | apply IH].
  - cbn [Io.write_at plain_environment]. rewrite Hsave.
    cbn [fst snd start all_records file requests].
    destruct (Z.ltb _ BATCH_SIZE); [reflexivity | apply IH].
Qed.



(** X4. No record, however malformed, makes the normalizer of the
    inventory or of the warehouse-transfer pipeline end a run: whatever the
    API answers and however the writes end, their runs never end on an
    exception raised by the normalizer. *)
Theorem robust_pipelines_never_abort (env : Io.environment) (api : Io.source)
        (fuel : nat) (disk : artifact) (e : exn) :
  fst (Io.fetch_items_data env api fuel disk) <> Io.NormalizerRaised e
  /\ fst (Io.fetch_warehouse_transfers_data env api fuel disk) <> Io.NormalizerRaised e.
Proof.
  split; apply total_never_raises; intros b.
  - exists (map inventory_row b). unfold Inventory.process_items_data.
    rewrite inventory_exec. reflexivity.
  - exists (flat_map transfer_rows b). apply movements_process.
Qed.

(** ** The inventory artifact *)

Lemma inventory_process (items : list json) :
  Inventory.process_items_data items = Ok (map inventory_row items).
Proof. unfold Inventory.process_items_data. rewrite inventory_exec. reflexivity. Qed.

Lemma inventory_columns_nodup : NoDup Inventory.columns.
Proof.
  unfold Inventory.columns.
  repeat (constructor; [simpl; intuition discriminate|]). constructor.
Qed.

Lemma inventory_frame_columns (x : json) (b : list json) :
  df_columns (map inventory_row (x :: b)) = Inventory.columns.
Proof.
  cbn [map]. apply df_columns_uniform; [apply inventory_columns_nodup|].
  constructor; [reflexivity|]. apply Forall_forall. intros r Hin.
  apply in_map_iff in Hin. destruct Hin as [i [<- _]]. reflexivity.
Qed.

Lemma inventory_frame_lines_length (env : Io.environment) (elems : list json) :
  length (inventory_frame_lines env elems) = length elems.
Proof. unfold inventory_frame_lines. rewrite !length_map. reflexivity. Qed.

Lemma inventory_lines_count (env : Io.environment) (api : Io.source) (l : list Z) :
  length (flat_map (fun s => inventory_frame_lines env (records_of api s)) l)
  = length (flat_map (records_of api) l).
Proof.
  induction l as [|s l IH]; [reflexivity|].
  cbn [flat_map]. rewrite !length_app, IH, inventory_frame_lines_length. reflexivity.
Qed.

(** Past offset 0, while every write goes through, a turn adds to the file
    the lines of the page it fetched. *)
Lemma inventory_turn (env : Io.environment) (api : Io.source) (st : run_state) :
  (forall s, Io.write_at env s = Io.Written) ->
  0 < start st ->
  file st = Some (Header Inventory.columns
                  :: flat_map (fun s => inventory_frame_lines env (records_of api s))
                              (requests st)) ->
  match Io.loop_body env Inventory.process_items_data api st with
  | Io.Ends _ st1 =>
      file st1 = Some (Header Inventory.columns
                       :: flat_map (fun s => inventory_frame_lines env (records_of api s))
                                   (requests st1))
  | Io.GoesOn st1 =>
      0 < start st1
      /\ file st1 = Some (Header Inventory.columns
                          :: flat_map (fun s => inventory_frame_lines env (records_of api s))
                                      (requests st1))
  end.
Proof.
  intros Hw Hpos Hfile. unfold Io.loop_body.
  cbn [start all_records file requests].
  assert (Hnone : records_of api (start st) = [] ->
                  Some (Header Inventory.columns
                        :: flat_map (fun s => inventory_frame_lines env (records_of api s))
                                    (requests st))
                  = Some (Header Inventory.columns
                          :: flat_map (fun s => inventory_frame_lines env (records_of api s))
                                      (requests st ++ [start st]))).
  { intros H. rewrite flat_map_app. cbn [flat_map]. rewrite H.
    unfold inventory_frame_lines. cbn [map]. rewrite !app_nil_r. reflexivity. }
  destruct (api (start st)) as [batch_data| |] eqn:Hapi;
    try (cbn [file]; rewrite Hfile; apply Hnone; unfold records_of; rewrite Hapi;
         reflexivity).
  destruct (truthy batch_data) eqn:Htruthy; cbn [negb];
    [|cbn [file]; rewrite Hfile; apply Hnone; unfold records_of;
      rewrite Hapi, Htruthy; reflexivity].
  destruct (py_iter batch_data) as [elems|err] eqn:Hiter;
    [|cbn [file]; rewrite Hfile; apply Hnone; unfold records_of;
      rewrite Hapi, Htruthy, Hiter; reflexivity].
  assert (Hrec : records_of api (start st) = elems)
    by (unfold records_of; rewrite Hapi, Htruthy, Hiter; reflexivity).
  rewrite inventory_process. cbv zeta. cbn [start all_records file requests].
  match goal with
  | |- context [fst ?saved] =>
      assert (Hsaved :
                snd saved
                = Some (Header Inventory.columns
                        :: flat_map (fun s => inventory_frame_lines env (records_of api s))
                                    (requests st ++ [start st]))
                /\ fst saved = None)
  end.
  { destruct elems as [|x b].
    - cbn [map fst snd]. split; [|reflexivity]. rewrite Hfile. apply Hnone. exact Hrec.
    - change (map inventory_row (x :: b))
        with (inventory_row x :: map inventory_row b).
      cbv iota. rewrite Hw.
      replace (Z.eqb (start st) 0) with false by (symmetry; apply Z.eqb_neq; lia).
      unfold Io.save_batch_to_csv, Io.to_csv, Io.frame_lines. cbv zeta.
      cbn [fst snd app]. split; [|reflexivity].
      rewrite Hfile.
      change (inventory_row x :: map inventory_row b)
        with (map inventory_row (x :: b)).
      rewrite inventory_frame_columns.
      rewrite flat_map_app. cbn [flat_map]. rewrite app_nil_r, Hrec.
      reflexivity. }
  destruct Hsaved as [Hs Hf]. rewrite Hf, Hs.
  destruct (Z.ltb _ BATCH_SIZE); cbn [file start]; [reflexivity|].
  split; [unfold BATCH_SIZE; lia | reflexivity].
Qed.

(** While every write goes through, the loop keeps the file equal to the
    header and the lines of the pages requested. *)
Lemma inventory_loop_file (env : Io.environment) (api : Io.source) (fuel : nat) :
  (forall s, Io.write_at env s = Io.Written) ->
  forall st,
    0 < start st ->
    file st = Some (Header Inventory.columns
                    :: flat_map (fun s => inventory_frame_lines env (records_of api s))
                                (requests st)) ->
    file (snd (Io.fetch_loop env Inventory.process_items_data api fuel st))
    = Some (Header Inventory.columns
            :: flat_map (fun s => inventory_frame_lines env (records_of api s))
                        (requests (snd (Io.fetch_loop env Inventory.process_items_data
                                                      api fuel st)))).
Proof.
  intros Hw. induction fuel as [|fuel IH]; intros st Hpos Hfile; [exact Hfile|].
  cbn [Io.fetch_loop]. pose proof (inventory_turn env api st Hw Hpos Hfile) as Hturn.
  destruct (Io.loop_body env Inventory.process_items_data api st) as [e st1|st1].
  - exact Hturn.
  - destruct Hturn as [Hpos1 Hfile1]. apply IH; assumption.
Qed.

(** X5. When the first page of items holds a record and every write goes
    through, then whatever the file held before, whatever the API answers
    afterwards and however the run ends, the inventory file is the
    six-column header followed, page by page in fetch order, by one line per
    record fetched, each line holding the six values that the frame of its
    page has for the record: as many lines as records fetched. *)
Theorem inventory_artifact_complete (env : Io.environment) (api : Io.source)
        (fuel : nat) (disk : artifact) :
  fuel <> 0%nat ->
  records_of api 0 <> [] ->
  (forall s, Io.write_at env s = Io.Written) ->
  file (snd (Io.fetch_items_data env api fuel disk))
  = Some (Header Inventory.columns
          :: flat_map (fun s => inventory_frame_lines env (records_of api s))
                      (requests (snd (Io.fetch_items_data env api fuel disk))))
  /\ length (flat_map (fun s => inventory_frame_lines env (records_of api s))
                      (requests (snd (Io.fetch_items_data env api fuel disk))))
     = length (all_records (snd (Io.fetch_items_data env api fuel disk))).
Proof.
  intros Hfuel Hfirst Hw.
  assert (Hlen : length (flat_map (fun s => inventory_frame_lines env (records_of api s))
                                  (requests (snd (Io.fetch_items_data env api fuel disk))))
                 = length (all_records (snd (Io.fetch_items_data env api fuel disk)))).
  { destruct (io_loop_trace env Inventory.process_items_data api fuel 0%nat
                (mk_run 0 [] disk []) eq_refl) as [n [_ [Hreq [Hall _]]]].
    cbn [requests all_records app] in Hreq, Hall.
    unfold Io.fetch_items_data, Io.fetch_data. rewrite Hall, Hreq.
    apply inventory_lines_count. }
  split; [|exact Hlen]. clear Hlen.
  destruct fuel as [|fuel]; [congruence|].
  unfold Io.fetch_items_data, Io.fetch_data. cbn [Io.fetch_loop].
  unfold Io.loop_body. cbn [start all_records file requests app].
  unfold records_of in Hfirst.
  destruct (api 0) as [batch_data| |] eqn:Hapi; try congruence.
  destruct (truthy batch_data) eqn:Htruthy; [|congruence]. cbn [negb].
  destruct (py_iter batch_data) as [elems|err] eqn:Hiter; [|congruence].
  rewrite inventory_process. cbv zeta. cbn [start all_records file requests].
  destruct elems as [|x b]; [congruence|].
  change (map inventory_row (x :: b)) with (inventory_row x :: map inventory_row b).
  cbv iota. rewrite Hw.
  unfold Io.save_batch_to_csv, Io.to_csv, Io.frame_lines. cbv zeta.
  cbn [Z.eqb fst snd app].
  change (inventory_row x :: map inventory_row b) with (map inventory_row (x :: b)).
  rewrite inventory_frame_columns.
  assert (Hpage : Some (Header Inventory.columns
                        :: map (fun r => Data (map (Io.frame_value env
                                                      (map inventory_row (x :: b)) r)
                                                   Inventory.columns))
                               (map inventory_row (x :: b)))
                  = Some (Header Inventory.columns
                          :: flat_map (fun s => inventory_frame_lines env (records_of api s))
                                      [0])).
  { cbn [flat_map]. rewrite app_nil_r. unfold records_of.
    rewrite Hapi, Htruthy, Hiter. reflexivity. }
  destruct (Z.ltb _ BATCH_SIZE); cbn [snd file requests]; [exact Hpage|].
  apply inventory_loop_file; cbn [start file requests];
    [exact Hw | unfold BATCH_SIZE; lia | exact Hpage].
Qed.

Lemma inventory_artifact_witness :
  file (snd (Io.fetch_items_data plain_environment
               (fun start => if Z.eqb start 0 then Io.Answer (JArr [item_bare])
                             else Io.RequestFails)
               3 (Some [Data []])))
  = Some [Header Inventory.columns;
          Data [JInt 1; JStr "bolt"; JNull; JNull; JNull; JNull]].
Proof.
  destruct (inventory_artifact_complete plain_environment
              (fun start => if Z.eqb start 0 then Io.Answer (JArr [item_bare])
                            else Io.RequestFails)
              3 (Some [Data []])) as [Hfile _].
  - discriminate.
  - discriminate.
  - reflexivity.
  - rewrite Hfile. reflexivity.
Defined.

(** ** What a run does to the file it finds *)









(** ** The normalizers over several pages and on malformed records *)

Lemma for_each_app {S A} (a b : list A) (body : A -> M S unit) (s : S) :
  for_each (a ++ b) body s = bind (for_each a body) (fun _ => for_each b body) s.
Proof.
  revert s. induction a as [|x a IH]; intros s; simpl.
  - reflexivity.
  - unfold bind. destruct (body x s) as [[[]|e] s1]; [|reflexivity].
    rewrite IH. reflexivity.
Qed.

(** For framed bodies, normalizing [a ++ b] is normalizing [a], then [b]. *)
Lemma returned_app {A} (body : A -> M nstate unit) (a b : list A) :
  (forall x, framed (body x)) ->
  returned (for_each (a ++ b) body nstate0)
  = rows_then (returned (for_each a body nstate0)) (returned (for_each b body nstate0)).
Proof.
  intros Hf. rewrite for_each_app. unfold bind.
  destruct (for_each a body nstate0) as [[[]|e] s1]; [|reflexivity].
  rewrite (framed_for_each b body Hf s1).
  unfold value, effect. destruct (for_each b body nstate0) as [[[]|e] s2]; reflexivity.
Qed.

Lemma framed_inventory_item item : framed (Inventory.process_item item).
Proof.
  unfold Inventory.process_item.
  repeat (apply framed_bind; [apply framed_set_or_none | intros]).
  apply framed_append_row.
Qed.

Lemma framed_transfer_item info item : framed (Movements.process_transfer_item info item).
Proof.
  unfold Movements.process_transfer_item.
  repeat (apply framed_bind; [apply framed_set_or_none | intros]).
  apply framed_append_row.
Qed.

Lemma framed_process_transfer t : framed (Movements.process_transfer t).
Proof.
  unfold Movements.process_transfer.
  repeat (apply framed_bind; [apply framed_set_or_none | intros]).
  apply framed_try_except; [|apply framed_append_row].
  repeat (apply framed_bind; [apply framed_lift | intros]).
  apply framed_for_each. intros; apply framed_transfer_item.
Qed.

(** X8. Page boundaries do not matter to any of the four normalizers:
    normalizing two batches in one call gives the rows of the first followed
    by the rows of the second, and raises what the first of them to fail
    raises. *)
Theorem normalizers_concatenate (a b : list json) :
  Inventory.process_items_data (a ++ b)
    = rows_then (Inventory.process_items_data a) (Inventory.process_items_data b)
  /\ Movements.process_warehouse_transfers_data (a ++ b)
     = rows_then (Movements.process_warehouse_transfers_data a)
                 (Movements.process_warehouse_transfers_data b)
  /\ Purchases.process_purchase_orders_data (a ++ b)
     = rows_then (Purchases.process_purchase_orders_data a)
                 (Purchases.process_purchase_orders_data b)
  /\ Sales.process_invoice_data (a ++ b)
     = rows_then (Sales.process_invoice_data a) (Sales.process_invoice_data b).
Proof.
  split; [|split; [|split]].
  - apply returned_app. apply framed_inventory_item.
  - apply returned_app. apply framed_process_transfer.
  - apply returned_app. apply framed_process_order.
  - apply returned_app. apply framed_process_invoice.
Qed.

Lemma chars_nonempty c s : chars (String c s) <> [].
Proof.
  cbn [chars]. cbv zeta. destruct s as [|d s]; [discriminate|].
  destruct (is_continuation d); [|discriminate].
  destruct (chars (String d s)) as [|[] t]; discriminate.
Qed.

Lemma py_iter_empty items :
  py_iter items = Ok [] <-> items = JArr [] \/ items = JObj [] \/ items = JStr "".
Proof.
  split.
  - destruct items as [| | | |s|l|kvs]; cbn [py_iter]; try discriminate.
    + destruct s as [|c s]; [auto|]. intros H. inversion H as [Hc].
      exfalso. exact (chars_nonempty c s Hc).
    + destruct l; [auto|discriminate].
    + destruct kvs; [auto|discriminate].
  - intros [->|[->| ->]]; reflexivity.
Qed.

(** X9. A warehouse transfer adds no row at all exactly when its "items"
    can be read and is an empty list, an empty object or an empty string;
    in every other case it adds at least one row. *)
Theorem transfer_dropped_iff_items_empty (t : json) :
  Movements.process_warehouse_transfers_data [t] = Ok []
  <-> (py_getitem t "items" = Ok (JArr [])
       \/ py_getitem t "items" = Ok (JObj [])
       \/ py_getitem t "items" = Ok (JStr "")).
Proof.
  rewrite movements_process. cbn [flat_map]. rewrite app_nil_r.
  unfold transfer_rows.
  destruct (py_getitem t "items") as [items|e]; cbn [and_then].
  - destruct (py_iter items) as [elems|e] eqn:Hi.
    + split.
      * intros H. assert (elems = []) by (destruct elems; [reflexivity|discriminate H]).
        subst elems. apply py_iter_empty in Hi.
        destruct Hi as [->|[->| ->]]; auto.
      * intros H. assert (Hempty : py_iter items = Ok []).
        { apply py_iter_empty.
          destruct H as [H|[H|H]]; inversion H; auto. }
        rewrite Hempty in Hi. inversion Hi. reflexivity.
    + split; [discriminate|].
      intros H. assert (Hempty : py_iter items = Ok []).
      { apply py_iter_empty. destruct H as [H|[H|H]]; inversion H; auto. }
      rewrite Hempty in Hi. discriminate Hi.
  - split; [discriminate|]. intros [H|[H|H]]; discriminate H.
Qed.

Lemma purchases_loop_raises_on_nonobj orders :
  forallb is_obj orders = false ->
  forall s, fst (for_each orders Purchases.process_order s) = Raise AttributeError.
Proof.
  induction orders as [|o orders IH]; [discriminate|].
  intros H s. cbn [for_each]. unfold bind. cbn [forallb] in H.
  destruct (is_obj o) eqn:Ho.
  - destruct o; try discriminate Ho.
    rewrite (framed_process_order (JObj kvs) s), process_order_obj_returns.
    apply IH. exact H.
  - rewrite process_order_nonobj by assumption. reflexivity.
Qed.

(** X10. The purchase-order normalizer aborts exactly when some record of
    the batch is not a JSON object, and then with AttributeError (raised by
    the warning's own [order.get]); on a batch of objects it always returns,
    whatever the objects hold. *)
Theorem purchases_abort_iff_nonobject (orders : list json) :
  (forallb is_obj orders = true ->
   exists rows, Purchases.process_purchase_orders_data orders = Ok rows)
  /\ (forallb is_obj orders = false ->
      Purchases.process_purchase_orders_data orders = Raise AttributeError).
Proof.
  split.
  - intros H. unfold Purchases.process_purchase_orders_data.
    rewrite purchases_exec by assumption. simpl. eauto.
  - intros H. unfold Purchases.process_purchase_orders_data, Purchases.exec_orders.
    pose proof (purchases_loop_raises_on_nonobj orders H nstate0) as Hr.
    destruct (for_each orders Purchases.process_order nstate0) as [r s].
    simpl in Hr. subst r. reflexivity.
Qed.

Lemma purchases_abort_witness :
  Purchases.process_purchase_orders_data [order_two_items; JStr "oops"; order_zero_items]
  = Raise AttributeError.
Proof.
  apply (proj2 (purchases_abort_iff_nonobject
                  [order_two_items; JStr "oops"; order_zero_items])).
  reflexivity.
Defined.

Lemma purchases_items_stop_at_nonobj oid dd wn pre bad post :
  forallb is_obj pre = true ->
  is_obj bad = false ->
  forall s,
    for_each (pre ++ bad :: post) (Purchases.process_order_item oid dd wn) s
    = (Raise AttributeError,
       mk_nstate (processed_items s ++ map (purchase_item_row oid dd wn) pre)
                 (warnings s)).
Proof.
  intros Hpre Hbad. induction pre as [|x pre IH]; intros s.
  - cbn [app for_each map]. unfold bind.
    rewrite purchases_item_nonobj by assumption. rewrite app_nil_r.
    destruct s; reflexivity.
  - cbn [forallb] in Hpre. apply andb_true_iff in Hpre. destruct Hpre as [Hx Hpre].
    destruct x; try discriminate Hx.
    cbn [app for_each map]. unfold bind. rewrite purchases_process_item.
    rewrite (IH Hpre). cbn [processed_items warnings]. rewrite <- app_assoc.
    reflexivity.
Qed.

(** X11. A purchase order is cut short by the first nested item that is not
    an object: the rows of the items before it stay in the output, the
    items after it are never read, and one warning is logged with the
    order's id and AttributeError. *)
Theorem purchase_order_cut_at_bad_item
        (order oid wn : json) (pre post : list json) (bad : json) :
  py_getitem order "id" = Ok oid ->
  Purchases.warehouse_name_of order = Ok wn ->
  Purchases.purchases_items_of order = Ok (JArr (pre ++ bad :: post)) ->
  forallb is_obj pre = true ->
  is_obj bad = false ->
  Purchases.exec_orders [order]
  = (Ok tt,
     mk_nstate (map (purchase_item_row oid (or_null (py_get order "deliveryDate" JNull)) wn)
                    pre)
               [(oid, AttributeError)]).
Proof.
  intros Hid Hw Hitems Hpre Hbad.
  unfold Purchases.exec_orders. cbn [for_each]. unfold bind at 1.
  unfold Purchases.process_order, try_except_as, bind, lift.
  rewrite Hid, Hw, Hitems.
  destruct order; try discriminate Hid. cbn [py_get py_iter].
  assert (Hdd : exists dd, (match lookup "deliveryDate" kvs with
                            | Some v => Ok v | None => Ok JNull end) = Ok dd
                           /\ or_null (match lookup "deliveryDate" kvs with
                            | Some v => Ok v | None => Ok JNull end) = dd).
  { destruct (lookup "deliveryDate" kvs); eauto. }
  destruct Hdd as [dd [Hdd1 Hdd2]]. rewrite Hdd2, Hdd1.
  rewrite (purchases_items_stop_at_nonobj oid dd wn pre bad post Hpre Hbad).
  cbn [any_exception]. cbn [py_getitem] in Hid.
  destruct (lookup "id" kvs) as [v|]; [|discriminate Hid].
  inversion Hid; subst. reflexivity.
Qed.

Lemma purchase_order_cut_witness :
  length (processed_items (snd (Purchases.exec_orders [order_with_bad_item]))) = 2%nat
  /\ warnings (snd (Purchases.exec_orders [order_with_bad_item]))
     = [(JInt 12, AttributeError)].
Proof.
  rewrite (purchase_order_cut_at_bad_item order_with_bad_item (JInt 12) JNull
             [sample_item 1 "bolt"; sample_item 2 "nut"] [sample_item 3 "washer"]
             (JInt 7) eq_refl eq_refl eq_refl eq_refl eq_refl).
  split; reflexivity.
Defined.

Lemma sales_item_outcome iid sd wn item s :
  ok_or_attribute_error (fst (Sales.process_invoice_item iid sd wn item s)).
Proof.
  destruct item; try (right; reflexivity).
  rewrite sales_process_item. left. reflexivity.
Qed.

Lemma sales_items_loop_outcome iid sd wn elems :
  forall s, ok_or_attribute_error
              (fst (for_each elems (Sales.process_invoice_item iid sd wn) s)).
Proof.
  induction elems as [|x elems IH]; intros s; [left; reflexivity|].
  cbn [for_each]. unfold bind.
  pose proof (sales_item_outcome iid sd wn x s) as Hx.
  destruct (Sales.process_invoice_item iid sd wn x s) as [[[]|e] s1]; cbn [fst] in *.
  - apply IH.
  - exact Hx.
Qed.

Lemma sales_invoice_outcome invoice s :
  ok_or_attribute_error (fst (Sales.process_invoice invoice s)).
Proof.
  destruct invoice; try (right; reflexivity).
  unfold Sales.process_invoice, try_except_as, bind, lift.
  destruct (py_get_obj kvs "id" JNull) as [iid ->].
  destruct (py_get_obj kvs "date" JNull) as [sd ->].
  destruct (py_get_obj kvs "items" (JArr [])) as [items ->].
  destruct (and_then (py_get (JObj kvs) "warehouse" (JObj []))
                     (fun w => py_get w "name" (JStr "Unknown"))) as [wn|e] eqn:Hw.
  - destruct (py_iter items) as [elems|e] eqn:Hi.
    + pose proof (sales_items_loop_outcome iid sd wn elems s) as Hl.
      destruct (for_each elems _ s) as [[[]|e] s1]; cbn [fst] in *.
      * left. reflexivity.
      * destruct Hl as [Hl|Hl]; [discriminate Hl|]. inversion Hl; subst.
        right. reflexivity.
    + pose proof (py_iter_raises items e Hi) as Hc. cbn [existsb] in Hc |- *.
      rewrite Hc. destruct (py_get_obj kvs "id" (JStr "Unknown")) as [shown ->].
      left. reflexivity.
  - assert (He : e = AttributeError).
    { cbn [py_get] in Hw. destruct (lookup "warehouse" kvs) as [w|]; cbn [and_then] in Hw.
      - destruct w; cbn [py_get] in Hw; try (inversion Hw; reflexivity).
        destruct (lookup "name" kvs0); discriminate Hw.
      - cbn [py_get lookup] in Hw. discriminate Hw. }
    subst e. right. reflexivity.
Qed.

(** X12. The only exception that can leave the invoice normalizer is
    AttributeError (a record, a warehouse or an item that is not an object):
    KeyError and TypeError never leave it. *)
Theorem invoices_raise_only_attribute_error (invoices : list json) (e : exn) :
  Sales.process_invoice_data invoices = Raise e -> e = AttributeError.
Proof.
  unfold Sales.process_invoice_data, Sales.exec_invoices.
  assert (H : forall s, ok_or_attribute_error
                          (fst (for_each invoices Sales.process_invoice s))).
  { induction invoices as [|x l IH]; intros s; [left; reflexivity|].
    cbn [for_each]. unfold bind.
    pose proof (sales_invoice_outcome x s) as Hx.
    destruct (Sales.process_invoice x s) as [[[]|e'] s1]; cbn [fst] in *.
    - apply IH.
    - exact Hx. }
  specialize (H nstate0).
  destruct (for_each invoices Sales.process_invoice nstate0) as [[[]|e'] s1];
    cbn [fst returned] in *; [discriminate|].
  intros Hr. inversion Hr; subst.
  destruct H as [H|H]; [discriminate H|]. inversion H. reflexivity.
Qed.

Lemma invoices_raise_witness :
  Sales.process_invoice_data [invoice_without_warehouse; invoice_null_warehouse]
  = Raise AttributeError
  /\ AttributeError = AttributeError.
Proof.
  split; [reflexivity|].
  exact (invoices_raise_only_attribute_error
           [invoice_without_warehouse; invoice_null_warehouse] AttributeError eq_refl).
Defined.

(** ** The loader, request by request *)

Lemma split_dot_nonempty s : Uploader.split_dot s <> [].
Proof.
  destruct s as [|c s]; simpl; [discriminate|].
  destruct (Uploader.split_dot s); [discriminate|].
  destruct (Ascii.eqb c "."); discriminate.
Qed.

Lemma join_split s : join_dot (Uploader.split_dot s) = s.
Proof.
  induction s as [|c s IH]; [reflexivity|].
  cbn [Uploader.split_dot].
  pose proof (split_dot_nonempty s) as Hne.
  destruct (Uploader.split_dot s) as [|p rest]; [congruence|].
  destruct (Ascii.eqb c ".") eqn:Hc.
  - apply Ascii.eqb_eq in Hc. subst c.
    change (join_dot (EmptyString :: p :: rest))
      with (String "." (join_dot (p :: rest))).
    rewrite IH. reflexivity.
  - destruct rest as [|r rest].
    + cbn [join_dot] in *. rewrite IH. reflexivity.
    + change (join_dot (String c p :: r :: rest))
        with (String c (p ++ "." ++ join_dot (r :: rest))%string).
      change (join_dot (p :: r :: rest))
        with (p ++ "." ++ join_dot (r :: rest))%string in IH.
      rewrite IH. reflexivity.
Qed.

Lemma split_length s : length (Uploader.split_dot s) = S (count_dots s).
Proof.
  induction s as [|c s IH]; [reflexivity|].
  cbn [Uploader.split_dot count_dots].
  pose proof (split_dot_nonempty s) as Hne.
  destruct (Uploader.split_dot s) as [|p rest]; [congruence|].
  destruct (Ascii.eqb c "."); cbn [length] in *; lia.
Qed.

(** X13. Splitting an identifier at its dots and joining the parts with
    dots gives the identifier back, and there is one part more than there
    are dots: an identifier passes the three-part check exactly when it has
    two dots, empty parts included. *)
Theorem split_join_round_trip (s : string) :
  join_dot (Uploader.split_dot s) = s
  /\ length (Uploader.split_dot s) = S (count_dots s)
  /\ (Nat.eqb (length (Uploader.split_dot s)) 3 = true <-> count_dots s = 2%nat).
Proof.
  split; [apply join_split|]. split; [apply split_length|].
  rewrite split_length, Nat.eqb_eq. lia.
Qed.

Section UploaderRuns.

Import Uploader.

Variable w : world.
Variable self_project_id : string.

Lemma send_done c s :
  warehouse w (calls s) c = Done ->
  send w c s = (Ok tt, mk_ustate (calls s ++ [c]) (printed s)).
Proof. intros H. unfold send. rewrite H. reflexivity. Qed.

Lemma send_refused c s e :
  warehouse w (calls s) c = Refused e ->
  send w c s = (Raise e, mk_ustate (calls s ++ [c]) (printed s)).
Proof. intros H. unfold send. rewrite H. reflexivity. Qed.

(** The dataset step, by the warehouse's answers. *)
Lemma create_dataset_run d loc s :
  create_dataset_if_not_exists w self_project_id d loc s
  = let ref := (self_project_id ++ "." ++ d)%string in
    match warehouse w (calls s) (GetDataset ref) with
    | Done =>
        (Ok tt, mk_ustate (calls s ++ [GetDataset ref])
                          (printed s ++ [MsgDatasetExists ref]))
    | Refused NotFound =>
        match warehouse w (calls s ++ [GetDataset ref]) (CreateDataset ref loc) with
        | Done =>
            (Ok tt, mk_ustate (calls s ++ [GetDataset ref; CreateDataset ref loc])
                              (printed s ++ [MsgDatasetCreated ref]))
        | Refused e =>
            (Raise e, mk_ustate (calls s ++ [GetDataset ref; CreateDataset ref loc])
                                (printed s))
        end
    | Refused e => (Raise e, mk_ustate (calls s ++ [GetDataset ref]) (printed s))
    end.
Proof.
  unfold create_dataset_if_not_exists, try_except, bind, send, print, modify.
  cbv zeta. cbn [calls printed].
  destruct (warehouse w (calls s) (GetDataset _)) as [|e]; [reflexivity|].
  destruct e; cbn [existsb exn_eqb orb]; try reflexivity.
  destruct (warehouse w _ (CreateDataset _ _)) as [|e];
    simpl; rewrite <- ?app_assoc; reflexivity.
Qed.

(** The schema block sends nothing and returns what [schema_choice] says. *)
Lemma determine_schema_run a s :
  exists msgs,
    determine_schema w (csv_file a) (table_name_of (table_id a)) (schema a)
                     (auto_detect_schema a) s
    = (Ok (match schema_choice w a with
           | Some chosen => inr chosen
           | None => inl false
           end),
       mk_ustate (calls s) (printed s ++ msgs)).
Proof.
  unfold determine_schema, schema_choice, inferred_schema.
  destruct (schema a) as [given|]; cbn [is_none].
  - exists []. unfold ret. rewrite app_nil_r. destruct s; reflexivity.
  - destruct (get_predefined_schema (table_name_of (table_id a))) as [reg|];
      cbn [is_none andb].
    + exists []. unfold ret. rewrite app_nil_r. destruct s; reflexivity.
    + destruct (auto_detect_schema a); cbn [negb].
      * exists []. unfold ret. rewrite app_nil_r. destruct s; reflexivity.
      * unfold bind, infer_schema_from_csv.
        destruct (read_csv w (csv_file a)) as [dtypes|].
        -- unfold ret. destruct dtypes as [|cd dtypes]; cbn [map].
           ++ eexists. unfold print, modify. reflexivity.
           ++ exists []. rewrite app_nil_r. destruct s; reflexivity.
        -- exists [MsgInferError; MsgNoSchema]. unfold print, modify, ret. simpl.
           rewrite <- app_assoc. reflexivity.
Qed.

(** Past the two checks, the body is the dataset step, the schema block
    and the load, and the table reference is the identifier itself. *)
Lemma upload_body_valid a s :
  path_exists w (csv_file a) = true ->
  length (split_dot (table_id a)) = 3%nat ->
  upload_body w self_project_id a s
  = bind (create_dataset_if_not_exists w self_project_id (dataset_of (table_id a)) "US")
         (fun _ =>
            bind (determine_schema w (csv_file a) (table_name_of (table_id a))
                                   (schema a) (auto_detect_schema a))
                 (fun determined =>
                    match determined with
                    | inl b => ret b
                    | inr chosen => load_and_wait w a (table_id a) chosen
                    end)) s.
Proof.
  intros Hex Hlen. unfold upload_body. rewrite Hex. cbn [negb].
  rewrite Hlen. cbn [Nat.eqb negb].
  unfold dataset_of, table_name_of.
  pose proof (join_split (table_id a)) as Hjoin.
  destruct (split_dot (table_id a)) as [|p [|d [|t [|x rest]]]]; try discriminate Hlen.
  cbn [unpack3 fst snd]. cbn [join_dot] in Hjoin.
  unfold load_and_wait, config_for. rewrite Hjoin. reflexivity.
Qed.

(** The load, by the warehouse's answers. *)
Lemma load_and_wait_run a chosen s :
  load_and_wait w a (table_id a) chosen s
  = let load := LoadTableFromFile (csv_file a) (table_id a) (config_for a chosen) in
    let p1 := printed s ++ [MsgUploading (csv_file a) (table_id a) (write_disposition a)] in
    if can_open w (csv_file a) then
      match warehouse w (calls s) load with
      | Refused e => (Raise e, mk_ustate (calls s ++ [load]) p1)
      | Done =>
          match warehouse w (calls s ++ [load]) (JobResult (table_id a)) with
          | Refused e =>
              (Raise e, mk_ustate (calls s ++ [load; JobResult (table_id a)]) p1)
          | Done =>
              match warehouse w (calls s ++ [load; JobResult (table_id a)])
                              (GetTable (table_id a)) with
              | Refused e =>
                  (Raise e, mk_ustate (calls s ++ load_sequence a chosen) p1)
              | Done =>
                  (Ok true, mk_ustate (calls s ++ load_sequence a chosen)
                                      (p1 ++ [MsgUploaded (table_id a)]))
              end
          end
      end
    else (Raise OtherException, mk_ustate (calls s) p1).
Proof.
  unfold load_and_wait, load_sequence, bind, send, raise, print, modify, ret.
  cbv zeta.
  destruct (can_open w (csv_file a)); [|reflexivity].
  cbn [calls printed].
  destruct (warehouse w (calls s) _) as [|e]; [|reflexivity].
  cbn [calls printed].
  destruct (warehouse w (calls s ++ [_]) (JobResult _)) as [|e];
    [|cbn [calls printed]; rewrite <- ?app_assoc; reflexivity].
  cbn [calls printed]. rewrite <- !app_assoc. cbn [app].
  destruct (warehouse w _ (GetTable _)) as [|e];
    cbn [calls printed]; rewrite <- ?app_assoc; reflexivity.
Qed.

(** The handlers of [upload_csv_to_table] print and return [False]; they
    send nothing. *)
Lemma upload_handlers a s :
  upload_csv_to_table w self_project_id a s
  = match upload_body w self_project_id a s with
    | (Ok b, s') => (Ok b, s')
    | (Raise e, s') =>
        (Ok false,
         mk_ustate (calls s')
                   (printed s' ++ [match e with
                                   | BadRequest => MsgBadRequest
                                   | _ => MsgUploadError e
                                   end]))
    end.
Proof.
  unfold upload_csv_to_table, try_except_as.
  destruct (upload_body w self_project_id a s) as [[b|e] s']; [reflexivity|].
  destruct e; reflexivity.
Qed.

End UploaderRuns.

Lemma upload_body_invalid (w : Uploader.world) (self_project_id : string)
      (a : Uploader.upload_args) (s : Uploader.ustate) :
  Uploader.path_exists w (Uploader.csv_file a) = false
  \/ length (Uploader.split_dot (Uploader.table_id a)) <> 3%nat ->
  exists msg,
    Uploader.upload_body w self_project_id a s
    = (Ok false, Uploader.mk_ustate (Uploader.calls s) (Uploader.printed s ++ [msg])).
Proof.
  intros H. unfold Uploader.upload_body.
  destruct (Uploader.path_exists w (Uploader.csv_file a)); cbn [negb].
  - destruct H as [H|H]; [discriminate H|]. apply Nat.eqb_neq in H. rewrite H.
    cbn [negb]. eexists. reflexivity.
  - eexists. reflexivity.
Qed.

Lemma schema_then_load (w : Uploader.world) (a : Uploader.upload_args)
      (s1 : Uploader.ustate) :
  (schema_choice w a = None
   /\ exists p,
        bind (Uploader.determine_schema w (Uploader.csv_file a)
                (table_name_of (Uploader.table_id a)) (Uploader.schema a)
                (Uploader.auto_detect_schema a))
             (fun determined =>
                match determined with
                | inl b => ret b
                | inr chosen => load_and_wait w a (Uploader.table_id a) chosen
                end) s1
        = (Ok false, Uploader.mk_ustate (Uploader.calls s1) p))
  \/ (exists chosen p,
        schema_choice w a = Some chosen
        /\ bind (Uploader.determine_schema w (Uploader.csv_file a)
                   (table_name_of (Uploader.table_id a)) (Uploader.schema a)
                   (Uploader.auto_detect_schema a))
                (fun determined =>
                   match determined with
                   | inl b => ret b
                   | inr chosen => load_and_wait w a (Uploader.table_id a) chosen
                   end) s1
           = load_and_wait w a (Uploader.table_id a) chosen
               (Uploader.mk_ustate (Uploader.calls s1) p)).
Proof.
  unfold bind at 1 2. destruct (determine_schema_run w a s1) as [msgs Hd].
  rewrite Hd. destruct (schema_choice w a) as [chosen|].
  - right. exists chosen. eexists. split; reflexivity.
  - left. split; [reflexivity|]. eexists. reflexivity.
Qed.

(** The body of the method past its two checks, by cases on the
    warehouse's answers: the dataset step raises; or the dataset is ensured
    and no schema can be chosen; or the dataset is ensured, a schema is
    chosen and the load runs. *)
Lemma upload_body_cases (w : Uploader.world) (self_project_id : string)
      (a : Uploader.upload_args) (s : Uploader.ustate) :
  Uploader.path_exists w (Uploader.csv_file a) = true ->
  length (Uploader.split_dot (Uploader.table_id a)) = 3%nat ->
  (exists e p pre,
     Uploader.upload_body w self_project_id a s
     = (Raise e, Uploader.mk_ustate (Uploader.calls s ++ pre) p)
     /\ Forall (fun c => is_load c = false) pre)
  \/ (exists p pre,
        dataset_ensured self_project_id (Uploader.table_id a) pre
        /\ schema_choice w a = None
        /\ Uploader.upload_body w self_project_id a s
           = (Ok false, Uploader.mk_ustate (Uploader.calls s ++ pre) p))
  \/ (exists pre chosen p,
        dataset_ensured self_project_id (Uploader.table_id a) pre
        /\ schema_choice w a = Some chosen
        /\ Uploader.upload_body w self_project_id a s
           = load_and_wait w a (Uploader.table_id a) chosen
               (Uploader.mk_ustate (Uploader.calls s ++ pre) p)).
Proof.
  intros Hex Hlen.
  pose proof (upload_body_valid w self_project_id a s Hex Hlen) as Hb.
  unfold bind at 1 in Hb. rewrite create_dataset_run in Hb. cbv zeta in Hb.
  assert (Hafter : forall pre p1,
            dataset_ensured self_project_id (Uploader.table_id a) pre ->
            (exists p pre',
               dataset_ensured self_project_id (Uploader.table_id a) pre'
               /\ schema_choice w a = None
               /\ bind (Uploader.determine_schema w (Uploader.csv_file a)
                          (table_name_of (Uploader.table_id a)) (Uploader.schema a)
                          (Uploader.auto_detect_schema a))
                       (fun determined =>
                          match determined with
                          | inl b => ret b
                          | inr chosen => load_and_wait w a (Uploader.table_id a) chosen
                          end)
                       (Uploader.mk_ustate (Uploader.calls s ++ pre) p1)
                  = (Ok false, Uploader.mk_ustate (Uploader.calls s ++ pre') p))
            \/ (exists pre' chosen p,
                  dataset_ensured self_project_id (Uploader.table_id a) pre'
                  /\ schema_choice w a = Some chosen
                  /\ bind (Uploader.determine_schema w (Uploader.csv_file a)
                             (table_name_of (Uploader.table_id a)) (Uploader.schema a)
                             (Uploader.auto_detect_schema a))
                          (fun determined =>
                             match determined with
                             | inl b => ret b
                             | inr chosen => load_and_wait w a (Uploader.table_id a) chosen
                             end)
                          (Uploader.mk_ustate (Uploader.calls s ++ pre) p1)
                     = load_and_wait w a (Uploader.table_id a) chosen
                         (Uploader.mk_ustate (Uploader.calls s ++ pre') p))).
  { intros pre p1 Hpre.
    destruct (schema_then_load w a (Uploader.mk_ustate (Uploader.calls s ++ pre) p1))
      as [[Hc [p Hm]]|[chosen [p [Hc Hm]]]].
    - left. exists p, pre. auto.
    - right. exists pre, chosen, p. auto. }
  destruct (Uploader.warehouse w (Uploader.calls s) (Uploader.GetDataset _)) as [|e].
  - right. rewrite Hb. apply Hafter. left. reflexivity.
  - destruct e;
      try (left; rewrite Hb; do 3 eexists; split; [reflexivity|]; repeat constructor).
    destruct (Uploader.warehouse w _ (Uploader.CreateDataset _ _)) as [|e].
    + right. rewrite Hb. apply Hafter. right. reflexivity.
    + left. rewrite Hb. do 3 eexists. split; [reflexivity|]. repeat constructor.
Qed.

(** X14. When [upload_csv_to_table] returns True, the CSV file exists and
    could be opened, the dataset of the identifier was found in the client's
    project or created there after a NotFound, a schema choice was made, and
    exactly three more requests were sent, in this order: the load job with
    the configuration of the arguments, the wait for the job, and the read
    of the table, all three for the identifier as given. *)
Theorem upload_true_means_loaded
        (w : Uploader.world) (self_project_id : string) (a : Uploader.upload_args)
        (s s' : Uploader.ustate) :
  Uploader.upload_csv_to_table w self_project_id a s = (Ok true, s') ->
  Uploader.path_exists w (Uploader.csv_file a) = true
  /\ Uploader.can_open w (Uploader.csv_file a) = true
  /\ exists pre chosen,
       dataset_ensured self_project_id (Uploader.table_id a) pre
       /\ schema_choice w a = Some chosen
       /\ new_calls s s' = pre ++ load_sequence a chosen.
Proof.
  rewrite upload_handlers. intros H.
  destruct (Uploader.path_exists w (Uploader.csv_file a)) eqn:Hex.
  2:{ destruct (upload_body_invalid w self_project_id a s (or_introl Hex)) as [msg Hb].
      rewrite Hb in H. discriminate H. }
  destruct (Nat.eq_dec (length (Uploader.split_dot (Uploader.table_id a))) 3)
    as [Hlen|Hlen].
  2:{ destruct (upload_body_invalid w self_project_id a s (or_intror Hlen)) as [msg Hb].
      rewrite Hb in H. discriminate H. }
  destruct (upload_body_cases w self_project_id a s Hex Hlen)
    as [[e [p [pre [Hb _]]]]|[[p [pre [_ [_ Hb]]]]|[pre [chosen [p [Hpre [Hc Hb]]]]]]];
    rewrite Hb in H; try discriminate H.
  rewrite load_and_wait_run in H. cbv zeta in H. cbn [Uploader.calls Uploader.printed] in H.
  destruct (Uploader.can_open w (Uploader.csv_file a)); [|discriminate H].
  split; [reflexivity|]. split; [reflexivity|].
  destruct (Uploader.warehouse w _ (Uploader.LoadTableFromFile _ _ _));
    [|discriminate H].
  destruct (Uploader.warehouse w _ (Uploader.JobResult _)); [|discriminate H].
  destruct (Uploader.warehouse w _ (Uploader.GetTable _)); [|discriminate H].
  inversion H; subst s'. exists pre, chosen. split; [exact Hpre|]. split; [exact Hc|].
  rewrite <- app_assoc. apply new_calls_app.
Qed.

Lemma upload_true_witness :
  new_calls fresh
    (snd (Uploader.upload_csv_to_table friendly_world "client-project"
            (default_args "factura_items.csv" "proj.optistock.sales") fresh))
  = [Uploader.GetDataset "client-project.optistock";
     Uploader.LoadTableFromFile "factura_items.csv" "proj.optistock.sales"
       (config_for (default_args "factura_items.csv" "proj.optistock.sales")
                   (Uploader.get_predefined_schema "sales"));
     Uploader.JobResult "proj.optistock.sales";
     Uploader.GetTable "proj.optistock.sales"]
  /\ exists pre chosen,
       dataset_ensured "client-project" "proj.optistock.sales" pre
       /\ schema_choice friendly_world
            (default_args "factura_items.csv" "proj.optistock.sales") = Some chosen.
Proof.
  split; [reflexivity|].
  destruct (upload_true_means_loaded friendly_world "client-project"
              (default_args "factura_items.csv" "proj.optistock.sales") fresh
              (snd (Uploader.upload_csv_to_table friendly_world "client-project"
                      (default_args "factura_items.csv" "proj.optistock.sales") fresh))
              eq_refl) as [_ [_ [pre [chosen [Hpre [Hc _]]]]]].
  exists pre, chosen. split; assumption.
Defined.

(** X15. When the file exists and can be opened, the identifier has three
    parts, a schema choice can be made and the warehouse accepts every
    request, [upload_csv_to_table] returns True after exactly four requests:
    the dataset lookup in the client's project, the load job, the wait and
    the read of the table. *)
Theorem upload_succeeds_when_all_accept
        (w : Uploader.world) (self_project_id : string) (a : Uploader.upload_args)
        (s : Uploader.ustate) (chosen : option (list Uploader.SchemaField)) :
  accepts_all w ->
  Uploader.path_exists w (Uploader.csv_file a) = true ->
  Uploader.can_open w (Uploader.csv_file a) = true ->
  length (Uploader.split_dot (Uploader.table_id a)) = 3%nat ->
  schema_choice w a = Some chosen ->
  fst (Uploader.upload_csv_to_table w self_project_id a s) = Ok true
  /\ new_calls s (snd (Uploader.upload_csv_to_table w self_project_id a s))
     = Uploader.GetDataset
         (self_project_id ++ "." ++ dataset_of (Uploader.table_id a))%string
       :: load_sequence a chosen.
Proof.
  intros Hacc Hex Hopen Hlen Hc.
  pose proof (upload_handlers w self_project_id a s) as Hh.
  rewrite (upload_body_valid w self_project_id a s Hex Hlen) in Hh.
  unfold bind at 1 in Hh. rewrite create_dataset_run in Hh. cbv zeta in Hh.
  rewrite Hacc in Hh.
  destruct (schema_then_load w a
              (Uploader.mk_ustate
                 (Uploader.calls s
                  ++ [Uploader.GetDataset
                        (self_project_id ++ "." ++ dataset_of (Uploader.table_id a))%string])
                 (Uploader.printed s
                  ++ [Uploader.MsgDatasetExists
                        (self_project_id ++ "." ++ dataset_of (Uploader.table_id a))%string])))
    as [[Hn _]|[chosen' [p [Hc' Hm]]]]; [congruence|].
  rewrite Hm in Hh. assert (chosen' = chosen) by congruence. subst chosen'.
  rewrite load_and_wait_run in Hh. cbv zeta in Hh. rewrite Hopen, !Hacc in Hh.
  cbn [Uploader.calls] in Hh. rewrite Hh. cbn [fst snd].
  split; [reflexivity|].
  rewrite <- app_assoc. apply new_calls_app.
Qed.

Lemma upload_succeeds_witness :
  fst (Uploader.upload_csv_to_table friendly_world "client-project"
         (default_args "x.csv" "proj.ds.unregistered") fresh) = Ok true.
Proof.
  apply (upload_succeeds_when_all_accept friendly_world "client-project"
           (default_args "x.csv" "proj.ds.unregistered") fresh None).
  - intros h c. reflexivity.
  - reflexivity.
  - reflexivity.
  - reflexivity.
  - reflexivity.
Defined.

(** X16. When the dataset lookup is refused with anything but NotFound,
    [upload_csv_to_table] returns False and the lookup is the only request
    it sent; when the lookup answers NotFound and the creation is then
    refused (another process created the dataset first, say), it returns
    False and the requests it sent are exactly the lookup and the creation:
    the refusal is not taken for success and no load job is submitted. *)
Theorem dataset_refusal_fails_upload
        (w : Uploader.world) (self_project_id : string) (a : Uploader.upload_args)
        (s : Uploader.ustate) (e : exn) :
  Uploader.path_exists w (Uploader.csv_file a) = true ->
  length (Uploader.split_dot (Uploader.table_id a)) = 3%nat ->
  (Uploader.warehouse w (Uploader.calls s)
     (Uploader.GetDataset
        (self_project_id ++ "." ++ dataset_of (Uploader.table_id a))%string)
   = Uploader.Refused e ->
   e <> NotFound ->
   fst (Uploader.upload_csv_to_table w self_project_id a s) = Ok false
   /\ new_calls s (snd (Uploader.upload_csv_to_table w self_project_id a s))
      = [Uploader.GetDataset
           (self_project_id ++ "." ++ dataset_of (Uploader.table_id a))%string])
  /\ (Uploader.warehouse w (Uploader.calls s)
        (Uploader.GetDataset
           (self_project_id ++ "." ++ dataset_of (Uploader.table_id a))%string)
      = Uploader.Refused NotFound ->
      Uploader.warehouse w
        (Uploader.calls s
         ++ [Uploader.GetDataset
               (self_project_id ++ "." ++ dataset_of (Uploader.table_id a))%string])
        (Uploader.CreateDataset
           (self_project_id ++ "." ++ dataset_of (Uploader.table_id a))%string "US")
      = Uploader.Refused e ->
      fst (Uploader.upload_csv_to_table w self_project_id a s) = Ok false
      /\ new_calls s (snd (Uploader.upload_csv_to_table w self_project_id a s))
         = [Uploader.GetDataset
              (self_project_id ++ "." ++ dataset_of (Uploader.table_id a))%string;
            Uploader.CreateDataset
              (self_project_id ++ "." ++ dataset_of (Uploader.table_id a))%string "US"]).
Proof.
  intros Hex Hlen.
  pose proof (upload_handlers w self_project_id a s) as Hh.
  rewrite (upload_body_valid w self_project_id a s Hex Hlen) in Hh.
  unfold bind at 1 in Hh. rewrite create_dataset_run in Hh. cbv zeta in Hh.
  split.
  - intros Hget Hne. rewrite Hget in Hh.
    destruct e; try congruence; cbn [Uploader.calls] in Hh; rewrite Hh;
      cbn [fst snd]; rewrite new_calls_app; split; reflexivity.
  - intros Hget Hcreate. rewrite Hget, Hcreate in Hh. cbn [Uploader.calls] in Hh.
    rewrite Hh. cbn [fst snd]. rewrite new_calls_app. split; reflexivity.
Qed.

Lemma dataset_refusal_witness :
  fst (Uploader.upload_csv_to_table creation_refused_world "client-project"
         (default_args "x.csv" "proj.ds.sales") fresh) = Ok false
  /\ new_calls fresh
       (snd (Uploader.upload_csv_to_table creation_refused_world "client-project"
               (default_args "x.csv" "proj.ds.sales") fresh))
     = [Uploader.GetDataset "client-project.ds";
        Uploader.CreateDataset "client-project.ds" "US"].
Proof.
  exact (proj2 (dataset_refusal_fails_upload creation_refused_world "client-project"
                  (default_args "x.csv" "proj.ds.sales") fresh OtherException
                  eq_refl eq_refl) eq_refl eq_refl).
Defined.

(** ** The requests of one upload, and of a batch run *)

Lemma load_attempted_one a chosen :
  load_attempted a chosen
    [Uploader.LoadTableFromFile (Uploader.csv_file a) (Uploader.table_id a)
                                (config_for a chosen)].
Proof. exists 0%nat. reflexivity. Qed.

Lemma load_attempted_two a chosen :
  load_attempted a chosen
    [Uploader.LoadTableFromFile (Uploader.csv_file a) (Uploader.table_id a)
                                (config_for a chosen);
     Uploader.JobResult (Uploader.table_id a)].
Proof. exists 1%nat. reflexivity. Qed.

Lemma load_attempted_all a chosen : load_attempted a chosen (load_sequence a chosen).
Proof. exists 2%nat. reflexivity. Qed.

Lemma load_attempted_cases a chosen rest :
  load_attempted a chosen rest ->
  exists tail,
    rest = Uploader.LoadTableFromFile (Uploader.csv_file a) (Uploader.table_id a)
                                      (config_for a chosen) :: tail
    /\ Forall (fun c => is_load c = false) tail
    /\ (length tail <= 2)%nat.
Proof.
  intros [n Hn]. subst rest. unfold load_sequence.
  destruct n as [|[|[|n]]]; cbn [firstn]; eexists; (split; [reflexivity|]);
    (split; [repeat constructor | simpl; lia]).
Qed.

(** What follows the dataset step: the schema block sends nothing, and
    then either nothing is sent or a load is attempted. *)
Lemma after_dataset_trace (w : Uploader.world) (a : Uploader.upload_args)
      (s1 : Uploader.ustate) :
  exists r rest p,
    bind (Uploader.determine_schema w (Uploader.csv_file a)
            (table_name_of (Uploader.table_id a)) (Uploader.schema a)
            (Uploader.auto_detect_schema a))
         (fun determined =>
            match determined with
            | inl b => ret b
            | inr chosen => load_and_wait w a (Uploader.table_id a) chosen
            end) s1
    = (r, Uploader.mk_ustate (Uploader.calls s1 ++ rest) p)
    /\ (rest = []
        \/ exists chosen, schema_choice w a = Some chosen /\ load_attempted a chosen rest).
Proof.
  destruct (schema_then_load w a s1) as [[Hn [p Hm]]|[chosen [p [Hc Hm]]]]; rewrite Hm.
  - exists (Ok false), [], p. rewrite app_nil_r. auto.
  - rewrite load_and_wait_run. cbv zeta. cbn [Uploader.calls Uploader.printed].
    destruct (Uploader.can_open w (Uploader.csv_file a)).
    2:{ eexists _, [], _. rewrite app_nil_r. auto. }
    destruct (Uploader.warehouse w _ (Uploader.LoadTableFromFile _ _ _)).
    2:{ eexists _, _, _. split; [reflexivity|]. right. exists chosen.
        split; [exact Hc | apply load_attempted_one]. }
    destruct (Uploader.warehouse w _ (Uploader.JobResult _)).
    2:{ eexists _, _, _. split; [reflexivity|]. right. exists chosen.
        split; [exact Hc | apply load_attempted_two]. }
    destruct (Uploader.warehouse w _ (Uploader.GetTable _));
      (eexists _, _, _; split; [reflexivity|]; right; exists chosen;
       split; [exact Hc | apply load_attempted_all]).
Qed.

(** The requests of one call, in order: none when a check fails; else the
    dataset step and, when it went through and a schema was chosen and
    the file could be opened, the load that was attempted. *)
Lemma upload_trace (w : Uploader.world) (self_project_id : string)
      (a : Uploader.upload_args) (s : Uploader.ustate) :
  exists b pre rest p,
    Uploader.upload_csv_to_table w self_project_id a s
    = (Ok b, Uploader.mk_ustate (Uploader.calls s ++ pre ++ rest) p)
    /\ ((pre = [] /\ rest = [])
        \/ (Uploader.path_exists w (Uploader.csv_file a) = true
            /\ dataset_requested self_project_id (Uploader.table_id a) pre
            /\ (rest = []
                \/ exists chosen,
                     schema_choice w a = Some chosen /\ load_attempted a chosen rest))).
Proof.
  rewrite upload_handlers.
  destruct (Uploader.path_exists w (Uploader.csv_file a)) eqn:Hex.
  2:{ destruct (upload_body_invalid w self_project_id a s (or_introl Hex)) as [msg Hb].
      rewrite Hb. exists false, [], []. eexists. rewrite !app_nil_r. auto. }
  destruct (Nat.eq_dec (length (Uploader.split_dot (Uploader.table_id a))) 3)
    as [Hlen|Hlen].
  2:{ destruct (upload_body_invalid w self_project_id a s (or_intror Hlen)) as [msg Hb].
      rewrite Hb. exists false, [], []. eexists. rewrite !app_nil_r. auto. }
  rewrite (upload_body_valid w self_project_id a s Hex Hlen).
  unfold bind at 1. rewrite create_dataset_run. cbv zeta.
  assert (Hafter : forall pre p1,
            dataset_requested self_project_id (Uploader.table_id a) pre ->
            exists b pre' rest p,
              match
                bind (Uploader.determine_schema w (Uploader.csv_file a)
                        (table_name_of (Uploader.table_id a)) (Uploader.schema a)
                        (Uploader.auto_detect_schema a))
                     (fun determined =>
                        match determined with
                        | inl b => ret b
                        | inr chosen => load_and_wait w a (Uploader.table_id a) chosen
                        end)
                     (Uploader.mk_ustate (Uploader.calls s ++ pre) p1)
              with
              | (Ok b, s') => (Ok b, s')
              | (Raise e, s') =>
                  (Ok false,
                   Uploader.mk_ustate (Uploader.calls s')
                     (Uploader.printed s'
                      ++ [match e with
                          | BadRequest => Uploader.MsgBadRequest
                          | _ => Uploader.MsgUploadError e
                          end]))
              end
              = (Ok b, Uploader.mk_ustate (Uploader.calls s ++ pre' ++ rest) p)
              /\ ((pre' = [] /\ rest = [])
                  \/ (true = true
                      /\ dataset_requested self_project_id (Uploader.table_id a) pre'
                      /\ (rest = []
                          \/ exists chosen,
                               schema_choice w a = Some chosen
                               /\ load_attempted a chosen rest)))).
  { intros pre p1 Hpre.
    destruct (after_dataset_trace w a (Uploader.mk_ustate (Uploader.calls s ++ pre) p1))
      as [r [rest [p [Hr Hrest]]]].
    rewrite Hr. cbn [Uploader.calls Uploader.printed].
    destruct r as [b|e]; [exists b|exists false]; exists pre, rest; eexists;
      (split; [rewrite <- app_assoc; reflexivity|]); right; auto. }
  destruct (Uploader.warehouse w (Uploader.calls s) (Uploader.GetDataset _)) as [|e].
  - apply Hafter. left. reflexivity.
  - destruct e;
      try (exists false; eexists _, [], _; cbn [Uploader.calls Uploader.printed];
           split; [rewrite app_nil_r; reflexivity|];
           right; split; [reflexivity|]; split; [left; reflexivity | left; reflexivity]).
    destruct (Uploader.warehouse w _ (Uploader.CreateDataset _ _)) as [|e].
    + apply Hafter. right. reflexivity.
    + exists false. eexists _, [], _. cbn [Uploader.calls Uploader.printed].
      split; [rewrite app_nil_r; reflexivity|].
      right. split; [reflexivity|]. split; [right; reflexivity | left; reflexivity].
Qed.

Lemma not_load_is_load_of_call w a c : is_load c = false -> load_of_call w a c.
Proof. intros H csv t cfg Hc. subst c. discriminate H. Qed.

Lemma dataset_requested_not_loads pid t pre :
  dataset_requested pid t pre -> Forall (fun c => is_load c = false) pre.
Proof. intros [H|H]; subst pre; repeat constructor. Qed.

Lemma loads_app xs ys : loads (xs ++ ys) = (loads xs ++ loads ys)%list.
Proof. apply filter_app. Qed.

Lemma loads_none cs : Forall (fun c => is_load c = false) cs -> loads cs = [].
Proof.
  induction 1 as [|c cs Hc _ IH]; [reflexivity|].
  unfold loads in *. cbn [filter]. rewrite Hc. exact IH.
Qed.

(** X17. One call of [upload_csv_to_table] sends at most five requests and
    at most one load job; a load job is for the file and the identifier as
    given, with the configuration of the arguments and the schema the call
    chose, and is never the first request: the lookup of the dataset in the
    client's project comes first. *)
Theorem upload_request_protocol
        (w : Uploader.world) (self_project_id : string) (a : Uploader.upload_args)
        (s : Uploader.ustate) :
  (length (new_calls s (snd (Uploader.upload_csv_to_table w self_project_id a s))) <= 5)%nat
  /\ (length (loads (new_calls s
                       (snd (Uploader.upload_csv_to_table w self_project_id a s)))) <= 1)%nat
  /\ Forall (load_of_call w a)
            (new_calls s (snd (Uploader.upload_csv_to_table w self_project_id a s)))
  /\ (loads (new_calls s (snd (Uploader.upload_csv_to_table w self_project_id a s))) <> []
      -> hd_error (new_calls s (snd (Uploader.upload_csv_to_table w self_project_id a s)))
         = Some (Uploader.GetDataset
                   (self_project_id ++ "." ++ dataset_of (Uploader.table_id a))%string)).
Proof.
  destruct (upload_trace w self_project_id a s) as [b [pre [rest [p [Hrun Hshape]]]]].
  rewrite Hrun. cbn [snd]. rewrite new_calls_app.
  destruct Hshape as [[Hpre Hrest]|[Hex [Hpre Hrest]]].
  - subst pre rest. simpl. repeat split; try lia; [constructor | intros H; congruence].
  - pose proof (dataset_requested_not_loads _ _ _ Hpre) as Hnl.
    assert (Hhd : hd_error (pre ++ rest)
                  = Some (Uploader.GetDataset
                            (self_project_id ++ "." ++ dataset_of (Uploader.table_id a))%string))
      by (destruct Hpre as [Hp|Hp]; subst pre; reflexivity).
    assert (Hlen : (length pre <= 2)%nat)
      by (destruct Hpre as [Hp|Hp]; subst pre; simpl; lia).
    rewrite loads_app, (loads_none pre Hnl), !length_app. cbn [app].
    destruct Hrest as [Hrest|[chosen [Hc Hatt]]].
    + subst rest. simpl. repeat split; try lia; [|intros H; congruence].
      rewrite app_nil_r. eapply Forall_impl; [|exact Hnl].
      intros c. apply not_load_is_load_of_call.
    + destruct (load_attempted_cases a chosen rest Hatt) as [tail [Hr [Htail Htl]]].
      subst rest. unfold loads at 1 2. cbn [filter is_load].
      fold (loads tail). rewrite (loads_none tail Htail). cbn [length].
      repeat split; try lia; [|intros _; exact Hhd].
      apply Forall_app. split.
      * eapply Forall_impl; [|exact Hnl]. intros c. apply not_load_is_load_of_call.
      * constructor.
        -- intros csv t cfg Heq. inversion Heq; subst.
           split; [exact Hex|]. split; [reflexivity|]. split; [reflexivity|].
           exists chosen. auto.
        -- eapply Forall_impl; [|exact Htail]. intros c. apply not_load_is_load_of_call.
Qed.

(** Every request of a call is configured from the call's arguments. *)
Lemma upload_emits_loads (w : Uploader.world) (self_project_id : string)
      (a : Uploader.upload_args) :
  emits (load_of_call w a) (Uploader.upload_csv_to_table w self_project_id a).
Proof.
  intros s.
  destruct (upload_trace w self_project_id a s) as [b [pre [rest [p [Hrun Hshape]]]]].
  exists (pre ++ rest)%list. rewrite Hrun. cbn [snd Uploader.calls].
  split; [reflexivity|].
  destruct Hshape as [[Hpre Hrest]|[Hex [Hpre Hrest]]].
  - subst pre rest. constructor.
  - pose proof (dataset_requested_not_loads _ _ _ Hpre) as Hnl.
    apply Forall_app. split.
    + eapply Forall_impl; [|exact Hnl]. intros c. apply not_load_is_load_of_call.
    + destruct Hrest as [Hrest|[chosen [Hc Hatt]]]; [subst rest; constructor|].
      destruct (load_attempted_cases a chosen rest Hatt) as [tail [Hr [Htail Htl]]].
      subst rest. constructor.
      * intros csv t cfg Heq. inversion Heq; subst.
        split; [exact Hex|]. split; [reflexivity|]. split; [reflexivity|].
        exists chosen. auto.
      * eapply Forall_impl; [|exact Htail]. intros c. apply not_load_is_load_of_call.
Qed.

Lemma upload_request_protocol_witness :
  loads (new_calls fresh
           (snd (Uploader.upload_csv_to_table friendly_world "client-project"
                   (default_args "factura_items.csv" "proj.optistock.sales") fresh))) <> []
  /\ hd_error (new_calls fresh
                 (snd (Uploader.upload_csv_to_table friendly_world "client-project"
                         (default_args "factura_items.csv" "proj.optistock.sales") fresh)))
     = Some (Uploader.GetDataset "client-project.optistock").
Proof.
  assert (H : loads (new_calls fresh
                       (snd (Uploader.upload_csv_to_table friendly_world "client-project"
                               (default_args "factura_items.csv" "proj.optistock.sales")
                               fresh))) <> [])
    by (vm_compute; discriminate).
  split; [exact H|].
  exact (proj2 (proj2 (proj2 (upload_request_protocol friendly_world "client-project"
                                (default_args "factura_items.csv" "proj.optistock.sales")
                                fresh))) H).
Defined.

Section BatchRequests.

Import Uploader Batch.

Variable w : world.
Variable P : call -> Prop.

Lemma emits_weaken {A} (Q Q' : call -> Prop) (m : M ustate A) :
  (forall c, Q c -> Q' c) -> emits Q m -> emits Q' m.
Proof.
  intros HQ Hm s. destruct (Hm s) as [cs [Hcs Pcs]]. exists cs.
  split; [exact Hcs|]. eapply Forall_impl; [|exact Pcs]. exact HQ.
Qed.

Lemma batch_emits_ret {A} (a : A) : batch_emits P (ret a).
Proof. intros s. exists []. simpl. rewrite app_nil_r. auto. Qed.

Lemma batch_emits_say l : batch_emits P (say l).
Proof. intros s. exists []. simpl. rewrite app_nil_r. auto. Qed.

Lemma batch_emits_incr_success : batch_emits P incr_success.
Proof. intros s. exists []. simpl. rewrite app_nil_r. auto. Qed.

Lemma batch_emits_incr_total : batch_emits P incr_total.
Proof. intros s. exists []. simpl. rewrite app_nil_r. auto. Qed.

Lemma batch_emits_get_state : batch_emits P get_state.
Proof. intros s. exists []. simpl. rewrite app_nil_r. auto. Qed.

Lemma batch_emits_call {A} (m : M ustate A) :
  emits P m -> batch_emits P (call_uploader m).
Proof.
  intros Hm s. destruct (Hm (ust s)) as [cs [Hcs Pcs]]. exists cs.
  unfold call_uploader. destruct (m (ust s)) as [r u]. cbn [snd ust] in *. auto.
Qed.

Lemma batch_emits_bind {A B} (m : M bstate A) (f : A -> M bstate B) :
  batch_emits P m -> (forall a, batch_emits P (f a)) -> batch_emits P (bind m f).
Proof.
  intros Hm Hf s. unfold bind. destruct (Hm s) as [cs [Hcs Pcs]].
  destruct (m s) as [[a|e] s1]; cbn [snd] in *.
  - destruct (Hf a s1) as [cs' [Hcs' Pcs']].
    exists (cs ++ cs')%list. rewrite Hcs', Hcs, app_assoc. split; [reflexivity|].
    apply Forall_app; auto.
  - exists cs. auto.
Qed.

Lemma batch_emits_try_except_as {A} (body : M bstate A) caught handler :
  batch_emits P body -> (forall e, batch_emits P (handler e)) ->
  batch_emits P (try_except_as body caught handler).
Proof.
  intros Hb Hh s. unfold try_except_as. destruct (Hb s) as [cs [Hcs Pcs]].
  destruct (body s) as [[a|e] s1]; cbn [snd] in *; [eauto|].
  destruct (caught e); cbn [snd]; [|eauto].
  destruct (Hh e s1) as [cs' [Hcs' Pcs']].
  exists (cs ++ cs')%list. rewrite Hcs', Hcs, app_assoc. split; [reflexivity|].
  apply Forall_app; auto.
Qed.

Lemma batch_emits_for_each {A} (l : list A) (body : A -> M bstate unit) :
  (forall x, In x l -> batch_emits P (body x)) -> batch_emits P (for_each l body).
Proof.
  induction l as [|x l IH]; intros H.
  - apply batch_emits_ret.
  - cbn [for_each]. apply batch_emits_bind.
    + apply H. left. reflexivity.
    + intros _. apply IH. intros y Hy. apply H. right. exact Hy.
Qed.

Hypothesis others : forall c, is_load c = false -> P c.

Lemma get_table_info_emits t : emits P (get_table_info w t).
Proof.
  unfold get_table_info. apply emits_try_except_as.
  - apply emits_bind; [apply emits_send; apply others; reflexivity|].
    intros. apply emits_ret.
  - intros e. destruct e;
      (apply emits_bind; [apply emits_print | intros; apply emits_ret]).
Qed.

Lemma list_tables_emits pid d : emits P (list_tables_in_dataset w pid d).
Proof.
  unfold list_tables_in_dataset. cbv zeta. apply emits_try_except_as.
  - intros s. exists [ListTables (pid ++ "." ++ d)%string].
    unfold bind, send, ret.
    destruct (warehouse w (calls s) (ListTables (pid ++ "." ++ d)%string));
      cbn [snd calls]; (split; [reflexivity|]); constructor;
      solve [apply others; reflexivity | constructor].
  - intros e. apply emits_bind; [apply emits_print | intros; apply emits_ret].
Qed.

Lemma list_final_tables_emits : batch_emits P (list_final_tables w).
Proof.
  unfold list_final_tables. apply batch_emits_bind.
  - apply batch_emits_call. apply list_tables_emits.
  - intros tables. apply batch_emits_for_each. intros table _. cbv zeta.
    apply batch_emits_bind; [apply batch_emits_call; apply get_table_info_emits|].
    intros info. destruct info; [apply batch_emits_say | apply batch_emits_ret].
Qed.

End BatchRequests.

(** A load of the coordinator's call for an entry of the mapping carries
    the registered schema of the entry's table. *)
Lemma batch_call_is_batch_job (w : Uploader.world) (csv_file table_name : string)
      (c : Uploader.call) :
  In (csv_file, table_name) Batch.TABLE_MAPPING ->
  load_of_call w
    (Batch.batch_args csv_file
       (Batch.PROJECT_ID ++ "." ++ Batch.DATASET_ID ++ "." ++ table_name)%string) c ->
  batch_job w c.
Proof.
  intros Hin Hc csv t cfg Heq.
  destruct (Hc csv t cfg Heq) as [Hex [Hcsv [Ht [chosen [Hch Hcfg]]]]].
  cbn [Uploader.csv_file Uploader.table_id Batch.batch_args] in Hex, Hcsv, Ht.
  subst csv t cfg. exists table_name.
  cbn [In Batch.TABLE_MAPPING] in Hin.
  destruct Hin as [Hin|[Hin|[Hin|[Hin|[]]]]]; inversion Hin; subst csv_file table_name;
    vm_compute in Hch; inversion Hch; subst chosen;
    (eexists; split; [cbn [In Batch.TABLE_MAPPING]; auto 6|];
     split; [exact Hex|]; split; [reflexivity|]; split; reflexivity).
Qed.

Lemma process_entry_emits (w : Uploader.world) (entry : string * string) :
  In entry Batch.TABLE_MAPPING ->
  batch_emits (batch_job w) (Batch.process_entry w entry).
Proof.
  intros Hin. destruct entry as [csv name]. unfold Batch.process_entry.
  apply batch_emits_bind; [apply batch_emits_incr_total|]. intros _.
  destruct (negb (Uploader.path_exists w csv)); [apply batch_emits_say|].
  cbv zeta. apply batch_emits_bind; [apply batch_emits_say|]. intros _.
  apply batch_emits_try_except_as; [|intros e; apply batch_emits_say].
  apply batch_emits_bind.
  - apply batch_emits_call.
    eapply emits_weaken; [|apply upload_emits_loads].
    intros c. apply batch_call_is_batch_job. exact Hin.
  - intros success. destruct success; [|apply batch_emits_say].
    apply batch_emits_bind; [apply batch_emits_incr_success|]. intros _.
    apply batch_emits_bind; [apply batch_emits_say|]. intros _.
    apply batch_emits_bind.
    + apply batch_emits_call. apply get_table_info_emits.
      intros c Hc csv' t cfg Heq. subst c. discriminate Hc.
    + intros info. destruct info; [apply batch_emits_say | apply batch_emits_ret].
Qed.

Lemma batch_loop_emits (w : Uploader.world) :
  batch_emits (batch_job w) (Batch.batch_loop w).
Proof.
  unfold Batch.batch_loop.
  apply batch_emits_bind.
  { apply batch_emits_for_each. intros entry Hin. apply process_entry_emits. exact Hin. }
  intros _. apply batch_emits_bind; [apply batch_emits_get_state|]. intros s.
  apply batch_emits_bind; [apply batch_emits_say|]. intros _.
  destruct (Z.ltb 0 (Batch.success_count s)).
  - apply batch_emits_bind; [apply batch_emits_say|]. intros _.
    apply batch_emits_bind.
    + apply list_final_tables_emits.
      intros c Hc csv' t cfg Heq. subst c. discriminate Hc.
    + intros _. apply batch_emits_ret.
  - apply batch_emits_bind; [apply batch_emits_say | intros; apply batch_emits_ret].
Qed.

(** X18. Every load job a run of [batch_upload_csvs] submits is for a file
    of [TABLE_MAPPING] that exists and for the table the mapping gives it
    in [PROJECT_ID.DATASET_ID], and carries the registered schema of that
    table with auto-detect off, although the coordinator passes
    [auto_detect_schema=True]; it appends ([WRITE_APPEND]) and skips one
    leading row. *)
Theorem batch_jobs_use_registered_schemas
        (w : Uploader.world) (csv_file table_ref : string)
        (cfg : Uploader.LoadJobConfig) :
  In (Uploader.LoadTableFromFile csv_file table_ref cfg)
     (Uploader.calls (Batch.ust (snd (Batch.batch_upload_csvs w)))) ->
  exists table_name reg,
    In (csv_file, table_name) Batch.TABLE_MAPPING
    /\ Uploader.path_exists w csv_file = true
    /\ table_ref = (Batch.PROJECT_ID ++ "." ++ Batch.DATASET_ID ++ "." ++ table_name)%string
    /\ Uploader.get_predefined_schema table_name = Some reg
    /\ Uploader.cfg_schema cfg = Some reg
    /\ Uploader.cfg_autodetect cfg = false
    /\ Uploader.cfg_write_disposition cfg = "WRITE_APPEND"%string
    /\ Uploader.cfg_skip_leading_rows cfg = 1.
Proof.
  unfold Batch.batch_upload_csvs. intros Hin.
  destruct (Uploader.client_connects w); [|destruct Hin].
  destruct (batch_loop_emits w Batch.bstate0) as [cs [Hcs Pcs]].
  destruct (Batch.batch_loop w Batch.bstate0) as [[b|e] st]; cbn [snd] in *;
    rewrite Hcs in Hin; cbn [Batch.ust Batch.bstate0 Uploader.calls app] in Hin;
    rewrite Forall_forall in Pcs;
    destruct (Pcs _ Hin csv_file table_ref cfg eq_refl)
      as [name [reg [H1 [H2 [H3 [H4 H5]]]]]];
    exists name, reg; subst cfg; repeat split; assumption.
Qed.

Lemma batch_jobs_witness :
  exists table_name reg,
    In ("factura_items.csv"%string, table_name) Batch.TABLE_MAPPING
    /\ Uploader.get_predefined_schema table_name = Some reg
    /\ length reg = 6%nat.
Proof.
  destruct (batch_jobs_use_registered_schemas mixed_world "factura_items.csv"
              "your-project-id.optistock.sales"
              (Uploader.mk_config 1 "," "UTF-8" "WRITE_APPEND" false
                                  (Uploader.get_predefined_schema "sales")))
    as [name [reg [H1 [_ [H3 [H4 _]]]]]].
  - vm_compute. auto 20.
  - exists name, reg. split; [exact H1|]. split; [exact H4|].
    assert (name = "sales"%string) by (vm_compute in H3; inversion H3; reflexivity).
    subst name. vm_compute in H4. inversion H4. reflexivity.
Defined.

(** X19. A call that asks for an inferred schema (no schema passed, table
    not registered, auto-detect off) for a file that cannot be parsed or
    has no column returns False without submitting a load job, but only
    after the dataset step: when the dataset was missing it has been
    created, and stays behind. *)
Theorem unparsable_file_fails_after_dataset_step
        (w : Uploader.world) (self_project_id : string) (a : Uploader.upload_args)
        (s : Uploader.ustate) :
  Uploader.path_exists w (Uploader.csv_file a) = true ->
  length (Uploader.split_dot (Uploader.table_id a)) = 3%nat ->
  Uploader.schema a = None ->
  Uploader.get_predefined_schema (table_name_of (Uploader.table_id a)) = None ->
  Uploader.auto_detect_schema a = false ->
  inferred_schema w (Uploader.csv_file a) = [] ->
  Uploader.warehouse w (Uploader.calls s)
    (Uploader.GetDataset
       (self_project_id ++ "." ++ dataset_of (Uploader.table_id a))%string)
  = Uploader.Refused NotFound ->
  Uploader.warehouse w
    (Uploader.calls s
     ++ [Uploader.GetDataset
           (self_project_id ++ "." ++ dataset_of (Uploader.table_id a))%string])
    (Uploader.CreateDataset
       (self_project_id ++ "." ++ dataset_of (Uploader.table_id a))%string "US")
  = Uploader.Done ->
  fst (Uploader.upload_csv_to_table w self_project_id a s) = Ok false
  /\ new_calls s (snd (Uploader.upload_csv_to_table w self_project_id a s))
     = [Uploader.GetDataset
          (self_project_id ++ "." ++ dataset_of (Uploader.table_id a))%string;
        Uploader.CreateDataset
          (self_project_id ++ "." ++ dataset_of (Uploader.table_id a))%string "US"].
Proof.
  intros Hex Hlen Hsch Hreg Hauto Hinf Hget Hcreate.
  assert (Hc : schema_choice w a = None)
    by (unfold schema_choice; rewrite Hsch, Hreg, Hauto, Hinf; reflexivity).
  pose proof (upload_handlers w self_project_id a s) as Hh.
  rewrite (upload_body_valid w self_project_id a s Hex Hlen) in Hh.
  unfold bind at 1 in Hh. rewrite create_dataset_run in Hh. cbv zeta in Hh.
  rewrite Hget, Hcreate in Hh.
  match type of Hh with
  | context [bind _ _ ?s1] =>
      destruct (schema_then_load w a s1) as [[_ [p Hm]]|[chosen [p [Hc' _]]]];
        [|congruence]
  end.
  rewrite Hm in Hh. cbn [Uploader.calls] in Hh. rewrite Hh. cbn [fst snd].
  split; [reflexivity | apply new_calls_app].
Qed.

Lemma unparsable_file_witness :
  fst (Uploader.upload_csv_to_table unparsable_world "client-project"
         (args_inferring "x.csv" "proj.ds.readings") fresh) = Ok false
  /\ new_calls fresh
       (snd (Uploader.upload_csv_to_table unparsable_world "client-project"
               (args_inferring "x.csv" "proj.ds.readings") fresh))
     = [Uploader.GetDataset "client-project.ds";
        Uploader.CreateDataset "client-project.ds" "US"].
Proof.
  apply (unparsable_file_fails_after_dataset_step unparsable_world "client-project"
           (args_inferring "x.csv" "proj.ds.readings") fresh); reflexivity.
Defined.

(** X20. The files the batch coordinator uploads are the output files of
    the four extraction scripts, and each load job carries the registered
    schema of its table; of the four, only the warehouse-movements schema
    names the columns its script writes, in order, and only that one and
    the sales schema have as many fields as the file has columns. *)
Theorem registered_schemas_vs_written_columns
        (csv_file table_name : string) (reg : list Uploader.SchemaField)
        (cols : list string) :
  In (csv_file, table_name) Batch.TABLE_MAPPING ->
  Uploader.get_predefined_schema table_name = Some reg ->
  Uploader.assoc csv_file producer_columns = Some cols ->
  (map Uploader.field_name reg = cols <-> table_name = "warehouse_movements"%string)
  /\ (length reg = length cols
      <-> table_name = "warehouse_movements"%string \/ table_name = "sales"%string).
Proof.
  intros Hin Hreg Hcols. cbn [In Batch.TABLE_MAPPING] in Hin.
  destruct Hin as [H|[H|[H|[H|[]]]]]; inversion H; subst csv_file table_name;
    vm_compute in Hreg; vm_compute in Hcols; inversion Hreg; inversion Hcols;
    subst reg cols; (split; split; intros X);
    try reflexivity; try (left; reflexivity); try (right; reflexivity);
    try (vm_compute in X; discriminate X);
    try (destruct X as [X|X]; discriminate X).
Qed.

Lemma registered_schemas_witness :
  exists reg,
    Uploader.get_predefined_schema "inventory" = Some reg
    /\ length reg <> length Inventory.columns.
Proof.
  eexists. split; [reflexivity|]. intros Hlen.
  destruct (registered_schemas_vs_written_columns "items_inventory.csv" "inventory"
              _ Inventory.columns (or_intror (or_introl eq_refl)) eq_refl eq_refl)
    as [_ [Hl _]].
  destruct (Hl Hlen) as [X|X]; discriminate X.
Defined.

(** ** The outcome of a batch run *)

Lemma some_succeeded results :
  0 < count_succeeded results
  <-> Exists (fun r => uploaded r = Some true) results.
Proof.
  unfold count_succeeded. induction results as [|r results IH]; simpl.
  - split; [lia|]. intros H. inversion H.
  - unfold upload_succeeded at 1. destruct (uploaded r) as [[|]|] eqn:Hr; simpl.
    + split; [intros _; left; exact Hr | lia].
    + rewrite IH. split; [intros H; right; assumption|].
      intros H. inversion H; subst; [congruence|assumption].
    + rewrite IH. split; [intros H; right; assumption|].
      intros H. inversion H; subst; [congruence|assumption].
Qed.

(** C8. In a run of the batch coordinator over the static mapping, every
    entity of the mapping is handled in order and whatever happened to the
    entities before it: an entity whose file is missing is skipped without
    a call, and for every other entity [upload_csv_to_table] is called, on
    the uploader as the entity before left it, also after an upload that
    failed; each entity's lines report what its own call returned; the
    count of successes is the number of calls that returned True; and the
    coordinator returns True if and only if at least one of these calls
    returned True.  After the loop the coordinator only reads: it submits
    no further load job. *)
Theorem batch_outcomes_independent (w : Uploader.world) :
  Uploader.client_connects w = true ->
  exists b st results tail reads,
    Batch.batch_upload_csvs w = (Batch.BatchReturned b, st)
    /\ entities_run w Batch.TABLE_MAPPING (Uploader.mk_ustate [] []) results
    /\ Batch.report st = concat (map block results) ++ tail
    /\ (b = true <-> Exists (fun r => uploaded r = Some true) results)
    /\ Batch.success_count st = count_succeeded results
    /\ Batch.total_files st = Z.of_nat (length Batch.TABLE_MAPPING)
    /\ Uploader.calls (Batch.ust st)
       = (Uploader.calls (after_all (Uploader.mk_ustate [] []) results) ++ reads)%list
    /\ Forall (fun c => is_load c = false) reads.
Proof.
  intros Hconn. unfold Batch.batch_upload_csvs. rewrite Hconn.
  unfold Batch.batch_loop. unfold bind at 1.
  destruct (process_entries_results w Batch.TABLE_MAPPING Batch.bstate0)
    as [s1 [results [H1 [H2 [H3 [H4 [H5 H6]]]]]]].
  rewrite H1. unfold bind at 1, Batch.get_state.
  unfold bind at 1, Batch.say at 1, modify.
  cbn [Batch.report Batch.success_count Batch.total_files Batch.ust Batch.bstate0] in *.
  rewrite Z.add_0_l in H5, H6. simpl app in H4.
  destruct (Z.ltb 0 (Batch.success_count s1)) eqn:Hpos.
  - unfold bind at 1, Batch.say at 1, modify. unfold bind at 1.
    match goal with
    | |- context [Batch.list_final_tables w ?s2] =>
        destruct (list_final_tables_returns w s2) as [s3 [infos [Hr [Hi [Hsc Htf]]]]];
        destruct (list_final_tables_emits w (fun c => is_load c = false)
                    (fun c Hc => Hc) s2) as [reads [Hcalls Hreads]]
    end.
    rewrite Hr in Hcalls |- *. cbn [snd Batch.ust] in Hcalls. unfold ret.
    exists true, s3, results. eexists. exists reads.
    split; [reflexivity|]. split; [exact H2|].
    split; [rewrite Hi; cbn [Batch.report]; rewrite H4, <- !app_assoc; reflexivity|].
    split; [split; [intros _|reflexivity];
            apply some_succeeded; rewrite <- H5; apply Z.ltb_lt; exact Hpos|].
    split; [rewrite Hsc; exact H5|]. split; [rewrite Htf; exact H6|].
    split; [rewrite Hcalls, H3; reflexivity | exact Hreads].
  - unfold bind at 1, Batch.say at 1, modify, ret.
    eexists false, _, results, _, [].
    split; [reflexivity|]. cbn [Batch.report Batch.success_count Batch.total_files
                                Batch.ust].
    split; [exact H2|].
    split; [rewrite H4, <- !app_assoc; reflexivity|].
    split.
    { split; [discriminate|].
      intros Hex. apply some_succeeded in Hex. rewrite <- H5 in Hex.
      apply Z.ltb_ge in Hpos. lia. }
    split; [exact H5|]. split; [exact H6|].
    split; [rewrite H3, app_nil_r; reflexivity | constructor].
Qed.

Lemma batch_outcomes_witness :
  exists st results,
    Batch.batch_upload_csvs mixed_world = (Batch.BatchReturned true, st)
    /\ entities_run mixed_world Batch.TABLE_MAPPING (Uploader.mk_ustate [] []) results
    /\ count_succeeded results = 2
    /\ Batch.total_files st = 4.
Proof.
  destruct (batch_outcomes_independent mixed_world eq_refl)
    as [b [st [results [tail [reads [Hrun [Hres [_ [_ [Hcount _]]]]]]]]]].
  assert (Hb : fst (Batch.batch_upload_csvs mixed_world) = Batch.BatchReturned true)
    by (vm_compute; reflexivity).
  assert (Hst : st = snd (Batch.batch_upload_csvs mixed_world))
    by (rewrite Hrun; reflexivity).
  rewrite Hrun in Hb. cbn [fst] in Hb. inversion Hb; subst b.
  exists st, results. split; [exact Hrun|]. split; [exact Hres|].
  split.
  - rewrite <- Hcount, Hst. vm_compute. reflexivity.
  - rewrite Hst. vm_compute. reflexivity.
Defined.

(** ** The command line *)

Section EmitsIn.

Import Uploader.

Context {S : Type}.
Variable get : S -> ustate.
Variable P : call -> Prop.

Lemma emits_in_ret {A} (a : A) : emits_in get P (ret a).
Proof. intros s. exists []. simpl. rewrite app_nil_r. auto. Qed.

Lemma emits_in_modify (f : S -> S) :
  (forall s, get (f s) = get s) -> emits_in get P (modify f).
Proof.
  intros Hf s. exists []. unfold modify. cbn [snd]. rewrite Hf, app_nil_r. auto.
Qed.

Lemma emits_in_bind {A B} (m : M S A) (f : A -> M S B) :
  emits_in get P m -> (forall a, emits_in get P (f a)) -> emits_in get P (bind m f).
Proof.
  intros Hm Hf s. unfold bind. destruct (Hm s) as [cs [Hcs Pcs]].
  destruct (m s) as [[a|e] s1]; cbn [snd] in *.
  - destruct (Hf a s1) as [cs' [Hcs' Pcs']].
    exists (cs ++ cs')%list. rewrite Hcs', Hcs, app_assoc. split; [reflexivity|].
    apply Forall_app; auto.
  - exists cs. auto.
Qed.

Lemma emits_in_for_each {A} (l : list A) (body : A -> M S unit) :
  (forall x, emits_in get P (body x)) -> emits_in get P (for_each l body).
Proof.
  intros H. induction l as [|x l IH]; [apply emits_in_ret|].
  cbn [for_each]. apply emits_in_bind; [apply H | intros _; exact IH].
Qed.

End EmitsIn.

Lemma cli_call_emits {A} (P : Uploader.call -> Prop) (m : M Uploader.ustate A) :
  emits P m -> emits_in Cli.cust P (Cli.call_uploader m).
Proof.
  intros Hm s. destruct (Hm (Cli.cust s)) as [cs [Hcs Pcs]]. exists cs.
  unfold Cli.call_uploader. destruct (m (Cli.cust s)) as [r u].
  cbn [snd Cli.cust] in *. auto.
Qed.

Lemma cli_say_emits (P : Uploader.call -> Prop) (l : Cli.line) :
  emits_in Cli.cust P (Cli.say l).
Proof. apply emits_in_modify. reflexivity. Qed.

(** From the command line the schema is the registered one or is left to
    the warehouse, with the flag and without it. *)
Lemma cli_call_is_cli_job (w : Uploader.world) (default_project : string)
      (c : Cli.command_line) (r : Uploader.call) :
  Cli.given (Cli.opt_list_tables c) = None ->
  Cli.given (Cli.opt_table_info c) = None ->
  load_of_call w (Cli.cli_upload_args c) r -> cli_job c r.
Proof.
  intros Hl Hi Hr csv t cfg Heq.
  destruct (Hr csv t cfg Heq) as [_ [Hcsv [Ht [chosen [Hch Hcfg]]]]].
  split; [exact Hl|]. split; [exact Hi|]. split; [exact Hcsv|]. split; [exact Ht|].
  subst cfg. unfold registered_or_autodetect.
  unfold schema_choice in Hch.
  cbn [Uploader.schema Uploader.table_id Uploader.auto_detect_schema
       Cli.cli_upload_args] in Hch.
  assert (Hauto : Uploader.auto_detect_schema (Cli.cli_upload_args c) = true)
    by (cbn [Uploader.auto_detect_schema Cli.cli_upload_args];
        unfold Cli.args_auto_detect_schema; destruct (Cli.flag_auto_detect_schema c);
        reflexivity).
  unfold config_for. cbn [Uploader.cfg_schema Uploader.cfg_autodetect]. rewrite Hauto.
  destruct (Uploader.get_predefined_schema (table_name_of (Cli.opt_table_id c)))
    as [reg|] eqn:Hreg.
  - inversion Hch; subst chosen.
    destruct (predefined_schema_nonempty _ _ Hreg) as [f [fs Hne]]. subst reg.
    split; reflexivity.
  - unfold Cli.args_auto_detect_schema in Hch.
    destruct (Cli.flag_auto_detect_schema c); inversion Hch; subst chosen;
      split; reflexivity.
Qed.

Lemma operations_emits (w : Uploader.world) (default_project : string)
      (c : Cli.command_line) :
  emits_in Cli.cust (cli_job c) (Cli.operations w default_project c).
Proof.
  assert (Hothers : forall r, is_load r = false -> cli_job c r)
    by (intros r Hr csv t cfg Heq; subst r; discriminate Hr).
  unfold Cli.operations.
  destruct (Cli.given (Cli.opt_list_tables c)) as [d|] eqn:Hl.
  { apply emits_in_bind;
      [apply cli_call_emits; apply list_tables_emits; exact Hothers|].
    intros tables. apply emits_in_bind; [apply cli_say_emits|]. intros _.
    apply emits_in_bind;
      [apply emits_in_for_each; intros; apply cli_say_emits
      | intros; apply emits_in_ret]. }
  destruct (Cli.given (Cli.opt_table_info c)) as [t|] eqn:Hi.
  { apply emits_in_bind;
      [apply cli_call_emits; apply get_table_info_emits; exact Hothers|].
    intros info. apply emits_in_bind; [|intros; apply emits_in_ret].
    destruct info; [apply cli_say_emits | apply emits_in_ret]. }
  apply emits_in_bind.
  - apply cli_call_emits. eapply emits_weaken; [|apply upload_emits_loads].
    intros r. apply (cli_call_is_cli_job w default_project c r Hl Hi).
  - intros success. destruct success.
    + apply emits_in_bind; [apply cli_say_emits|]. intros _.
      apply emits_in_bind;
        [apply cli_call_emits; apply get_table_info_emits; exact Hothers|].
      intros info. apply emits_in_bind; [|intros; apply emits_in_ret].
      destruct info; [apply cli_say_emits | apply emits_in_ret].
    + apply emits_in_bind; [apply cli_say_emits | intros; apply emits_in_ret].
Qed.

(** X21. Every load job submitted from the command line is for the file
    and the table of the command line and carries the registered schema of
    the table or, for a table that is not registered, leaves the schema to
    the warehouse's auto-detect: [args.auto_detect_schema] is True with the
    flag [--auto_detect_schema] and without it, so the schema inferred by
    [infer_schema_from_csv] is never used from the command line.  With
    [--list_tables] or [--table_info] no load job is submitted. *)
Theorem cli_jobs_registered_or_autodetect
        (w : Uploader.world) (default_project : string) (c : Cli.command_line)
        (csv_file table_ref : string) (cfg : Uploader.LoadJobConfig) :
  In (Uploader.LoadTableFromFile csv_file table_ref cfg)
     (Uploader.calls (Cli.cust (snd (Cli.main w default_project c)))) ->
  Cli.given (Cli.opt_list_tables c) = None
  /\ Cli.given (Cli.opt_table_info c) = None
  /\ csv_file = Cli.opt_csv_file c
  /\ table_ref = Cli.opt_table_id c
  /\ registered_or_autodetect (Cli.opt_table_id c) cfg.
Proof.
  unfold Cli.main. intros Hin.
  destruct (Uploader.client_connects w); [|destruct Hin].
  destruct (operations_emits w default_project c Cli.cstate0) as [cs [Hcs Pcs]].
  rewrite Hcs in Hin. cbn [Cli.cust Cli.cstate0 Uploader.calls app] in Hin.
  rewrite Forall_forall in Pcs.
  exact (Pcs _ Hin csv_file table_ref cfg eq_refl).
Qed.

Lemma cli_jobs_witness :
  Uploader.cfg_schema (config_for (Cli.cli_upload_args (upload_command "x.csv" "proj.ds.readings" false)) None) = None
  /\ Uploader.cfg_autodetect (config_for (Cli.cli_upload_args (upload_command "x.csv" "proj.ds.readings" false)) None) = true.
Proof.
  destruct (cli_jobs_registered_or_autodetect friendly_world "client-project"
              (upload_command "x.csv" "proj.ds.readings" false)
              "x.csv" "proj.ds.readings"
              (config_for (Cli.cli_upload_args
                             (upload_command "x.csv" "proj.ds.readings" false)) None))
    as [_ [_ [_ [_ H]]]].
  - vm_compute. auto.
  - exact H.
Defined.

Lemma for_each_say (tables : list string) (s : Cli.cstate) :
  exists lines,
    for_each tables (fun table => Cli.say (Cli.TableLine table)) s
    = (Ok tt, Cli.mk_cstate (Cli.cust s) (Cli.out s ++ lines)).
Proof.
  revert s. induction tables as [|t tables IH]; intros s.
  - exists []. rewrite app_nil_r. destruct s; reflexivity.
  - cbn [for_each]. unfold bind, Cli.say at 1, modify.
    destruct (IH (Cli.mk_cstate (Cli.cust s) (Cli.out s ++ [Cli.TableLine t])))
      as [lines Hl].
    rewrite Hl. cbn [Cli.cust Cli.out]. exists (Cli.TableLine t :: lines).
    rewrite <- app_assoc. reflexivity.
Qed.

Lemma list_tables_run (w : Uploader.world) (pid d : string) (s : Uploader.ustate) :
  exists names p,
    Uploader.list_tables_in_dataset w pid d s
    = (Ok names,
       Uploader.mk_ustate (Uploader.calls s ++ [Uploader.ListTables (pid ++ "." ++ d)%string])
                          p).
Proof.
  unfold Uploader.list_tables_in_dataset, try_except_as, bind, Uploader.send.
  cbv zeta.
  destruct (Uploader.warehouse w (Uploader.calls s) _) as [|e]; do 2 eexists; reflexivity.
Qed.

Lemma get_table_info_run (w : Uploader.world) (t : string) (s : Uploader.ustate) :
  exists b p,
    Uploader.get_table_info w t s
    = (Ok b, Uploader.mk_ustate (Uploader.calls s ++ [Uploader.GetTable t]) p).
Proof.
  unfold Uploader.get_table_info, try_except_as, bind, Uploader.send.
  destruct (Uploader.warehouse w (Uploader.calls s) _) as [|e];
    [do 2 eexists; reflexivity|].
  destruct e; do 2 eexists; reflexivity.
Qed.

Lemma cli_list_run (w : Uploader.world) (default_project : string)
      (c : Cli.command_line) (d : string) :
  Cli.given (Cli.opt_list_tables c) = Some d ->
  exists p o,
    Cli.operations w default_project c Cli.cstate0
    = (Ok Cli.Returns,
       Cli.mk_cstate
         (Uploader.mk_ustate
            [Uploader.ListTables (Cli.client_project default_project c ++ "." ++ d)%string]
            p) o).
Proof.
  intros Hd. unfold Cli.operations. rewrite Hd.
  unfold bind at 1. unfold Cli.call_uploader.
  destruct (list_tables_run w (Cli.client_project default_project c) d
              (Cli.cust Cli.cstate0)) as [names [p Hrun]].
  rewrite Hrun. unfold bind at 1. unfold Cli.say at 1, modify. unfold bind at 1.
  match goal with
  | |- context [for_each ?l _ ?s] => destruct (for_each_say l s) as [lines Hl]
  end.
  rewrite Hl. do 2 eexists. reflexivity.
Qed.

Lemma cli_info_run (w : Uploader.world) (default_project : string)
      (c : Cli.command_line) (t : string) :
  Cli.given (Cli.opt_list_tables c) = None ->
  Cli.given (Cli.opt_table_info c) = Some t ->
  exists p o,
    Cli.operations w default_project c Cli.cstate0
    = (Ok Cli.Returns,
       Cli.mk_cstate (Uploader.mk_ustate [Uploader.GetTable t] p) o).
Proof.
  intros Hl Ht. unfold Cli.operations. rewrite Hl, Ht.
  unfold bind at 1. unfold Cli.call_uploader.
  destruct (get_table_info_run w t (Cli.cust Cli.cstate0)) as [b [p Hrun]].
  rewrite Hrun. destruct b; do 2 eexists; reflexivity.
Qed.

(** X22. With [--list_tables] the command line only lists the dataset,
    in the client's project, and with [--table_info] (and no
    [--list_tables]) it only reads that table: one request is sent,
    whatever the warehouse answers [main] returns without an exit status,
    and the required [--csv_file] and [--table_id] are not used. *)
Theorem cli_queries_send_one_read
        (w : Uploader.world) (default_project : string) (c : Cli.command_line) :
  Uploader.client_connects w = true ->
  (forall dataset_id,
     Cli.given (Cli.opt_list_tables c) = Some dataset_id ->
     fst (Cli.main w default_project c) = Ok Cli.Returns
     /\ Uploader.calls (Cli.cust (snd (Cli.main w default_project c)))
        = [Uploader.ListTables
             (Cli.client_project default_project c ++ "." ++ dataset_id)%string])
  /\ (forall table_id,
        Cli.given (Cli.opt_list_tables c) = None ->
        Cli.given (Cli.opt_table_info c) = Some table_id ->
        fst (Cli.main w default_project c) = Ok Cli.Returns
        /\ Uploader.calls (Cli.cust (snd (Cli.main w default_project c)))
           = [Uploader.GetTable table_id]).
Proof.
  intros Hconn. unfold Cli.main. rewrite Hconn. split.
  - intros d Hd.
    destruct (cli_list_run w default_project c d Hd) as [p [o Hrun]].
    rewrite Hrun. split; reflexivity.
  - intros t Hl Ht.
    destruct (cli_info_run w default_project c t Hl Ht) as [p [o Hrun]].
    rewrite Hrun. split; reflexivity.
Qed.

Lemma cli_queries_witness :
  Uploader.calls
    (Cli.cust
       (snd (Cli.main friendly_world "client-project"
               (Cli.mk_command_line "x.csv" "proj.ds.readings" None None false None None
                                    None (Some "optistock"%string) (Some "p.d.t"%string)))))
  = [Uploader.ListTables "client-project.optistock"].
Proof.
  apply (proj1 (cli_queries_send_one_read friendly_world "client-project"
                  (Cli.mk_command_line "x.csv" "proj.ds.readings" None None false None None
                                       None (Some "optistock"%string) (Some "p.d.t"%string))
                  eq_refl) "optistock"%string eq_refl).
Defined.
